(** * Cloud-Native-Design: phase gate, validation engine, template generators,
      project store and persistence boundary, embedded from the TypeScript
      sources and checked against the design specification.

    Sources embedded here:
    - [shared/schema.ts]            the data model (zod schemas);
    - [server/routes.ts]            POST /api/validate, POST /api/generate/dockerfile,
                                    POST /api/generate/k8s-manifest, the project routes;
    - the client project store      [canAdvanceToPhase], [updateProjectLocal],
                                    the add/remove operations of the eight collections;
    - the server storage class      [dbRowToProject], [getProject], [updateProject].

    Conventions of the embedding:
    - a JavaScript string is a [string]; only ASCII letters change case under
      [toLowerCase];
    - a JavaScript number is an integer [Z], printed in decimal as template
      literals print integers (fractions, NaN and exponent notation are outside
      the model);
    - an optional field is an [option]; [x || d] is written out as the
      truthiness test the operand's type has (empty string, zero, absent);
    - a template literal is the concatenation of its lines with the line feed
      between them, an interpolation that fills a whole line being one entry
      of the list;
    - [new Set<string>] is a [gset string];
    - the clock and the random source are oracles passed as arguments;
    - the [projects] table is a finite map from identifier to row; what
      PostgreSQL accepts and how it stores a value is a parameter of the
      storage functions ([Storage.Engine]), not a fact of the model. *)

From Stdlib Require Import ZArith String Ascii List Lia DecimalString.
From stdpp Require Import base strings gmap list.

(** ** JavaScript primitives used by the sources *)

Module JS.

(** The line feed and the double quote, which the templates contain. *)
Definition nl : string := String "010"%char EmptyString.
Definition dq : string := String "034"%char EmptyString.

(** [Array.prototype.join]. *)
Definition join (sep : string) (parts : list string) : string :=
  String.concat sep parts.

(** A template literal, line by line. *)
Definition template (lines : list string) : string := join nl lines.

(** Decimal rendering of an integer, as [`${n}`] gives it. *)
Definition numberToString (n : Z) : string :=
  NilZero.string_of_int (Z.to_int n).

(** [String.prototype.startsWith]. *)
Definition startsWith (pat s : string) : bool := String.prefix pat s.

(** Removal of the first [n] characters ([s.slice(n)]). *)
Fixpoint slice (n : nat) (s : string) : string :=
  match n, s with
  | O, _ => s
  | S _, EmptyString => EmptyString
  | S n', String _ s' => slice n' s'
  end.

(** [String.prototype.includes]. *)
Fixpoint includes (pat s : string) : bool :=
  if startsWith pat s then true
  else match s with
       | EmptyString => false
       | String _ s' => includes pat s'
       end.

(** [String.prototype.endsWith]. *)
Fixpoint endsWith (pat s : string) : bool :=
  if String.eqb pat s then true
  else match s with
       | EmptyString => false
       | String _ s' => endsWith pat s'
       end.

(** [String.prototype.replace] with a string pattern and a replacement that
    holds no dollar sign: only the first occurrence is replaced. *)
Fixpoint replace (pat rep s : string) : string :=
  if startsWith pat s then rep +:+ slice (String.length pat) s
  else match s with
       | EmptyString => EmptyString
       | String c s' => String c (replace pat rep s')
       end.

(** [String.prototype.toLowerCase] on ASCII. *)
Definition lowerAscii (c : ascii) : ascii :=
  let n := nat_of_ascii c in
  if (65 <=? n)%nat && (n <=? 90)%nat then ascii_of_nat (n + 32) else c.

Fixpoint toLowerCase (s : string) : string :=
  match s with
  | EmptyString => EmptyString
  | String c s' => String (lowerAscii c) (toLowerCase s')
  end.

(** Truthiness of a string and of a number. *)
Definition truthyString (s : string) : bool := negb (String.eqb s EmptyString).
Definition truthyNumber (n : Z) : bool := negb (n =? 0)%Z.

(** An optional object is truthy exactly when it is present. *)
Definition truthyOption {A : Type} (o : option A) : bool :=
  match o with Some _ => true | None => false end.

(** [s || d] on strings and [n || d] on numbers. *)
Definition orString (s d : string) : string := if truthyString s then s else d.
Definition orNumber (n d : Z) : Z := if truthyNumber n then n else d.

End JS.

(** ** The data model of [shared/schema.ts] *)

Module Schema.

Inductive CommunicationType := Sync | Async | EventDriven.

Record Service := {
  svc_id : string;
  svc_name : string;
  svc_description : string;
  svc_boundedContext : string;
  svc_responsibilities : list string;
  svc_dependencies : list string;
  svc_communicationType : CommunicationType;
  svc_dataOwnership : list string }.

Record BoundedContext := {
  bc_id : string;
  bc_name : string;
  bc_description : string;
  bc_domainEvents : list string;
  bc_aggregates : list string;
  bc_services : list string }.

Record EnvironmentVariable := {
  env_key : string;
  env_value : string;
  env_isSecret : bool }.

Record HealthCheck := {
  hc_path : string;
  hc_port : Z;
  hc_intervalSeconds : Z }.

Record ResourceLimits := {
  rl_cpuLimit : string;
  rl_memoryLimit : string;
  rl_cpuRequest : string;
  rl_memoryRequest : string }.

(** [buildType] is kept as the string the generators compare it with. *)
Record ContainerConfig := {
  cc_id : string;
  cc_serviceId : string;
  cc_baseImage : string;
  cc_buildType : string;
  cc_exposedPorts : list Z;
  cc_environmentVariables : list EnvironmentVariable;
  cc_healthCheck : option HealthCheck;
  cc_resourceLimits : option ResourceLimits }.

Inductive SloMetric := Availability | Latency | Throughput | ErrorRate.

Record SLODefinition := {
  slo_id : string;
  slo_serviceId : string;
  slo_metric : SloMetric;
  slo_target : Z;
  slo_unit : string;
  slo_window : string }.

Inductive AutoscalingType := HPA | VPA | KEDA.

Record AutoscalingStrategy := {
  as_id : string;
  as_serviceId : string;
  as_type : AutoscalingType;
  as_minReplicas : Z;
  as_maxReplicas : Z;
  as_targetMetric : string;
  as_targetValue : Z }.

(** A string-keyed record in insertion order ([z.record(z.string())]). *)
Definition StringRecord := list (string * string).

(** [deploymentStrategy] is kept as a string: the generator tests it for
    emptiness and compares it with a literal. *)
Record K8sManifest := {
  k8s_id : string;
  k8s_serviceId : string;
  k8s_deploymentStrategy : string;
  k8s_replicas : Z;
  k8s_namespace : string;
  k8s_labels : StringRecord;
  k8s_annotations : option StringRecord }.

Inductive ResilienceType := CircuitBreaker | Bulkhead | Retry | TimeoutPattern | RateLimiter.

(** The open configuration map of a resilience pattern: numeric parameters by name. *)
Record ResiliencePattern := {
  rp_id : string;
  rp_serviceId : string;
  rp_type : ResilienceType;
  rp_config : list (string * Z);
  rp_enabled : bool }.

Inductive LogLevel := LDebug | LInfo | LWarn | LError.
Inductive LogFormat := FJson | FText.
Inductive TraceExporter := Jaeger | Zipkin | Otlp.

Record MetricsConfig := {
  met_enabled : bool;
  met_endpoint : option string;
  met_scrapeInterval : option string }.

Record LoggingConfig := {
  log_enabled : bool;
  log_level : LogLevel;
  log_format : LogFormat }.

Record TracingConfig := {
  tr_enabled : bool;
  tr_samplingRate : option Z;
  tr_exporter : option TraceExporter }.

Record ObservabilityConfig := {
  obs_id : string;
  obs_serviceId : string;
  obs_metrics : MetricsConfig;
  obs_logging : LoggingConfig;
  obs_tracing : TracingConfig }.

(** [currentPhase] is the phase token as a string; timestamps are the ISO-8601
    strings the project carries on the wire. *)
Record ArchitectureProject := {
  id : string;
  name : string;
  description : string;
  currentPhase : string;
  boundedContexts : list BoundedContext;
  services : list Service;
  containerConfigs : list ContainerConfig;
  sloDefinitions : list SLODefinition;
  autoscalingStrategies : list AutoscalingStrategy;
  k8sManifests : list K8sManifest;
  resiliencePatterns : list ResiliencePattern;
  observabilityConfigs : list ObservabilityConfig;
  createdAt : string;
  updatedAt : string }.

(** [Partial<ArchitectureProject>]: every field may be left out. *)
Record PartialProject := {
  p_id : option string;
  p_name : option string;
  p_description : option string;
  p_currentPhase : option string;
  p_boundedContexts : option (list BoundedContext);
  p_services : option (list Service);
  p_containerConfigs : option (list ContainerConfig);
  p_sloDefinitions : option (list SLODefinition);
  p_autoscalingStrategies : option (list AutoscalingStrategy);
  p_k8sManifests : option (list K8sManifest);
  p_resiliencePatterns : option (list ResiliencePattern);
  p_observabilityConfigs : option (list ObservabilityConfig);
  p_createdAt : option string;
  p_updatedAt : option string }.

(** The empty partial project, [{}]. *)
Definition noUpdates : PartialProject :=
  {| p_id := None; p_name := None; p_description := None; p_currentPhase := None;
     p_boundedContexts := None; p_services := None; p_containerConfigs := None;
     p_sloDefinitions := None; p_autoscalingStrategies := None; p_k8sManifests := None;
     p_resiliencePatterns := None; p_observabilityConfigs := None;
     p_createdAt := None; p_updatedAt := None |}.

(** [validationResultSchema]; [status] holds the literal the engine wrote. *)
Record ValidationResult := {
  vr_id : string;
  vr_phase : string;
  vr_category : string;
  vr_status : string;
  vr_message : string;
  vr_details : option string }.

End Schema.

Import Schema.

(** ** HTTP outcomes of the routes *)

Module Http.

(** What a handler sends: a JSON body with status 200 or 201, or an error
    object [{ error }] with its status code. *)
Inductive Response (A : Type) :=
| Json (status : nat) (body : A)
| Failure (status : nat) (error : string).

Arguments Json {A} status body.
Arguments Failure {A} status error.

Definition statusOf {A : Type} (r : Response A) : nat :=
  match r with
  | Json status _ => status
  | Failure status _ => status
  end.

End Http.

(** ** The validation engine: POST /api/validate of [server/routes.ts] *)

Module Validation.

(** The handler's mutable state: the [validations] array and the number of
    calls made to [generateId] so far. *)
Record VState := {
  validations : list ValidationResult;
  idCalls : nat }.

Definition V (A : Type) : Type := VState -> A * VState.

Definition ret {A : Type} (a : A) : V A := fun st => (a, st).

Definition bind {A B : Type} (m : V A) (k : A -> V B) : V B :=
  fun st => let (a, st') := m st in k a st'.

#[export] Instance V_ret : MRet V := @ret.
#[export] Instance V_bind : MBind V := fun A B k m => bind m k.

Definition when (b : bool) (m : V unit) : V unit := if b then m else ret tt.

Section Engine.

(** [Date.now()] and [Math.random().toString(36).substr(2, 9)] at the k-th
    call of [generateId]. *)
Variable clock : nat -> Z.
Variable random : nat -> string.

Definition generateId : V string :=
  fun st =>
    ("val-" +:+ JS.numberToString (clock (idCalls st)) +:+ "-" +:+ random (idCalls st),
     {| validations := validations st; idCalls := S (idCalls st) |}).

(** [validations.push(r)]. *)
Definition push (r : ValidationResult) : V unit :=
  fun st => (tt, {| validations := validations st ++ [r]; idCalls := idCalls st |}).

(** [validations.push({ id: generateId(), phase, category, status, message, details })]. *)
Definition emit (phase category status message : string) (details : option string) : V unit :=
  i ← generateId;
  push {| vr_id := i; vr_phase := phase; vr_category := category;
          vr_status := status; vr_message := message; vr_details := details |}.

Definition lengthToString {A : Type} (l : list A) : string :=
  JS.numberToString (Z.of_nat (length l)).

(** The inner loop of the circular-dependency scan: [for (const dep of service.dependencies || [])]. *)
Fixpoint scanDependencies (serviceName : string) (deps : list string)
    (dependencies : gset string) : V (gset string) :=
  match deps with
  | [] => ret dependencies
  | dep :: rest =>
      let key := serviceName +:+ "->" +:+ dep in
      let reverse := dep +:+ "->" +:+ serviceName in
      when (bool_decide (reverse ∈ dependencies))
        (emit "A" "Dependencies" "error"
           ("Circular dependency detected: " +:+ serviceName +:+ " <-> " +:+ dep)
           (Some "Consider using async communication or event-driven patterns")) ;;
      scanDependencies serviceName rest ({[ key ]} ∪ dependencies)
  end.

(** The outer loop: [for (const service of project.services)]. *)
Fixpoint scanServices (svcs : list Service) (dependencies : gset string) : V (gset string) :=
  match svcs with
  | [] => ret dependencies
  | service :: rest =>
      deps' ← scanDependencies (svc_name service) (svc_dependencies service) dependencies;
      scanServices rest deps'
  end.

(** [case "A"]. *)
Definition validateA (project : ArchitectureProject) : V unit :=
  (if (length (services project) =? 0)%nat
   then emit "A" "Services" "failed" "No services defined"
          (Some "Add at least one microservice to proceed")
   else emit "A" "Services" "passed"
          (lengthToString (services project) +:+ " services defined") None) ;;
  (if (length (boundedContexts project) =? 0)%nat
   then emit "A" "Bounded Contexts" "warning" "No bounded contexts defined"
          (Some "Consider grouping services into bounded contexts for better organization")
   else emit "A" "Bounded Contexts" "passed"
          (lengthToString (boundedContexts project) +:+ " bounded contexts defined") None) ;;
  let orphanServices :=
    List.filter (fun s => negb (JS.truthyString (svc_boundedContext s))) (services project) in
  when (0 <? length orphanServices)%nat
    (emit "A" "Service Assignment" "warning"
       (lengthToString orphanServices +:+ " services not assigned to a bounded context")
       (Some "Assign services to bounded contexts for better domain organization")) ;;
  _ ← scanServices (services project) ∅;
  ret tt.

(** [case "B"]. *)
Definition validateB (project : ArchitectureProject) : V unit :=
  let configuredServices : gset string :=
    list_to_set (map cc_serviceId (containerConfigs project)) in
  let unconfigured :=
    List.filter (fun s => negb (bool_decide (svc_id s ∈ configuredServices))) (services project) in
  (if (0 <? length unconfigured)%nat
   then emit "B" "Configuration"
          (if (length unconfigured =? length (services project))%nat then "failed" else "warning")
          (lengthToString unconfigured +:+ " services not containerized")
          (Some ("Configure containers for: " +:+ JS.join ", " (map svc_name unconfigured)))
   else when (0 <? length (containerConfigs project))%nat
          (emit "B" "Configuration" "passed"
             "All services have container configurations" None)) ;;
  let singleStage :=
    List.filter (fun c => String.eqb (cc_buildType c) "single-stage") (containerConfigs project) in
  when (0 <? length singleStage)%nat
    (emit "B" "Build Optimization" "info"
       (lengthToString singleStage +:+ " services using single-stage builds")
       (Some "Consider multi-stage builds for smaller production images")) ;;
  let noHealthCheck :=
    List.filter (fun c => negb (JS.truthyOption (cc_healthCheck c))) (containerConfigs project) in
  when (0 <? length noHealthCheck)%nat
    (emit "B" "Health Checks" "warning"
       (lengthToString noHealthCheck +:+ " containers without health checks")
       (Some "Add health checks for better Kubernetes integration")).

(** [case "C"]. *)
Definition validateC (project : ArchitectureProject) : V unit :=
  (if (length (k8sManifests project) =? 0)%nat
   then emit "C" "Manifests" "failed" "No Kubernetes manifests defined"
          (Some "Generate deployment manifests to proceed")
   else emit "C" "Manifests" "passed"
          (lengthToString (k8sManifests project) +:+ " Kubernetes manifests configured") None) ;;
  when (length (sloDefinitions project) =? 0)%nat
    (emit "C" "SLOs" "warning" "No SLOs defined"
       (Some "Define service level objectives to track reliability")) ;;
  when (length (autoscalingStrategies project) =? 0)%nat
    (emit "C" "Autoscaling" "info" "No autoscaling configured"
       (Some "Consider adding autoscaling for dynamic workloads")).

(** [case "D"]. *)
Definition validateD (project : ArchitectureProject) : V unit :=
  (if (length (resiliencePatterns project) =? 0)%nat
   then emit "D" "Resilience" "warning" "No resilience patterns configured"
          (Some "Add circuit breakers and retries for fault tolerance")
   else emit "D" "Resilience" "passed"
          (lengthToString (resiliencePatterns project) +:+ " resilience patterns configured") None) ;;
  (if (length (observabilityConfigs project) =? 0)%nat
   then emit "D" "Observability" "warning" "No observability configured"
          (Some "Add metrics, logging, and tracing for operational visibility")
   else emit "D" "Observability" "passed"
          (lengthToString (observabilityConfigs project) +:+ " observability configurations") None).

(** [switch (phase)], which has no default case; a missing [phase] is [None]. *)
Definition validatePhase (project : ArchitectureProject) (phase : option string) : V unit :=
  match phase with
  | None => ret tt
  | Some token =>
      if String.eqb token "A" then validateA project
      else if String.eqb token "B" then validateB project
      else if String.eqb token "C" then validateC project
      else if String.eqb token "D" then validateD project
      else ret tt
  end.

(** The handler: 400 without a project, otherwise the validations pushed by
    the phase's rules, starting from an empty array. *)
Definition validate (project : option ArchitectureProject) (phase : option string)
    : Http.Response (list ValidationResult) :=
  match project with
  | None => Http.Failure 400 "Project data is required"
  | Some p =>
      let (_, st) := validatePhase p phase {| validations := []; idCalls := 0 |} in
      Http.Json 200 (validations st)
  end.

End Engine.

End Validation.

(** ** The template generators of [server/routes.ts] *)

Module Generators.

(** [env.isSecret ? `# ${env.key} - Set via secrets management` : `ENV ${env.key}="${env.value}"`]. *)
Definition renderEnv (env : EnvironmentVariable) : string :=
  if env_isSecret env
  then "# " +:+ env_key env +:+ " - Set via secrets management"
  else "ENV " +:+ env_key env +:+ "=" +:+ JS.dq +:+ env_value env +:+ JS.dq.

(** [(containerConfig.environmentVariables || []).map(...).join('\n')]. *)
Definition envSection (envs : list EnvironmentVariable) : string :=
  JS.join JS.nl (map renderEnv envs).

(** [(containerConfig.exposedPorts || []).map(port => `EXPOSE ${port}`).join('\n')]. *)
Definition exposeSection (ports : list Z) : string :=
  JS.join JS.nl (map (fun port => "EXPOSE " +:+ JS.numberToString port) ports).

(** [containerConfig.healthCheck ? `HEALTHCHECK ...` : '']; the directive spans
    two lines, the first ending in a backslash. *)
Definition healthCheckSection (healthCheck : option HealthCheck) : string :=
  match healthCheck with
  | Some hc =>
      JS.template
        [ "HEALTHCHECK --interval=" +:+ JS.numberToString (hc_intervalSeconds hc) +:+ "s \";
          "  CMD wget --quiet --tries=1 --spider http://localhost:"
            +:+ JS.numberToString (hc_port hc) +:+ hc_path hc +:+ " || exit 1" ]
  | None => EmptyString
  end.

(** [baseImage.replace("-alpine", "-slim").replace("-slim", "-alpine")], the
    image of the second stage. *)
Definition stage2Image (baseImage : string) : string :=
  JS.replace "-slim" "-alpine" (JS.replace "-alpine" "-slim" baseImage).

(** The lines of the multi-stage template. *)
Definition multiStageLines (containerConfig : ContainerConfig) (serviceName baseImage : string)
    : list string :=
    [ "# Multi-stage build for " +:+ serviceName;
      "# Stage 1: Build";
      "FROM " +:+ baseImage +:+ " AS builder";
      "WORKDIR /app";
      "COPY package*.json ./";
      "RUN npm ci --only=production";
      "COPY . .";
      "RUN npm run build";
      EmptyString;
      "# Stage 2: Production";
      "FROM " +:+ stage2Image baseImage;
      "WORKDIR /app";
      "COPY --from=builder /app/dist ./dist";
      "COPY --from=builder /app/node_modules ./node_modules";
      "COPY package*.json ./";
      EmptyString;
      envSection (cc_environmentVariables containerConfig);
      EmptyString;
      exposeSection (cc_exposedPorts containerConfig);
      EmptyString;
      healthCheckSection (cc_healthCheck containerConfig);
      EmptyString;
      "USER node";
      "CMD [" +:+ JS.dq +:+ "node" +:+ JS.dq +:+ ", " +:+ JS.dq +:+ "dist/index.js" +:+ JS.dq +:+ "]" ].

(** The lines of the single-stage template. *)
Definition singleStageLines (containerConfig : ContainerConfig) (serviceName baseImage : string)
    : list string :=
    [ "# Single-stage build for " +:+ serviceName;
      "FROM " +:+ baseImage;
      "WORKDIR /app";
      EmptyString;
      "COPY package*.json ./";
      "RUN npm ci --only=production";
      EmptyString;
      "COPY . .";
      EmptyString;
      envSection (cc_environmentVariables containerConfig);
      EmptyString;
      exposeSection (cc_exposedPorts containerConfig);
      EmptyString;
      healthCheckSection (cc_healthCheck containerConfig);
      EmptyString;
      "USER node";
      "CMD [" +:+ JS.dq +:+ "node" +:+ JS.dq +:+ ", " +:+ JS.dq +:+ "index.js" +:+ JS.dq +:+ "]" ].

(** The text built once the request is accepted. *)
Definition dockerfileText (containerConfig : ContainerConfig) (serviceName : string) : string :=
  let baseImage := JS.orString (cc_baseImage containerConfig) "node:20-alpine" in
  if String.eqb (cc_buildType containerConfig) "multi-stage"
  then JS.template (multiStageLines containerConfig serviceName baseImage)
  else JS.template (singleStageLines containerConfig serviceName baseImage).

(** POST /api/generate/dockerfile: 400 when the config or the service name is
    missing (an empty name counts as missing), else [{ dockerfile }]. *)
Definition generateDockerfile (containerConfig : option ContainerConfig)
    (serviceName : option string) : Http.Response string :=
  match containerConfig, serviceName with
  | Some cfg, Some sname =>
      if JS.truthyString sname
      then Http.Json 200 (dockerfileText cfg sname)
      else Http.Failure 400 "Container config and service name are required"
  | _, _ => Http.Failure 400 "Container config and service name are required"
  end.

(** Assignment to a property of a string-keyed object: an existing key keeps
    its place and takes the new value, a new key goes last.  (Keys that are
    canonical array indices, which JavaScript enumerates first, are outside
    the model.) *)
Fixpoint setProperty (key value : string) (record : StringRecord) : StringRecord :=
  match record with
  | [] => [(key, value)]
  | (k, v) :: rest =>
      if String.eqb k key then (k, value) :: rest
      else (k, v) :: setProperty key value rest
  end.

(** [{ ...(manifest.labels || {}), app: serviceName.toLowerCase() }]. *)
Definition manifestLabels (manifest : K8sManifest) (serviceName : string) : StringRecord :=
  setProperty "app" (JS.toLowerCase serviceName) (k8s_labels manifest).

(** [Object.entries(labels).map(([k, v]) => `    ${k}: "${v}"`).join('\n')]. *)
Definition labelSection (labels : StringRecord) : string :=
  JS.join JS.nl
    (map (fun '(k, v) => "    " +:+ k +:+ ": " +:+ JS.dq +:+ v +:+ JS.dq) labels).

(** [manifest.deploymentStrategy === 'RollingUpdate' ? `    rollingUpdate: ...` : '']. *)
Definition rollingUpdateSection (manifest : K8sManifest) : string :=
  if String.eqb (k8s_deploymentStrategy manifest) "RollingUpdate"
  then JS.template
         [ "    rollingUpdate:";
           "      maxSurge: 25%";
           "      maxUnavailable: 25%" ]
  else EmptyString.

(** [containerConfig?.exposedPorts?.[0] || 3000]. *)
Definition containerPort (containerConfig : option ContainerConfig) : Z :=
  match containerConfig with
  | Some cfg =>
      match cc_exposedPorts cfg with
      | port :: _ => JS.orNumber port 3000
      | [] => 3000
      end
  | None => 3000
  end.

(** [containerConfig?.resourceLimits?.<field> || fallback]. *)
Definition resourceField (containerConfig : option ContainerConfig)
    (field : ResourceLimits -> string) (fallback : string) : string :=
  match containerConfig with
  | Some cfg =>
      match cc_resourceLimits cfg with
      | Some limits => JS.orString (field limits) fallback
      | None => fallback
      end
  | None => fallback
  end.

(** [containerConfig?.healthCheck]. *)
Definition healthCheckOf (containerConfig : option ContainerConfig) : option HealthCheck :=
  match containerConfig with
  | Some cfg => cc_healthCheck cfg
  | None => None
  end.

(** [containerConfig?.healthCheck ? `        livenessProbe: ...` : '']. *)
Definition probeSection (healthCheck : option HealthCheck) : string :=
  match healthCheck with
  | Some hc =>
      JS.template
        [ "        livenessProbe:";
          "          httpGet:";
          "            path: " +:+ hc_path hc;
          "            port: " +:+ JS.numberToString (hc_port hc);
          "          initialDelaySeconds: 15";
          "          periodSeconds: " +:+ JS.numberToString (hc_intervalSeconds hc);
          "        readinessProbe:";
          "          httpGet:";
          "            path: " +:+ hc_path hc;
          "            port: " +:+ JS.numberToString (hc_port hc);
          "          initialDelaySeconds: 5";
          "          periodSeconds: 10" ]
  | None => EmptyString
  end.

(** The lines of the YAML template, the workload document first. *)
Definition manifestLines (manifest : K8sManifest) (serviceName : string)
    (containerConfig : option ContainerConfig) : list string :=
  let lower := JS.toLowerCase serviceName in
  let labels := manifestLabels manifest serviceName in
  [ "apiVersion: apps/v1";
    "kind: Deployment";
    "metadata:";
    "  name: " +:+ lower;
    "  namespace: " +:+ JS.orString (k8s_namespace manifest) "default";
    "  labels:";
    labelSection labels;
    "spec:";
    "  replicas: " +:+ JS.numberToString (JS.orNumber (k8s_replicas manifest) 3);
    "  selector:";
    "    matchLabels:";
    "      app: " +:+ lower;
    "  strategy:";
    "    type: " +:+ JS.orString (k8s_deploymentStrategy manifest) "RollingUpdate";
    rollingUpdateSection manifest;
    "  template:";
    "    metadata:";
    "      labels:";
    "        app: " +:+ lower;
    "    spec:";
    "      containers:";
    "      - name: " +:+ lower;
    "        image: " +:+ lower +:+ ":latest";
    "        ports:";
    "        - containerPort: " +:+ JS.numberToString (containerPort containerConfig);
    "        resources:";
    "          requests:";
    "            cpu: " +:+ resourceField containerConfig rl_cpuRequest "100m";
    "            memory: " +:+ resourceField containerConfig rl_memoryRequest "128Mi";
    "          limits:";
    "            cpu: " +:+ resourceField containerConfig rl_cpuLimit "500m";
    "            memory: " +:+ resourceField containerConfig rl_memoryLimit "512Mi";
    probeSection (healthCheckOf containerConfig);
    "---";
    "apiVersion: v1";
    "kind: Service";
    "metadata:";
    "  name: " +:+ lower +:+ "-svc";
    "  namespace: " +:+ JS.orString (k8s_namespace manifest) "default";
    "spec:";
    "  selector:";
    "    app: " +:+ lower;
    "  ports:";
    "  - port: 80";
    "    targetPort: " +:+ JS.numberToString (containerPort containerConfig);
    "  type: ClusterIP" ].

Definition manifestYaml (manifest : K8sManifest) (serviceName : string)
    (containerConfig : option ContainerConfig) : string :=
  JS.template (manifestLines manifest serviceName containerConfig).

(** POST /api/generate/k8s-manifest: 400 when the manifest or the service
    name is missing, else [{ manifest: yaml }]. *)
Definition generateK8sManifest (manifest : option K8sManifest) (serviceName : option string)
    (containerConfig : option ContainerConfig) : Http.Response string :=
  match manifest, serviceName with
  | Some m, Some sname =>
      if JS.truthyString sname
      then Http.Json 200 (manifestYaml m sname containerConfig)
      else Http.Failure 400 "Manifest and service name are required"
  | _, _ => Http.Failure 400 "Manifest and service name are required"
  end.

End Generators.

(** ** The client project store: phase gate and collection mutations *)

Module Store.

(** [canAdvanceToPhase]; the store's [project] is [null] before one is loaded. *)
Definition canAdvanceToPhase (project : option ArchitectureProject) (phase : string) : bool :=
  match project with
  | None => false
  | Some project =>
      if String.eqb phase "A" then true
      else if String.eqb phase "B" then (0 <? length (services project))%nat
      else if String.eqb phase "C" then (0 <? length (containerConfigs project))%nat
      else if String.eqb phase "D" then (0 <? length (k8sManifests project))%nat
      else false
  end.

(** [createEmptyProject]; [generated] is what [generateId()] returned and [now]
    the clock's reading. *)
Definition createEmptyProject (generated now name : string) (description : option string)
    : ArchitectureProject :=
  {| id := generated; name := name;
     description := match description with
                    | Some d => JS.orString d EmptyString
                    | None => EmptyString
                    end;
     currentPhase := "A";
     boundedContexts := []; services := []; containerConfigs := [];
     sloDefinitions := []; autoscalingStrategies := []; k8sManifests := [];
     resiliencePatterns := []; observabilityConfigs := [];
     createdAt := now; updatedAt := now |}.

(** [{ ...prev, ...updates }]: a field present in [updates] replaces the one of [prev]. *)
Definition spread (prev : ArchitectureProject) (updates : PartialProject) : ArchitectureProject :=
  {| id := default (id prev) (p_id updates);
     name := default (name prev) (p_name updates);
     description := default (description prev) (p_description updates);
     currentPhase := default (currentPhase prev) (p_currentPhase updates);
     boundedContexts := default (boundedContexts prev) (p_boundedContexts updates);
     services := default (services prev) (p_services updates);
     containerConfigs := default (containerConfigs prev) (p_containerConfigs updates);
     sloDefinitions := default (sloDefinitions prev) (p_sloDefinitions updates);
     autoscalingStrategies := default (autoscalingStrategies prev) (p_autoscalingStrategies updates);
     k8sManifests := default (k8sManifests prev) (p_k8sManifests updates);
     resiliencePatterns := default (resiliencePatterns prev) (p_resiliencePatterns updates);
     observabilityConfigs := default (observabilityConfigs prev) (p_observabilityConfigs updates);
     createdAt := default (createdAt prev) (p_createdAt updates);
     updatedAt := default (updatedAt prev) (p_updatedAt updates) |}.

(** [{ ...project, updatedAt: now }]. *)
Definition withUpdatedAt (now : string) (project : ArchitectureProject) : ArchitectureProject :=
  {| id := id project; name := name project; description := description project;
     currentPhase := currentPhase project; boundedContexts := boundedContexts project;
     services := services project; containerConfigs := containerConfigs project;
     sloDefinitions := sloDefinitions project;
     autoscalingStrategies := autoscalingStrategies project;
     k8sManifests := k8sManifests project; resiliencePatterns := resiliencePatterns project;
     observabilityConfigs := observabilityConfigs project;
     createdAt := createdAt project; updatedAt := now |}.

(** [updateProjectLocal]: the state updater [prev => prev ? { ...prev, ...updates,
    updatedAt: new Date().toISOString() } : null], [now] being the clock's reading. *)
Definition updateProjectLocal (updates : PartialProject) (now : string)
    (prev : option ArchitectureProject) : option ArchitectureProject :=
  match prev with
  | None => None
  | Some prev => Some (withUpdatedAt now (spread prev updates))
  end.

(** The object literals [{ <collection>: value }] handed to [updateProjectLocal]. *)
Definition onlyCurrentPhase (v : string) : PartialProject :=
  {| p_id := None; p_name := None; p_description := None; p_currentPhase := Some v;
     p_boundedContexts := None; p_services := None; p_containerConfigs := None;
     p_sloDefinitions := None; p_autoscalingStrategies := None; p_k8sManifests := None;
     p_resiliencePatterns := None; p_observabilityConfigs := None;
     p_createdAt := None; p_updatedAt := None |}.

Definition onlyBoundedContexts (v : list BoundedContext) : PartialProject :=
  {| p_id := None; p_name := None; p_description := None; p_currentPhase := None;
     p_boundedContexts := Some v; p_services := None; p_containerConfigs := None;
     p_sloDefinitions := None; p_autoscalingStrategies := None; p_k8sManifests := None;
     p_resiliencePatterns := None; p_observabilityConfigs := None;
     p_createdAt := None; p_updatedAt := None |}.

Definition onlyServices (v : list Service) : PartialProject :=
  {| p_id := None; p_name := None; p_description := None; p_currentPhase := None;
     p_boundedContexts := None; p_services := Some v; p_containerConfigs := None;
     p_sloDefinitions := None; p_autoscalingStrategies := None; p_k8sManifests := None;
     p_resiliencePatterns := None; p_observabilityConfigs := None;
     p_createdAt := None; p_updatedAt := None |}.

Definition onlyContainerConfigs (v : list ContainerConfig) : PartialProject :=
  {| p_id := None; p_name := None; p_description := None; p_currentPhase := None;
     p_boundedContexts := None; p_services := None; p_containerConfigs := Some v;
     p_sloDefinitions := None; p_autoscalingStrategies := None; p_k8sManifests := None;
     p_resiliencePatterns := None; p_observabilityConfigs := None;
     p_createdAt := None; p_updatedAt := None |}.

Definition onlySloDefinitions (v : list SLODefinition) : PartialProject :=
  {| p_id := None; p_name := None; p_description := None; p_currentPhase := None;
     p_boundedContexts := None; p_services := None; p_containerConfigs := None;
     p_sloDefinitions := Some v; p_autoscalingStrategies := None; p_k8sManifests := None;
     p_resiliencePatterns := None; p_observabilityConfigs := None;
     p_createdAt := None; p_updatedAt := None |}.

Definition onlyAutoscalingStrategies (v : list AutoscalingStrategy) : PartialProject :=
  {| p_id := None; p_name := None; p_description := None; p_currentPhase := None;
     p_boundedContexts := None; p_services := None; p_containerConfigs := None;
     p_sloDefinitions := None; p_autoscalingStrategies := Some v; p_k8sManifests := None;
     p_resiliencePatterns := None; p_observabilityConfigs := None;
     p_createdAt := None; p_updatedAt := None |}.

Definition onlyK8sManifests (v : list K8sManifest) : PartialProject :=
  {| p_id := None; p_name := None; p_description := None; p_currentPhase := None;
     p_boundedContexts := None; p_services := None; p_containerConfigs := None;
     p_sloDefinitions := None; p_autoscalingStrategies := None; p_k8sManifests := Some v;
     p_resiliencePatterns := None; p_observabilityConfigs := None;
     p_createdAt := None; p_updatedAt := None |}.

Definition onlyResiliencePatterns (v : list ResiliencePattern) : PartialProject :=
  {| p_id := None; p_name := None; p_description := None; p_currentPhase := None;
     p_boundedContexts := None; p_services := None; p_containerConfigs := None;
     p_sloDefinitions := None; p_autoscalingStrategies := None; p_k8sManifests := None;
     p_resiliencePatterns := Some v; p_observabilityConfigs := None;
     p_createdAt := None; p_updatedAt := None |}.

Definition onlyObservabilityConfigs (v : list ObservabilityConfig) : PartialProject :=
  {| p_id := None; p_name := None; p_description := None; p_currentPhase := None;
     p_boundedContexts := None; p_services := None; p_containerConfigs := None;
     p_sloDefinitions := None; p_autoscalingStrategies := None; p_k8sManifests := None;
     p_resiliencePatterns := None; p_observabilityConfigs := Some v;
     p_createdAt := None; p_updatedAt := None |}.

(** [project?.<collection> || []] and [project?.<collection>.filter(...) || []]:
    the collection read through the callback's [project], empty when it is [null]. *)
Definition read {A : Type} (collection : ArchitectureProject -> list A)
    (project : option ArchitectureProject) : list A :=
  match project with
  | Some p => collection p
  | None => []
  end.

(** [xs.filter(x => x.id !== id)]. *)
Definition without {A : Type} (idOf : A -> string) (i : string) (xs : list A) : list A :=
  List.filter (fun x => negb (String.eqb (idOf x) i)) xs.

(** The updates each callback computes from the [project] it closed over. *)
Definition addBoundedContext (project : option ArchitectureProject) (context : BoundedContext) :=
  onlyBoundedContexts (read boundedContexts project ++ [context]).
Definition removeBoundedContext (project : option ArchitectureProject) (i : string) :=
  onlyBoundedContexts (without bc_id i (read boundedContexts project)).

Definition addService (project : option ArchitectureProject) (service : Service) :=
  onlyServices (read services project ++ [service]).
Definition removeService (project : option ArchitectureProject) (i : string) :=
  onlyServices (without svc_id i (read services project)).

Definition addContainerConfig (project : option ArchitectureProject) (config : ContainerConfig) :=
  onlyContainerConfigs (read containerConfigs project ++ [config]).
Definition removeContainerConfig (project : option ArchitectureProject) (i : string) :=
  onlyContainerConfigs (without cc_id i (read containerConfigs project)).

Definition addSLO (project : option ArchitectureProject) (slo : SLODefinition) :=
  onlySloDefinitions (read sloDefinitions project ++ [slo]).
Definition removeSLO (project : option ArchitectureProject) (i : string) :=
  onlySloDefinitions (without slo_id i (read sloDefinitions project)).

Definition addAutoscaling (project : option ArchitectureProject) (strategy : AutoscalingStrategy) :=
  onlyAutoscalingStrategies (read autoscalingStrategies project ++ [strategy]).
Definition removeAutoscaling (project : option ArchitectureProject) (i : string) :=
  onlyAutoscalingStrategies (without as_id i (read autoscalingStrategies project)).

Definition addK8sManifest (project : option ArchitectureProject) (manifest : K8sManifest) :=
  onlyK8sManifests (read k8sManifests project ++ [manifest]).
Definition removeK8sManifest (project : option ArchitectureProject) (i : string) :=
  onlyK8sManifests (without k8s_id i (read k8sManifests project)).

Definition addResiliencePattern (project : option ArchitectureProject) (pattern : ResiliencePattern) :=
  onlyResiliencePatterns (read resiliencePatterns project ++ [pattern]).
Definition removeResiliencePattern (project : option ArchitectureProject) (i : string) :=
  onlyResiliencePatterns (without rp_id i (read resiliencePatterns project)).

Definition addObservabilityConfig (project : option ArchitectureProject) (config : ObservabilityConfig) :=
  onlyObservabilityConfigs (read observabilityConfigs project ++ [config]).
Definition removeObservabilityConfig (project : option ArchitectureProject) (i : string) :=
  onlyObservabilityConfigs (without obs_id i (read observabilityConfigs project)).

(** [setPhase]'s update of the project (the gate is not consulted). *)
Definition setPhase (phase : string) : PartialProject := onlyCurrentPhase phase.

(** One mutation of the store: the callback of the current render computes its
    updates from the current project, and [updateProjectLocal] merges them
    into that same project. *)
Definition mutate (callback : option ArchitectureProject -> PartialProject) (now : string)
    (project : option ArchitectureProject) : option ArchitectureProject :=
  updateProjectLocal (callback project) now project.

End Store.

(** ** The persistence boundary: the storage class and the project routes *)

Module Storage.

(** A row of the [projects] table without its primary key: the table is the
    finite map from [id] to the other columns.  [description] is the only
    nullable column; the two timestamps are held as the ISO-8601 strings
    [toISOString] prints for them. *)
Record DbRow := {
  row_name : string;
  row_description : option string;
  row_currentPhase : string;
  row_boundedContexts : list BoundedContext;
  row_services : list Service;
  row_containerConfigs : list ContainerConfig;
  row_sloDefinitions : list SLODefinition;
  row_autoscalingStrategies : list AutoscalingStrategy;
  row_k8sManifests : list K8sManifest;
  row_resiliencePatterns : list ResiliencePattern;
  row_observabilityConfigs : list ObservabilityConfig;
  row_createdAt : string;
  row_updatedAt : string }.

(** [dbRowToProject]: a null or empty description reads as the empty string;
    the array and timestamp fallbacks never fire on columns that are not null. *)
Definition dbRowToProject (i : string) (row : DbRow) : ArchitectureProject :=
  {| id := i;
     name := row_name row;
     description :=
       match row_description row with
       | Some d => JS.orString d EmptyString
       | None => EmptyString
       end;
     currentPhase := row_currentPhase row;
     boundedContexts := row_boundedContexts row;
     services := row_services row;
     containerConfigs := row_containerConfigs row;
     sloDefinitions := row_sloDefinitions row;
     autoscalingStrategies := row_autoscalingStrategies row;
     k8sManifests := row_k8sManifests row;
     resiliencePatterns := row_resiliencePatterns row;
     observabilityConfigs := row_observabilityConfigs row;
     createdAt := row_createdAt row;
     updatedAt := row_updatedAt row |}.

(** [getProject], for an identifier the database binds:
    [select().from(projects).where(eq(projects.id, id))].  The callers that
    can be handed another identifier test it first ([bindsId] below). *)
Definition getProject (i : string) (db : gmap string DbRow) : option ArchitectureProject :=
  dbRowToProject i <$> db !! i.

(** [getAllProjects]. *)
Definition getAllProjects (db : gmap string DbRow) : list ArchitectureProject :=
  map (fun '(i, row) => dbRowToProject i row) (map_to_list db).

(** The [updateData] object of [updateProject]: [updatedAt] always, and every
    updatable field of [updates] that is not [undefined]. *)
Definition updateData (updates : PartialProject) (now : string) : PartialProject :=
  {| p_id := None;
     p_name := p_name updates;
     p_description := p_description updates;
     p_currentPhase := p_currentPhase updates;
     p_boundedContexts := p_boundedContexts updates;
     p_services := p_services updates;
     p_containerConfigs := p_containerConfigs updates;
     p_sloDefinitions := p_sloDefinitions updates;
     p_autoscalingStrategies := p_autoscalingStrategies updates;
     p_k8sManifests := p_k8sManifests updates;
     p_resiliencePatterns := p_resiliencePatterns updates;
     p_observabilityConfigs := p_observabilityConfigs updates;
     p_createdAt := None;
     p_updatedAt := Some now |}.

(** What the database does with the values bound to a statement, which the
    code does not decide and the model leaves open: whether it binds an
    identifier at all, and, for the value written to a column, whether it
    accepts it and in which form it stores it (a text as the driver encodes
    it, a phase within the length of [varchar(1)], a [jsonb] document
    normalised).  [None] is a refusal: the statement throws and writes
    nothing. *)
Record Engine := {
  bindsId : string -> bool;
  storedText : string -> option string;
  storedPhase : string -> option string;
  storedJson : forall A : Type, list A -> option (list A) }.

Arguments storedJson _ {A} _.

(** What a storage call does: it returns a value, or a database error is thrown. *)
Inductive Outcome (A : Type) :=
| Returned (a : A)
| Thrown.

Arguments Returned {A} a.
Arguments Thrown {A}.

(** The body of a create request as the route receives it. *)
Record InsertBody := {
  ib_name : option string;
  ib_description : option string }.

Record InsertProject := {
  ip_name : string;
  ip_description : option string }.

(** [insertProjectSchema.safeParse]: the name is required and not empty. *)
Definition safeParse (body : InsertBody) : option InsertProject :=
  match ib_name body with
  | Some n =>
      if (1 <=? String.length n)%nat
      then Some {| ip_name := n; ip_description := ib_description body |}
      else None
  | None => None
  end.

(** The row of a new project, from the name and the description as the
    database stores them: phase A, nothing in the collections, both
    timestamps the time of the insert. *)
Definition newRow (storedName storedDescription now : string) : DbRow :=
  {| row_name := storedName;
     row_description := Some storedDescription;
     row_currentPhase := "A";
     row_boundedContexts := []; row_services := []; row_containerConfigs := [];
     row_sloDefinitions := []; row_autoscalingStrategies := []; row_k8sManifests := [];
     row_resiliencePatterns := []; row_observabilityConfigs := [];
     row_createdAt := now; row_updatedAt := now |}.

Section Database.

Variable engine : Engine.

(** The column after [.set]: the stored form of a supplied value, the value
    held when none is supplied. *)
Definition column {A : Type} (store : A -> option A) (supplied : option A) (held : A)
    : option A :=
  match supplied with
  | Some value => store value
  | None => Some held
  end.

(** [.set(updateData)] on one row: the row as the database stores it, or
    [None] when it refuses one of the supplied values. *)
Definition setColumns (data : PartialProject) (row : DbRow) : option DbRow :=
  name' ← column (storedText engine) (p_name data) (row_name row);
  description' ← match p_description data with
                 | Some d => Some <$> storedText engine d
                 | None => Some (row_description row)
                 end;
  phase' ← column (storedPhase engine) (p_currentPhase data) (row_currentPhase row);
  contexts' ← column (storedJson engine) (p_boundedContexts data) (row_boundedContexts row);
  services' ← column (storedJson engine) (p_services data) (row_services row);
  configs' ← column (storedJson engine) (p_containerConfigs data) (row_containerConfigs row);
  slos' ← column (storedJson engine) (p_sloDefinitions data) (row_sloDefinitions row);
  strategies' ← column (storedJson engine) (p_autoscalingStrategies data)
                  (row_autoscalingStrategies row);
  manifests' ← column (storedJson engine) (p_k8sManifests data) (row_k8sManifests row);
  patterns' ← column (storedJson engine) (p_resiliencePatterns data)
                (row_resiliencePatterns row);
  observability' ← column (storedJson engine) (p_observabilityConfigs data)
                     (row_observabilityConfigs row);
  Some {| row_name := name';
          row_description := description';
          row_currentPhase := phase';
          row_boundedContexts := contexts';
          row_services := services';
          row_containerConfigs := configs';
          row_sloDefinitions := slos';
          row_autoscalingStrategies := strategies';
          row_k8sManifests := manifests';
          row_resiliencePatterns := patterns';
          row_observabilityConfigs := observability';
          row_createdAt := default (row_createdAt row) (p_createdAt data);
          row_updatedAt := default (row_updatedAt row) (p_updatedAt data) |}.

(** [updateProject]: the read of the existing project throws on an identifier
    the database does not bind; [undefined] when the project does not exist;
    otherwise the row after
    [update(projects).set(updateData).where(eq(projects.id, id))], read back
    through [dbRowToProject], unless the database refuses the update. *)
Definition updateProject (i : string) (updates : PartialProject) (now : string)
    (db : gmap string DbRow) : Outcome (option ArchitectureProject) * gmap string DbRow :=
  if bindsId engine i
  then match getProject i db with
       | None => (Returned None, db)
       | Some existing =>
           match db !! i with
           | None => (Returned None, db)
           | Some row =>
               match setColumns (updateData updates now) row with
               | Some row' => (Returned (Some (dbRowToProject i row')), <[i := row']> db)
               | None => (Thrown, db)
               end
           end
       end
  else (Thrown, db).

(** [deleteProject]: whether a row was deleted. *)
Definition deleteProject (i : string) (db : gmap string DbRow)
    : Outcome bool * gmap string DbRow :=
  if bindsId engine i
  then (Returned (bool_decide (is_Some (db !! i))), delete i db)
  else (Thrown, db).

(** [createProject]: the row inserted under the identifier [randomUUID()]
    returned; the insert throws when the identifier is already a primary key
    or the database refuses a value. *)
Definition createProject (insertProject : InsertProject) (uuid now : string)
    (db : gmap string DbRow) : Outcome ArchitectureProject * gmap string DbRow :=
  if bindsId engine uuid
  then match db !! uuid,
             storedText engine (ip_name insertProject),
             storedText engine (match ip_description insertProject with
                                | Some d => JS.orString d EmptyString
                                | None => EmptyString
                                end) with
       | None, Some storedName, Some storedDescription =>
           let row := newRow storedName storedDescription now in
           (Returned (dbRowToProject uuid row), <[uuid := row]> db)
       | _, _, _ => (Thrown, db)
       end
  else (Thrown, db).

Section Routes.

(** The text zod gives for a rejected body ([parsed.error.message]). *)
Variable zodMessage : InsertBody -> string.

(** POST /api/projects: 400 on a rejected body, 201 with the created project,
    500 when [createProject] throws. *)
Definition postProject (body : InsertBody) (uuid now : string) (db : gmap string DbRow)
    : Http.Response ArchitectureProject * gmap string DbRow :=
  match safeParse body with
  | None => (Http.Failure 400 (zodMessage body), db)
  | Some parsed =>
      match createProject parsed uuid now db with
      | (Returned project, db') => (Http.Json 201 project, db')
      | (Thrown, db') => (Http.Failure 500 "Failed to create project", db')
      end
  end.

End Routes.

(** PATCH /api/projects/:id: the body goes to [updateProject] unvalidated;
    404 when it returns [undefined], 500 when it throws. *)
Definition patchProject (i : string) (body : PartialProject) (now : string)
    (db : gmap string DbRow) : Http.Response ArchitectureProject * gmap string DbRow :=
  match updateProject i body now db with
  | (Returned None, db') => (Http.Failure 404 "Project not found", db')
  | (Returned (Some project), db') => (Http.Json 200 project, db')
  | (Thrown, db') => (Http.Failure 500 "Failed to update project", db')
  end.

End Database.

(** GET /api/projects/:id on an identifier the database binds: 404 or the
    project. *)
Definition getProjectRoute (i : string) (db : gmap string DbRow)
    : Http.Response ArchitectureProject :=
  match getProject i db with
  | None => Http.Failure 404 "Project not found"
  | Some project => Http.Json 200 project
  end.

(** GET /api/projects/:id on any identifier: on one the database does not
    bind the select throws, which the handler answers with 500. *)
Definition getProjectRequest (engine : Engine) (i : string) (db : gmap string DbRow)
    : Http.Response ArchitectureProject :=
  if bindsId engine i then getProjectRoute i db
  else Http.Failure 500 "Failed to fetch project".

End Storage.

(** ** The store's update callbacks, save handlers and phase state *)

Module StoreEdits.

(** [Partial<Service>]. *)
Record PartialService := {
  ps_id : option string;
  ps_name : option string;
  ps_description : option string;
  ps_boundedContext : option string;
  ps_responsibilities : option (list string);
  ps_dependencies : option (list string);
  ps_communicationType : option CommunicationType;
  ps_dataOwnership : option (list string) }.

(** [{ ...svc, ...updates }]. *)
Definition spreadService (svc : Service) (updates : PartialService) : Service :=
  {| svc_id := default (svc_id svc) (ps_id updates);
     svc_name := default (svc_name svc) (ps_name updates);
     svc_description := default (svc_description svc) (ps_description updates);
     svc_boundedContext := default (svc_boundedContext svc) (ps_boundedContext updates);
     svc_responsibilities := default (svc_responsibilities svc) (ps_responsibilities updates);
     svc_dependencies := default (svc_dependencies svc) (ps_dependencies updates);
     svc_communicationType := default (svc_communicationType svc) (ps_communicationType updates);
     svc_dataOwnership := default (svc_dataOwnership svc) (ps_dataOwnership updates) |}.

(** [updateService]: [project?.services.map(svc => svc.id === id ? { ...svc, ...updates } : svc) || []]. *)
Definition updateService (project : option ArchitectureProject) (i : string)
    (updates : PartialService) : PartialProject :=
  Store.onlyServices
    (map (fun svc => if String.eqb (svc_id svc) i then spreadService svc updates else svc)
       (Store.read services project)).

(** A whole service handed over as the [updates] of [updateService]. *)
Definition wholeService (s : Service) : PartialService :=
  {| ps_id := Some (svc_id s); ps_name := Some (svc_name s);
     ps_description := Some (svc_description s);
     ps_boundedContext := Some (svc_boundedContext s);
     ps_responsibilities := Some (svc_responsibilities s);
     ps_dependencies := Some (svc_dependencies s);
     ps_communicationType := Some (svc_communicationType s);
     ps_dataOwnership := Some (svc_dataOwnership s) |}.

(** [Partial<ContainerConfig>]; an optional field may be present and hold
    [undefined], which the spread then copies. *)
Record PartialContainerConfig := {
  pc_id : option string;
  pc_serviceId : option string;
  pc_baseImage : option string;
  pc_buildType : option string;
  pc_exposedPorts : option (list Z);
  pc_environmentVariables : option (list EnvironmentVariable);
  pc_healthCheck : option (option HealthCheck);
  pc_resourceLimits : option (option ResourceLimits) }.

(** [{ ...cfg, ...updates }]. *)
Definition spreadContainerConfig (cfg : ContainerConfig) (updates : PartialContainerConfig)
    : ContainerConfig :=
  {| cc_id := default (cc_id cfg) (pc_id updates);
     cc_serviceId := default (cc_serviceId cfg) (pc_serviceId updates);
     cc_baseImage := default (cc_baseImage cfg) (pc_baseImage updates);
     cc_buildType := default (cc_buildType cfg) (pc_buildType updates);
     cc_exposedPorts := default (cc_exposedPorts cfg) (pc_exposedPorts updates);
     cc_environmentVariables :=
       default (cc_environmentVariables cfg) (pc_environmentVariables updates);
     cc_healthCheck := default (cc_healthCheck cfg) (pc_healthCheck updates);
     cc_resourceLimits := default (cc_resourceLimits cfg) (pc_resourceLimits updates) |}.

(** [updateContainerConfig]. *)
Definition updateContainerConfig (project : option ArchitectureProject) (i : string)
    (updates : PartialContainerConfig) : PartialProject :=
  Store.onlyContainerConfigs
    (map (fun cfg => if String.eqb (cc_id cfg) i then spreadContainerConfig cfg updates else cfg)
       (Store.read containerConfigs project)).

(** A whole configuration handed over as the [updates] of [updateContainerConfig]:
    every key is present, the optional ones with the value they have. *)
Definition wholeContainerConfig (c : ContainerConfig) : PartialContainerConfig :=
  {| pc_id := Some (cc_id c); pc_serviceId := Some (cc_serviceId c);
     pc_baseImage := Some (cc_baseImage c); pc_buildType := Some (cc_buildType c);
     pc_exposedPorts := Some (cc_exposedPorts c);
     pc_environmentVariables := Some (cc_environmentVariables c);
     pc_healthCheck := Some (cc_healthCheck c);
     pc_resourceLimits := Some (cc_resourceLimits c) |}.

(** [handleSaveService] of the phase-A workspace: [updateService(service.id, service)]
    when a service is being edited, [addService(service)] otherwise. *)
Definition handleSaveService (editingService : option Service) (service : Service)
    (project : option ArchitectureProject) : PartialProject :=
  match editingService with
  | Some _ => updateService project (svc_id service) (wholeService service)
  | None => Store.addService project service
  end.

(** [handleSaveConfig] of the phase-B workspace. *)
Definition handleSaveConfig (editingConfig : option ContainerConfig) (config : ContainerConfig)
    (project : option ArchitectureProject) : PartialProject :=
  match editingConfig with
  | Some _ => updateContainerConfig project (cc_id config) (wholeContainerConfig config)
  | None => Store.addContainerConfig project config
  end.

(** The two pieces of provider state that navigation reads: the project and
    the current phase (validation results, recommendations and the busy flags
    are left out). *)
Record StoreState := {
  st_project : option ArchitectureProject;
  st_currentPhase : string }.

(** [useState(null)] and [useState("A")]. *)
Definition initialState : StoreState :=
  {| st_project := None; st_currentPhase := "A" |}.

(** [loadProject]. *)
Definition loadProject (proj : ArchitectureProject) (st : StoreState) : StoreState :=
  {| st_project := Some proj; st_currentPhase := currentPhase proj |}.

(** [resetProject]. *)
Definition resetProject (st : StoreState) : StoreState :=
  {| st_project := None; st_currentPhase := "A" |}.

(** [createProject] once it has a project, the server's or the local fallback:
    [setProject(newProject); setCurrentPhase("A")]. *)
Definition projectCreated (newProject : ArchitectureProject) (st : StoreState) : StoreState :=
  {| st_project := Some newProject; st_currentPhase := "A" |}.

(** [setPhase]: [setCurrentPhase(phase); updateProjectLocal({ currentPhase: phase })]. *)
Definition setPhase (phase now : string) (st : StoreState) : StoreState :=
  {| st_project := Store.updateProjectLocal (Store.setPhase phase) now (st_project st);
     st_currentPhase := phase |}.

(** A collection mutation: the phase is not touched. *)
Definition mutate (callback : option ArchitectureProject -> PartialProject) (now : string)
    (st : StoreState) : StoreState :=
  {| st_project := Store.mutate callback now (st_project st);
     st_currentPhase := st_currentPhase st |}.

End StoreEdits.

(** ** Phase navigation: the progress bar and the sidebar *)

Module Navigation.

Definition phaseOrder : list string := ["A"; "B"; "C"; "D"].

(** [Array.prototype.indexOf], -1 when the element is absent. *)
Fixpoint indexOfFrom (x : string) (xs : list string) (i : Z) : Z :=
  match xs with
  | [] => (-1)%Z
  | y :: rest => if String.eqb y x then i else indexOfFrom x rest (i + 1)%Z
  end.

Definition indexOf (x : string) (xs : list string) : Z := indexOfFrom x xs 0.

(** [getPhaseStatus]. *)
Definition getPhaseStatus (currentPhase phase : string) : string :=
  let currentIndex := indexOf currentPhase phaseOrder in
  let phaseIndex := indexOf phase phaseOrder in
  if (phaseIndex <? currentIndex)%Z then "completed"
  else if (phaseIndex =? currentIndex)%Z then "current"
  else "upcoming".

(** [isClickable]: [phaseOrder.indexOf(phase.id) <= phaseOrder.indexOf(currentPhase)
    || canAdvanceToPhase(phase.id)]. *)
Definition isClickable (st : StoreEdits.StoreState) (phase : string) : bool :=
  (indexOf phase phaseOrder <=? indexOf (StoreEdits.st_currentPhase st) phaseOrder)%Z
  || Store.canAdvanceToPhase (StoreEdits.st_project st) phase.

(** [handlePhaseClick]. *)
Definition handlePhaseClick (phase now : string) (st : StoreEdits.StoreState)
    : StoreEdits.StoreState :=
  let phaseIndex := indexOf phase phaseOrder in
  let currentIndex := indexOf (StoreEdits.st_currentPhase st) phaseOrder in
  if (phaseIndex <=? currentIndex)%Z || Store.canAdvanceToPhase (StoreEdits.st_project st) phase
  then StoreEdits.setPhase phase now st
  else st.

(** [getPhaseItemCount] of the sidebar, which is rendered only with a project. *)
Definition getPhaseItemCount (project : ArchitectureProject) (phase : string) : nat :=
  if String.eqb phase "A" then length (services project)
  else if String.eqb phase "B" then length (containerConfigs project)
  else if String.eqb phase "C" then length (k8sManifests project)
  else if String.eqb phase "D"
       then length (resiliencePatterns project) + length (observabilityConfigs project)
  else 0.

End Navigation.

(** ** The validation panel *)

Module Panel.

Record StatusStyle := {
  style_icon : string;
  style_color : string;
  style_bg : string }.

(** The own properties of [statusConfig].  (Statuses that name a property
    inherited from [Object.prototype] are outside the model.) *)
Definition statusConfig (status : string) : option StatusStyle :=
  if String.eqb status "passed"
  then Some {| style_icon := "CheckCircle";
               style_color := "text-green-600 dark:text-green-400";
               style_bg := "bg-green-50 dark:bg-green-950/30" |}
  else if String.eqb status "warning"
  then Some {| style_icon := "AlertTriangle";
               style_color := "text-yellow-600 dark:text-yellow-400";
               style_bg := "bg-yellow-50 dark:bg-yellow-950/30" |}
  else if String.eqb status "failed"
  then Some {| style_icon := "XCircle";
               style_color := "text-red-600 dark:text-red-400";
               style_bg := "bg-red-50 dark:bg-red-950/30" |}
  else None.

(** What rendering an item comes to: the style it is drawn with, or the
    [TypeError] of reading a property of [undefined]. *)
Inductive Rendering :=
| Drawn (style : StatusStyle)
| TypeError.

(** [ValidationItem]: [const config = statusConfig[result.status]; const Icon = config.icon]. *)
Definition validationItem (result : ValidationResult) : Rendering :=
  match statusConfig (vr_status result) with
  | Some config => Drawn config
  | None => TypeError
  end.

(** [validationResults.filter(r => r.phase === currentPhase)]. *)
Definition phaseResults (validationResults : list ValidationResult) (currentPhase : string)
    : list ValidationResult :=
  List.filter (fun r => String.eqb (vr_phase r) currentPhase) validationResults.

(** [phaseResults.filter(r => r.status === status).length]. *)
Definition statusCount (status : string) (results : list ValidationResult) : nat :=
  length (List.filter (fun r => String.eqb (vr_status r) status) results).

Definition passedCount (results : list ValidationResult) : nat := statusCount "passed" results.
Definition warningCount (results : list ValidationResult) : nat := statusCount "warning" results.
Definition failedCount (results : list ValidationResult) : nat := statusCount "failed" results.

(** The list of checks: every phase result goes through [ValidationItem], and
    one that throws takes the list with it. *)
Fixpoint renderChecks (results : list ValidationResult) : option (list StatusStyle) :=
  match results with
  | [] => Some []
  | result :: rest =>
      match validationItem result, renderChecks rest with
      | Drawn style, Some styles => Some (style :: styles)
      | _, _ => None
      end
  end.

End Panel.

(** ** More JavaScript string primitives: [split] and [trim] *)

Module JSText.

(** [String.prototype.split] with a separator of one character: the pieces
    between the separators, at least one piece. *)
Fixpoint split (sep : ascii) (s : string) : list string :=
  match s with
  | EmptyString => [EmptyString]
  | String c rest =>
      if Ascii.eqb c sep then EmptyString :: split sep rest
      else match split sep rest with
           | piece :: pieces => String c piece :: pieces
           | [] => [String c EmptyString]
           end
  end.

(** White space of the ASCII range: tab, line feed, vertical tab, form feed,
    carriage return and space.  (The white space outside ASCII that [trim]
    also strips is outside the model.) *)
Definition isSpace (c : ascii) : bool :=
  let n := nat_of_ascii c in
  ((9 <=? n)%nat && (n <=? 13)%nat) || (n =? 32)%nat.

Fixpoint trimStart (s : string) : string :=
  match s with
  | EmptyString => EmptyString
  | String c rest => if isSpace c then trimStart rest else s
  end.

Fixpoint trimEnd (s : string) : string :=
  match s with
  | EmptyString => EmptyString
  | String c rest =>
      match trimEnd rest with
      | EmptyString => if isSpace c then EmptyString else String c EmptyString
      | kept => String c kept
      end
  end.

(** [String.prototype.trim]. *)
Definition trim (s : string) : string := trimEnd (trimStart s).

End JSText.

(** ** The client's previews and dialogs (phase-B and phase-C workspaces) *)

Module Preview.

(** [generateDockerfile] of the phase-B workspace, which builds the preview in
    the browser. *)
Definition generateDockerfile (config : ContainerConfig) (serviceName : string) : string :=
  let baseImage := JS.orString (cc_baseImage config) "node:20-alpine" in
  let envLines :=
    JS.join JS.nl
      (map (fun env =>
              if env_isSecret env
              then "# " +:+ env_key env +:+ " - Set via secrets management"
              else "ENV " +:+ env_key env +:+ "=" +:+ JS.dq +:+ env_value env +:+ JS.dq)
         (cc_environmentVariables config)) in
  let exposeLines :=
    JS.join JS.nl
      (map (fun port => "EXPOSE " +:+ JS.numberToString port) (cc_exposedPorts config)) in
  let healthLines :=
    match cc_healthCheck config with
    | Some hc =>
        JS.template
          [ "HEALTHCHECK --interval=" +:+ JS.numberToString (hc_intervalSeconds hc) +:+ "s \";
            "  CMD wget --quiet --tries=1 --spider http://localhost:"
              +:+ JS.numberToString (hc_port hc) +:+ hc_path hc +:+ " || exit 1" ]
    | None => EmptyString
    end in
  if String.eqb (cc_buildType config) "multi-stage"
  then JS.template
         [ "# Multi-stage build for " +:+ serviceName;
           "# Stage 1: Build";
           "FROM " +:+ baseImage +:+ " AS builder";
           "WORKDIR /app";
           "COPY package*.json ./";
           "RUN npm ci --only=production";
           "COPY . .";
           "RUN npm run build";
           EmptyString;
           "# Stage 2: Production";
           "FROM " +:+ JS.replace "-slim" "-alpine" (JS.replace "-alpine" "-slim" baseImage);
           "WORKDIR /app";
           "COPY --from=builder /app/dist ./dist";
           "COPY --from=builder /app/node_modules ./node_modules";
           "COPY package*.json ./";
           EmptyString;
           envLines;
           EmptyString;
           exposeLines;
           EmptyString;
           healthLines;
           EmptyString;
           "USER node";
           "CMD [" +:+ JS.dq +:+ "node" +:+ JS.dq +:+ ", " +:+ JS.dq +:+ "dist/index.js"
             +:+ JS.dq +:+ "]" ]
  else JS.template
         [ "# Single-stage build for " +:+ serviceName;
           "FROM " +:+ baseImage;
           "WORKDIR /app";
           EmptyString;
           "COPY package*.json ./";
           "RUN npm ci --only=production";
           EmptyString;
           "COPY . .";
           EmptyString;
           envLines;
           EmptyString;
           exposeLines;
           EmptyString;
           healthLines;
           EmptyString;
           "USER node";
           "CMD [" +:+ JS.dq +:+ "node" +:+ JS.dq +:+ ", " +:+ JS.dq +:+ "index.js"
             +:+ JS.dq +:+ "]" ].

(** [Object.entries(record).map(([k, v]) => `    ${k}: "${v}"`).join('\n')]. *)
Definition entryLines (record : StringRecord) : string :=
  JS.join JS.nl (map (fun '(k, v) => "    " +:+ k +:+ ": " +:+ JS.dq +:+ v +:+ JS.dq) record).

(** [manifest.annotations ? `  annotations:\n${...}` : '']: an object, even an
    empty one, is truthy. *)
Definition annotationSection (manifest : K8sManifest) : string :=
  match k8s_annotations manifest with
  | Some annotations => "  annotations:" +:+ JS.nl +:+ entryLines annotations
  | None => EmptyString
  end.

(** The lines of [generateK8sManifest] of the phase-C workspace. *)
Definition manifestLines (manifest : K8sManifest) (serviceName : string)
    (containerConfig : option ContainerConfig) : list string :=
  let lower := JS.toLowerCase serviceName in
  let labels := Generators.setProperty "app" lower (k8s_labels manifest) in
  let port :=
    match containerConfig with
    | Some cfg =>
        match cc_exposedPorts cfg with
        | first :: _ => JS.orNumber first 3000
        | [] => 3000%Z
        end
    | None => 3000%Z
    end in
  let resource (field : ResourceLimits -> string) (fallback : string) :=
    match containerConfig with
    | Some cfg =>
        match cc_resourceLimits cfg with
        | Some limits => JS.orString (field limits) fallback
        | None => fallback
        end
    | None => fallback
    end in
  [ "apiVersion: apps/v1";
    "kind: Deployment";
    "metadata:";
    "  name: " +:+ lower;
    "  namespace: " +:+ k8s_namespace manifest;
    "  labels:";
    entryLines labels;
    annotationSection manifest;
    "spec:";
    "  replicas: " +:+ JS.numberToString (k8s_replicas manifest);
    "  selector:";
    "    matchLabels:";
    "      app: " +:+ lower;
    "  strategy:";
    "    type: " +:+ k8s_deploymentStrategy manifest;
    (if String.eqb (k8s_deploymentStrategy manifest) "RollingUpdate"
     then JS.template
            [ "    rollingUpdate:";
              "      maxSurge: 25%";
              "      maxUnavailable: 25%" ]
     else EmptyString);
    "  template:";
    "    metadata:";
    "      labels:";
    "        app: " +:+ lower;
    "    spec:";
    "      containers:";
    "      - name: " +:+ lower;
    "        image: " +:+ lower +:+ ":latest";
    "        ports:";
    "        - containerPort: " +:+ JS.numberToString port;
    "        resources:";
    "          requests:";
    "            cpu: " +:+ resource rl_cpuRequest "100m";
    "            memory: " +:+ resource rl_memoryRequest "128Mi";
    "          limits:";
    "            cpu: " +:+ resource rl_cpuLimit "500m";
    "            memory: " +:+ resource rl_memoryLimit "512Mi";
    match containerConfig with
    | Some cfg =>
        match cc_healthCheck cfg with
        | Some hc =>
            JS.template
              [ "        livenessProbe:";
                "          httpGet:";
                "            path: " +:+ hc_path hc;
                "            port: " +:+ JS.numberToString (hc_port hc);
                "          initialDelaySeconds: 15";
                "          periodSeconds: " +:+ JS.numberToString (hc_intervalSeconds hc);
                "        readinessProbe:";
                "          httpGet:";
                "            path: " +:+ hc_path hc;
                "            port: " +:+ JS.numberToString (hc_port hc);
                "          initialDelaySeconds: 5";
                "          periodSeconds: 10" ]
        | None => EmptyString
        end
    | None => EmptyString
    end;
    "---";
    "apiVersion: v1";
    "kind: Service";
    "metadata:";
    "  name: " +:+ lower +:+ "-svc";
    "  namespace: " +:+ k8s_namespace manifest;
    "spec:";
    "  selector:";
    "    app: " +:+ lower;
    "  ports:";
    "  - port: 80";
    "    targetPort: " +:+ JS.numberToString port;
    "  type: ClusterIP" ].

Definition generateK8sManifest (manifest : K8sManifest) (serviceName : string)
    (containerConfig : option ContainerConfig) : string :=
  JS.template (manifestLines manifest serviceName containerConfig).

(** The text the manifest dialog shows for a label record:
    [Object.entries(labels).map(([k, v]) => `${k}=${v}`).join(", ")]. *)
Definition labelsText (labels : StringRecord) : string :=
  JS.join ", " (map (fun '(k, v) => k +:+ "=" +:+ v) labels).

(** [acc[key] = value] on the object literal [acc], for a string [value]: the
    key [__proto__] reaches the setter of [Object.prototype], which ignores a
    value that is not an object, so nothing is added; any other key becomes or
    stays an own property. *)
Definition assign (key value : string) (acc : StringRecord) : StringRecord :=
  if String.eqb key "__proto__" then acc else Generators.setProperty key value acc.

(** One step of the reduction in [handleSave]:
    [const [key, value] = pair.split("=").map(s => s.trim()); if (key && value) acc[key] = value]. *)
Definition addLabel (acc : StringRecord) (pair : string) : StringRecord :=
  match map JSText.trim (JSText.split "=" pair) with
  | key :: value :: _ =>
      if JS.truthyString key && JS.truthyString value
      then assign key value acc
      else acc
  | _ => acc
  end.

(** [labelsText.split(",").reduce(..., {})]. *)
Definition parseLabels (text : string) : StringRecord :=
  fold_left addLabel (JSText.split "," text) [].

(** The fields of the dialog's [formData] that [handleSave] reads. *)
Record ManifestForm := {
  fd_deploymentStrategy : option string;
  fd_replicas : option Z;
  fd_namespace : option string;
  fd_annotations : option StringRecord }.

(** [handleSave] of the manifest dialog: the manifest handed to [onSave];
    [generated] is what [generateId()] returns. *)
Definition manifestToSave (manifest : option K8sManifest) (generated serviceId : string)
    (formData : ManifestForm) (text : string) : K8sManifest :=
  {| k8s_id := match manifest with
               | Some m => JS.orString (k8s_id m) generated
               | None => generated
               end;
     k8s_serviceId := serviceId;
     k8s_deploymentStrategy :=
       match fd_deploymentStrategy formData with
       | Some strategy => JS.orString strategy "RollingUpdate"
       | None => "RollingUpdate"
       end;
     k8s_replicas :=
       match fd_replicas formData with
       | Some replicas => JS.orNumber replicas 3
       | None => 3%Z
       end;
     k8s_namespace :=
       match fd_namespace formData with
       | Some namespace => JS.orString namespace "default"
       | None => "default"
       end;
     k8s_labels := parseLabels text;
     k8s_annotations := fd_annotations formData |}.

End Preview.

(** ** The service and context dialogs (phase-A workspace) *)

Module Dialogs.










End Dialogs.

(** ** Code generation for resilience patterns (phase-D workspace) *)

Module ResilienceCode.

(** [resiliencePatternTemplates]: the parameters a new pattern of each type starts with. *)
Definition resiliencePatternTemplates (type : ResilienceType) : list (string * Z) :=
  match type with
  | CircuitBreaker =>
      [ ("failureThreshold", 5%Z); ("successThreshold", 3%Z); ("timeout", 30000%Z);
        ("halfOpenRequests", 1%Z) ]
  | Bulkhead => [ ("maxConcurrent", 10%Z); ("maxQueue", 100%Z); ("queueTimeout", 5000%Z) ]
  | Retry =>
      [ ("maxAttempts", 3%Z); ("initialDelay", 1000%Z); ("maxDelay", 10000%Z);
        ("backoffMultiplier", 2%Z) ]
  | TimeoutPattern => [ ("connectionTimeout", 5000%Z); ("requestTimeout", 30000%Z) ]
  | RateLimiter => [ ("requestsPerSecond", 100%Z); ("burstSize", 150%Z) ]
  end.

(** [config.key]: the parameter of that name, [undefined] when there is none. *)
Fixpoint property (config : list (string * Z)) (key : string) : option Z :=
  match config with
  | [] => None
  | (k, v) :: rest => if String.eqb k key then Some v else property rest key
  end.

(** [${config.key || fallback}]. *)
Definition parameter (config : list (string * Z)) (key : string) (fallback : Z) : string :=
  JS.numberToString
    (match property config key with
     | Some v => JS.orNumber v fallback
     | None => fallback
     end).

(** [generateResilienceCode]; the pattern type is one of the five of the
    schema, so the [default] branch is never taken. *)
Definition generateResilienceCode (pattern : ResiliencePattern) : string :=
  let config := rp_config pattern in
  match rp_type pattern with
  | CircuitBreaker =>
      JS.template
        [ "// Circuit Breaker Configuration";
          "const circuitBreaker = new CircuitBreaker({";
          "  failureThreshold: " +:+ parameter config "failureThreshold" 5 +:+ ",";
          "  successThreshold: " +:+ parameter config "successThreshold" 3 +:+ ",";
          "  timeout: " +:+ parameter config "timeout" 30000 +:+ ",";
          "  halfOpenRequests: " +:+ parameter config "halfOpenRequests" 1 +:+ ",";
          "});";
          EmptyString;
          "// Usage";
          "const result = await circuitBreaker.execute(() => serviceCall());" ]
  | Bulkhead =>
      JS.template
        [ "// Bulkhead Configuration";
          "const bulkhead = new Bulkhead({";
          "  maxConcurrent: " +:+ parameter config "maxConcurrent" 10 +:+ ",";
          "  maxQueue: " +:+ parameter config "maxQueue" 100 +:+ ",";
          "  queueTimeout: " +:+ parameter config "queueTimeout" 5000 +:+ ",";
          "});";
          EmptyString;
          "// Usage";
          "const result = await bulkhead.execute(() => serviceCall());" ]
  | Retry =>
      JS.template
        [ "// Retry Configuration";
          "const retryPolicy = new RetryPolicy({";
          "  maxAttempts: " +:+ parameter config "maxAttempts" 3 +:+ ",";
          "  initialDelay: " +:+ parameter config "initialDelay" 1000 +:+ ",";
          "  maxDelay: " +:+ parameter config "maxDelay" 10000 +:+ ",";
          "  backoffMultiplier: " +:+ parameter config "backoffMultiplier" 2 +:+ ",";
          "});";
          EmptyString;
          "// Usage";
          "const result = await retryPolicy.execute(() => serviceCall());" ]
  | TimeoutPattern =>
      JS.template
        [ "// Timeout Configuration";
          "const timeoutPolicy = new TimeoutPolicy({";
          "  connectionTimeout: " +:+ parameter config "connectionTimeout" 5000 +:+ ",";
          "  requestTimeout: " +:+ parameter config "requestTimeout" 30000 +:+ ",";
          "});";
          EmptyString;
          "// Usage";
          "const result = await timeoutPolicy.execute(() => serviceCall());" ]
  | RateLimiter =>
      JS.template
        [ "// Rate Limiter Configuration";
          "const rateLimiter = new RateLimiter({";
          "  requestsPerSecond: " +:+ parameter config "requestsPerSecond" 100 +:+ ",";
          "  burstSize: " +:+ parameter config "burstSize" 150 +:+ ",";
          "});";
          EmptyString;
          "// Usage";
          "await rateLimiter.acquire();";
          "const result = await serviceCall();" ]
  end.

End ResilienceCode.

(** ** The remaining project routes and the client's save *)

Module ProjectRoutes.

(** GET /api/projects. *)
Definition listProjectsRoute (db : gmap string Storage.DbRow)
    : Http.Response (list ArchitectureProject) :=
  Http.Json 200 (Storage.getAllProjects db).

(** DELETE /api/projects/:id: 204 with an empty body when a row was deleted,
    404 when none was, 500 when the delete throws. *)
Definition deleteProjectRoute (engine : Storage.Engine) (i : string)
    (db : gmap string Storage.DbRow) : Http.Response unit * gmap string Storage.DbRow :=
  match Storage.deleteProject engine i db with
  | (Storage.Returned true, db') => (Http.Json 204 tt, db')
  | (Storage.Returned false, db') => (Http.Failure 404 "Project not found", db')
  | (Storage.Thrown, db') => (Http.Failure 500 "Failed to delete project", db')
  end.

(** The body of the client's save: the whole project, every key present. *)
Definition wholeProject (p : ArchitectureProject) : PartialProject :=
  {| p_id := Some (id p); p_name := Some (name p); p_description := Some (description p);
     p_currentPhase := Some (currentPhase p);
     p_boundedContexts := Some (boundedContexts p); p_services := Some (services p);
     p_containerConfigs := Some (containerConfigs p);
     p_sloDefinitions := Some (sloDefinitions p);
     p_autoscalingStrategies := Some (autoscalingStrategies p);
     p_k8sManifests := Some (k8sManifests p);
     p_resiliencePatterns := Some (resiliencePatterns p);
     p_observabilityConfigs := Some (observabilityConfigs p);
     p_createdAt := Some (createdAt p); p_updatedAt := Some (updatedAt p) |}.

(** The store's [updateProjectMutation]: PATCH /api/projects/${data.id} with the
    project as body.  The identifier is put into the path as it is, so the
    route receives it as [:id] only when it stands for itself in a path, as
    the identifiers of [randomUUID] and [generateId] do. *)
Definition saveProject (engine : Storage.Engine) (project : ArchitectureProject) (now : string)
    (db : gmap string Storage.DbRow)
    : Http.Response ArchitectureProject * gmap string Storage.DbRow :=
  Storage.patchProject engine (id project) (wholeProject project) now db.

End ProjectRoutes.

(** ** Vocabulary of the statements and the inputs of the examples *)

(** Two projects that agree on every field except [updatedAt]. *)
Definition sameExceptUpdatedAt (p q : ArchitectureProject) : Prop :=
  id q = id p /\ name q = name p /\ description q = description p
  /\ currentPhase q = currentPhase p
  /\ boundedContexts q = boundedContexts p /\ services q = services p
  /\ containerConfigs q = containerConfigs p /\ sloDefinitions q = sloDefinitions p
  /\ autoscalingStrategies q = autoscalingStrategies p /\ k8sManifests q = k8sManifests p
  /\ resiliencePatterns q = resiliencePatterns p
  /\ observabilityConfigs q = observabilityConfigs p
  /\ createdAt q = createdAt p.

(** The eight child collections, to speak of them uniformly. *)
Inductive Collection :=
| BoundedContexts | Services | ContainerConfigs | SloDefinitions
| AutoscalingStrategies | K8sManifests | ResiliencePatterns | ObservabilityConfigs.

(** The remove operation of a collection. *)
Definition removeFrom (c : Collection) (i : string) (project : option ArchitectureProject)
    : PartialProject :=
  match c with
  | BoundedContexts => Store.removeBoundedContext project i
  | Services => Store.removeService project i
  | ContainerConfigs => Store.removeContainerConfig project i
  | SloDefinitions => Store.removeSLO project i
  | AutoscalingStrategies => Store.removeAutoscaling project i
  | K8sManifests => Store.removeK8sManifest project i
  | ResiliencePatterns => Store.removeResiliencePattern project i
  | ObservabilityConfigs => Store.removeObservabilityConfig project i
  end.

(** The identifiers held by a collection of a project, in order. *)
Definition idsOf (c : Collection) (project : ArchitectureProject) : list string :=
  match c with
  | BoundedContexts => map bc_id (boundedContexts project)
  | Services => map svc_id (services project)
  | ContainerConfigs => map cc_id (containerConfigs project)
  | SloDefinitions => map slo_id (sloDefinitions project)
  | AutoscalingStrategies => map as_id (autoscalingStrategies project)
  | K8sManifests => map k8s_id (k8sManifests project)
  | ResiliencePatterns => map rp_id (resiliencePatterns project)
  | ObservabilityConfigs => map obs_id (observabilityConfigs project)
  end.

(** A service with the given identifier, name and dependencies. *)
Definition serviceNamed (i n : string) (deps : list string) : Service :=
  {| svc_id := i; svc_name := n; svc_description := EmptyString;
     svc_boundedContext := "Sales"; svc_responsibilities := [];
     svc_dependencies := deps; svc_communicationType := Sync; svc_dataOwnership := [] |}.

(** A freshly created project, and the same project holding the given services
    and container configurations. *)
Definition emptyProject : ArchitectureProject :=
  Store.createEmptyProject "1700000000000-abc123xyz" "2024-01-01T00:00:00.000Z" "shop" None.

Definition projectWith (svcs : list Service) (configs : list ContainerConfig)
    : ArchitectureProject :=
  Store.spread emptyProject
    {| p_id := None; p_name := None; p_description := None; p_currentPhase := None;
       p_boundedContexts := None; p_services := Some svcs;
       p_containerConfigs := Some configs;
       p_sloDefinitions := None; p_autoscalingStrategies := None; p_k8sManifests := None;
       p_resiliencePatterns := None; p_observabilityConfigs := None;
       p_createdAt := None; p_updatedAt := None |}.

Definition demoService : Service := serviceNamed "s1" "orders" [].
Definition demoProject : ArchitectureProject := projectWith [demoService] [].

(** Whether some container configuration has the service's [id] as its
    [serviceId], and the services of a project for which none has. *)
Definition hasConfig (configs : list ContainerConfig) (s : Service) : bool :=
  existsb (fun c => String.eqb (cc_serviceId c) (svc_id s)) configs.

Definition unconfiguredServices (p : ArchitectureProject) : list Service :=
  List.filter (fun s => negb (hasConfig (containerConfigs p) s)) (services p).

(** The results of a validation run that carry the category [Configuration]. *)
Definition configurationResults (rs : list ValidationResult) : list ValidationResult :=
  List.filter (fun r => String.eqb (vr_category r) "Configuration") rs.

(** The oracles used where an example needs the clock and the random source. *)
Definition demoClock (k : nat) : Z := 1700000000000 + Z.of_nat k.
Definition demoRandom (k : nat) : string := "k3j9x0q2a".

(** A stored row and a table holding it, for the persistence examples. *)
Definition demoRow : Storage.DbRow := Storage.newRow "shop" "demo" "2024-01-01T00:00:00.000Z".

Definition demoDb : gmap string Storage.DbRow := {[ "p1" := demoRow ]}.

(** A text without the character U+0000. *)
Fixpoint nulFree (s : string) : bool :=
  match s with
  | EmptyString => true
  | String c s' => negb (Ascii.eqb c "000") && nulFree s'
  end.

(** A database for the examples: it binds and stores every text without
    U+0000 as it is given, a phase of at most one character as well, and
    every document as it is given. *)
Definition plainEngine : Storage.Engine :=
  {| Storage.bindsId := nulFree;
     Storage.storedText := fun s => if nulFree s then Some s else None;
     Storage.storedPhase :=
       fun s => if nulFree s && (String.length s <=? 1)%nat then Some s else None;
     Storage.storedJson := fun A document => Some document |}.




(** A container configuration with the given base image, build type,
    environment and health check. *)
Definition containerFor (base buildType : string) (envs : list EnvironmentVariable)
    (healthCheck : option HealthCheck) : ContainerConfig :=
  {| cc_id := "c1"; cc_serviceId := "s1"; cc_baseImage := base; cc_buildType := buildType;
     cc_exposedPorts := [3000%Z]; cc_environmentVariables := envs;
     cc_healthCheck := healthCheck; cc_resourceLimits := None |}.

Definition demoHealthCheck : HealthCheck :=
  {| hc_path := "/health"; hc_port := 8080; hc_intervalSeconds := 30 |}.

Definition alpineConfig : ContainerConfig :=
  containerFor "node:20-alpine" "multi-stage" [] None.

Definition probedConfig : ContainerConfig :=
  containerFor "node:20-alpine" "multi-stage" [] (Some demoHealthCheck).

(** A secret whose value is a word the template itself contains. *)
Definition secretEnv : EnvironmentVariable :=
  {| env_key := "API_TOKEN"; env_value := "node"; env_isSecret := true |}.

Definition publicEnv : EnvironmentVariable :=
  {| env_key := "NODE_ENV"; env_value := "production"; env_isSecret := false |}.

Definition secretConfig : ContainerConfig :=
  containerFor "node:20-alpine" "single-stage" [publicEnv; secretEnv] None.

(** The configuration with the value of every secret entry blanked. *)
Definition eraseSecret (env : EnvironmentVariable) : EnvironmentVariable :=
  if env_isSecret env
  then {| env_key := env_key env; env_value := EmptyString; env_isSecret := true |}
  else env.

Definition eraseSecrets (cfg : ContainerConfig) : ContainerConfig :=
  {| cc_id := cc_id cfg; cc_serviceId := cc_serviceId cfg; cc_baseImage := cc_baseImage cfg;
     cc_buildType := cc_buildType cfg; cc_exposedPorts := cc_exposedPorts cfg;
     cc_environmentVariables := map eraseSecret (cc_environmentVariables cfg);
     cc_healthCheck := cc_healthCheck cfg; cc_resourceLimits := cc_resourceLimits cfg |}.

(** The index of the environment section among the lines of a Dockerfile. *)
Definition envLineIndex (cfg : ContainerConfig) : nat :=
  if String.eqb (cc_buildType cfg) "multi-stage" then 16 else 9.

(** The lines of the Dockerfile a configuration yields. *)
Definition dockerfileLines (cfg : ContainerConfig) (serviceName : string) : list string :=
  let base := JS.orString (cc_baseImage cfg) "node:20-alpine" in
  if String.eqb (cc_buildType cfg) "multi-stage"
  then Generators.multiStageLines cfg serviceName base
  else Generators.singleStageLines cfg serviceName base.

(** One probe block of a workload document: its kind, the health check's path
    and port, an initial delay and a period. *)
Definition probeBlock (kind : string) (hc : HealthCheck) (initialDelay period : Z) : list string :=
  [ "        " +:+ kind +:+ "Probe:";
    "          httpGet:";
    "            path: " +:+ hc_path hc;
    "            port: " +:+ JS.numberToString (hc_port hc);
    "          initialDelaySeconds: " +:+ JS.numberToString initialDelay;
    "          periodSeconds: " +:+ JS.numberToString period ].

(** A text without the hyphen. *)
Fixpoint hyphenFree (s : string) : bool :=
  match s with
  | EmptyString => true
  | String c s' => negb (Ascii.eqb c "-") && hyphenFree s'
  end.

(** A manifest whose replicas, namespace and deployment strategy are all falsy. *)
Definition falsyManifest : K8sManifest :=
  {| k8s_id := "m1"; k8s_serviceId := "s1"; k8s_deploymentStrategy := EmptyString;
     k8s_replicas := 0; k8s_namespace := EmptyString;
     k8s_labels := [("tier", "backend")]; k8s_annotations := None |}.

(** The service-to-dependency edges of a service list, in the order the scan
    meets them. *)
Definition edgesOf (svcs : list Service) : list (string * string) :=
  flat_map (fun s => map (fun dep => (svc_name s, dep)) (svc_dependencies s)) svcs.

Definition reverseEdge (e : string * string) : string * string := (e.2, e.1).

(** The text under which the scan records an edge. *)
Definition edgeKey (e : string * string) : string := e.1 +:+ "->" +:+ e.2.

(** The edges at which the scan reports, given the edges recorded before:
    those whose reversed key is the key of an edge recorded earlier. *)
Fixpoint reportedEdges (recorded es : list (string * string)) : list (string * string) :=
  match es with
  | [] => []
  | e :: rest =>
      (if existsb (fun r => String.eqb (edgeKey r) (edgeKey (reverseEdge e))) recorded
       then [e] else [])
      ++ reportedEdges (recorded ++ [e]) rest
  end.

Definition edgeEqb (e1 e2 : string * string) : bool :=
  String.eqb e1.1 e2.1 && String.eqb e1.2 e2.2.

(** The edges whose reverse edge, as a pair of names, was recorded earlier. *)
Fixpoint reverseRecordedEdges (recorded es : list (string * string)) : list (string * string) :=
  match es with
  | [] => []
  | e :: rest =>
      (if existsb (fun r => edgeEqb r (reverseEdge e)) recorded then [e] else [])
      ++ reverseRecordedEdges (recorded ++ [e]) rest
  end.

(** The keys of the recorded edges, as the scan's set holds them. *)
Definition recordedKeys (recorded : list (string * string)) : gset string :=
  list_to_set (map edgeKey recorded).

(** A name that does not contain the arrow the keys are built with. *)
Definition arrowFree (s : string) : bool := negb (JS.includes "->" s).

(** The result pushed for an edge when [generateId] is at its k-th call. *)
Definition circularResult (clock : nat -> Z) (random : nat -> string) (k : nat)
    (e : string * string) : ValidationResult :=
  {| vr_id := "val-" +:+ JS.numberToString (clock k) +:+ "-" +:+ random k;
     vr_phase := "A"; vr_category := "Dependencies"; vr_status := "error";
     vr_message := "Circular dependency detected: " +:+ e.1 +:+ " <-> " +:+ e.2;
     vr_details := Some "Consider using async communication or event-driven patterns" |}.

Fixpoint circularResults (clock : nat -> Z) (random : nat -> string) (k : nat)
    (es : list (string * string)) : list ValidationResult :=
  match es with
  | [] => []
  | e :: rest => circularResult clock random k e :: circularResults clock random (S k) rest
  end.

(** The results of a validation run whose status is [error]. *)
Definition errorResults (rs : list ValidationResult) : list ValidationResult :=
  List.filter (fun r => String.eqb (vr_status r) "error") rs.

(** Four services built in the editor: two whose names contain the arrow, and
    two that each depend on one of them.  No service depends on a service that
    depends on it. *)
Definition arrowServices : list Service :=
  [ serviceNamed "s1" "b->c" []; serviceNamed "s2" "a->b" [];
    serviceNamed "s3" "a" ["b->c"]; serviceNamed "s4" "c" ["a->b"] ].

Definition arrowProject : ArchitectureProject := projectWith arrowServices [].

(** Edges whose two names are free of the arrow. *)
Definition arrowFreeEdges (es : list (string * string)) : bool :=
  forallb (fun e => arrowFree e.1 && arrowFree e.2) es.

(** ** Vocabulary for the store's collections *)

(** The type of the items of a collection, their identifier, the items a
    project holds, and the add operation of the collection. *)
Definition Item (c : Collection) : Type :=
  match c with
  | BoundedContexts => BoundedContext
  | Services => Service
  | ContainerConfigs => ContainerConfig
  | SloDefinitions => SLODefinition
  | AutoscalingStrategies => AutoscalingStrategy
  | K8sManifests => K8sManifest
  | ResiliencePatterns => ResiliencePattern
  | ObservabilityConfigs => ObservabilityConfig
  end.

Definition itemId (c : Collection) : Item c -> string :=
  match c with
  | BoundedContexts => bc_id
  | Services => svc_id
  | ContainerConfigs => cc_id
  | SloDefinitions => slo_id
  | AutoscalingStrategies => as_id
  | K8sManifests => k8s_id
  | ResiliencePatterns => rp_id
  | ObservabilityConfigs => obs_id
  end.

Definition itemsOf (c : Collection) : ArchitectureProject -> list (Item c) :=
  match c with
  | BoundedContexts => boundedContexts
  | Services => services
  | ContainerConfigs => containerConfigs
  | SloDefinitions => sloDefinitions
  | AutoscalingStrategies => autoscalingStrategies
  | K8sManifests => k8sManifests
  | ResiliencePatterns => resiliencePatterns
  | ObservabilityConfigs => observabilityConfigs
  end.

Definition addTo (c : Collection) : Item c -> option ArchitectureProject -> PartialProject :=
  match c with
  | BoundedContexts => fun item project => Store.addBoundedContext project item
  | Services => fun item project => Store.addService project item
  | ContainerConfigs => fun item project => Store.addContainerConfig project item
  | SloDefinitions => fun item project => Store.addSLO project item
  | AutoscalingStrategies => fun item project => Store.addAutoscaling project item
  | K8sManifests => fun item project => Store.addK8sManifest project item
  | ResiliencePatterns => fun item project => Store.addResiliencePattern project item
  | ObservabilityConfigs => fun item project => Store.addObservabilityConfig project item
  end.

(** Two projects hold the same items in a collection. *)
Definition agreeOn (c : Collection) (p q : ArchitectureProject) : Prop :=
  itemsOf c q = itemsOf c p.

(** Two projects agree on the scalar fields that no collection mutation writes. *)
Definition sameHeader (p q : ArchitectureProject) : Prop :=
  id q = id p /\ name q = name p /\ description q = description p
  /\ currentPhase q = currentPhase p /\ createdAt q = createdAt p.

Definition collectionEqb (c1 c2 : Collection) : bool :=
  match c1, c2 with
  | BoundedContexts, BoundedContexts | Services, Services
  | ContainerConfigs, ContainerConfigs | SloDefinitions, SloDefinitions
  | AutoscalingStrategies, AutoscalingStrategies | K8sManifests, K8sManifests
  | ResiliencePatterns, ResiliencePatterns | ObservabilityConfigs, ObservabilityConfigs => true
  | _, _ => false
  end.

(** The project of a store state and its phase are the same phase. *)
Definition phaseInSync (st : StoreEdits.StoreState) : Prop :=
  match StoreEdits.st_project st with
  | Some p => currentPhase p = StoreEdits.st_currentPhase st
  | None => True
  end.

(** The states the provider reaches: from the initial state by loading,
    resetting, creating (the server's project and the local fallback both start
    in phase A), setting the phase, clicking a phase, and adding, removing or
    saving items. *)
Inductive reachable : StoreEdits.StoreState -> Prop :=
| reach_initial : reachable StoreEdits.initialState
| reach_load p st : reachable st -> reachable (StoreEdits.loadProject p st)
| reach_reset st : reachable st -> reachable (StoreEdits.resetProject st)
| reach_created p st :
    reachable st -> currentPhase p = "A" -> reachable (StoreEdits.projectCreated p st)
| reach_setPhase phase now st : reachable st -> reachable (StoreEdits.setPhase phase now st)
| reach_click phase now st :
    reachable st -> reachable (Navigation.handlePhaseClick phase now st)
| reach_add c item now st : reachable st -> reachable (StoreEdits.mutate (addTo c item) now st)
| reach_remove c i now st :
    reachable st -> reachable (StoreEdits.mutate (removeFrom c i) now st)
| reach_saveService editing s now st :
    reachable st ->
    reachable (StoreEdits.mutate (StoreEdits.handleSaveService editing s) now st)
| reach_saveConfig editing cfg now st :
    reachable st ->
    reachable (StoreEdits.mutate (StoreEdits.handleSaveConfig editing cfg) now st).

(** A second service and a container configuration for the store examples. *)
Definition billingService : Service := serviceNamed "s2" "billing" ["orders"].
Definition demoConfig : ContainerConfig := containerFor "node:20-alpine" "multi-stage" [] None.

(** The stored service replaced by the saved one wherever its identifier matches. *)
Definition replaceService (saved : Service) (svcs : list Service) : list Service :=
  map (fun svc => if String.eqb (svc_id svc) (svc_id saved) then saved else svc) svcs.

Definition replaceConfig (saved : ContainerConfig) (cfgs : list ContainerConfig)
    : list ContainerConfig :=
  map (fun cfg => if String.eqb (cc_id cfg) (cc_id saved) then saved else cfg) cfgs.

(** A patch of a service that only renames it. *)
Definition renameService (n : string) : StoreEdits.PartialService :=
  {| StoreEdits.ps_id := None; StoreEdits.ps_name := Some n;
     StoreEdits.ps_description := None; StoreEdits.ps_boundedContext := None;
     StoreEdits.ps_responsibilities := None; StoreEdits.ps_dependencies := None;
     StoreEdits.ps_communicationType := None; StoreEdits.ps_dataOwnership := None |}.

(** ** Vocabulary for the validation engine and the panel *)

(** The identifier [generateId] returns at its k-th call. *)
Definition idAtCall (clock : nat -> Z) (random : nat -> string) (k : nat) : string :=
  (Validation.generateId clock random
     {| Validation.validations := []; Validation.idCalls := k |}).1.

(** A result without its identifier. *)
Definition stripId (r : ValidationResult) : ValidationResult :=
  {| vr_id := EmptyString; vr_phase := vr_phase r; vr_category := vr_category r;
     vr_status := vr_status r; vr_message := vr_message r; vr_details := vr_details r |}.

(** The results pushed so far carry the identifiers of the calls made so far,
    in order, and all belong to one phase. *)
Definition wellNumbered (clock : nat -> Z) (random : nat -> string) (phase : string)
    (st : Validation.VState) : Prop :=
  map vr_id (Validation.validations st)
  = map (idAtCall clock random) (seq 0 (Validation.idCalls st))
  /\ length (Validation.validations st) = Validation.idCalls st
  /\ List.Forall (fun r => vr_phase r = phase) (Validation.validations st).

(** The state a validation run starts from. *)
Definition noResults : Validation.VState :=
  {| Validation.validations := []; Validation.idCalls := 0 |}.

(** Three services whose dependencies go round in a ring, and one that
    depends on itself. *)
Definition ringServices : list Service :=
  [ serviceNamed "s1" "a" ["b"]; serviceNamed "s2" "b" ["c"]; serviceNamed "s3" "c" ["a"];
    serviceNamed "s4" "d" ["d"] ].

Definition ringProject : ArchitectureProject := projectWith ringServices [].

(** Two services that depend on each other among others that do not. *)
Definition mutualServices : list Service :=
  [ serviceNamed "s1" "cart" ["pricing"; "stock"]; serviceNamed "s2" "stock" [];
    serviceNamed "s3" "pricing" ["stock"; "cart"] ].

Definition mutualProject : ArchitectureProject := projectWith mutualServices [].

(** The results of a validation answer, none if the request was refused. *)
Definition resultsOf (response : Http.Response (list ValidationResult))
    : list ValidationResult :=
  match response with
  | Http.Json _ rs => rs
  | Http.Failure _ _ => []
  end.

(** What the panel shows after the server has validated the project for a
    phase: the three counters, and the list of checks if it can be drawn. *)
Definition panelAfterValidation (clock : nat -> Z) (random : nat -> string)
    (p : ArchitectureProject) (phase : string) : option (list Panel.StatusStyle) :=
  Panel.renderChecks
    (Panel.phaseResults (resultsOf (Validation.validate clock random (Some p) (Some phase))) phase).

(** A container configuration for a service the project does not hold. *)
Definition strayConfig : ContainerConfig :=
  {| cc_id := "c9"; cc_serviceId := "gone"; cc_baseImage := "node:20-alpine";
     cc_buildType := "multi-stage"; cc_exposedPorts := [3000%Z];
     cc_environmentVariables := []; cc_healthCheck := Some demoHealthCheck;
     cc_resourceLimits := None |}.

(** ** Vocabulary for the label text of the manifest dialog *)

(** A text in which the character does not occur. *)
Fixpoint freeOf (c : ascii) (s : string) : bool :=
  match s with
  | EmptyString => true
  | String d s' => negb (Ascii.eqb d c) && freeOf c s'
  end.

(** A key or value that the label text can carry: not empty, without comma
    or equals sign, and without white space at either end. *)
Definition labelWord (s : string) : bool :=
  JS.truthyString s && freeOf "," s && freeOf "=" s && String.eqb (JSText.trim s) s.

(** A text of decimal digits only: the keys JavaScript treats as array
    indices, and enumerates before the others, are among them. *)
Fixpoint digitsOnly (s : string) : bool :=
  match s with
  | EmptyString => false
  | String c EmptyString => (48 <=? nat_of_ascii c)%nat && (nat_of_ascii c <=? 57)%nat
  | String c s' => (48 <=? nat_of_ascii c)%nat && (nat_of_ascii c <=? 57)%nat && digitsOnly s'
  end.

(** A key that the label text can carry: a word that is not [__proto__],
    which an assignment does not add to an object, and not an array index. *)
Definition labelKey (s : string) : bool :=
  labelWord s && negb (String.eqb s "__proto__") && negb (digitsOnly s).

Definition plainLabels (labels : StringRecord) : bool :=
  forallb (fun '(k, v) => labelKey k && labelWord v) labels.

(** The labels a new manifest starts with in the dialog. *)
Definition defaultLabels : StringRecord :=
  [("environment", "production"); ("tier", "backend")].

(** ** Vocabulary for the project routes *)

(** The project a save leaves in the table: the local project, each field in
    the form the database stores it, created when the stored row was and
    updated at the time of the save; none when the database refuses a field. *)
Definition savedProject (engine : Storage.Engine) (local : ArchitectureProject)
    (row : Storage.DbRow) (now : string) : option ArchitectureProject :=
  name' ← Storage.storedText engine (name local);
  description' ← Storage.storedText engine (description local);
  phase' ← Storage.storedPhase engine (currentPhase local);
  contexts' ← Storage.storedJson engine (boundedContexts local);
  services' ← Storage.storedJson engine (services local);
  configs' ← Storage.storedJson engine (containerConfigs local);
  slos' ← Storage.storedJson engine (sloDefinitions local);
  strategies' ← Storage.storedJson engine (autoscalingStrategies local);
  manifests' ← Storage.storedJson engine (k8sManifests local);
  patterns' ← Storage.storedJson engine (resiliencePatterns local);
  observability' ← Storage.storedJson engine (observabilityConfigs local);
  Some {| id := id local; name := name'; description := description';
          currentPhase := phase';
          boundedContexts := contexts'; services := services';
          containerConfigs := configs'; sloDefinitions := slos';
          autoscalingStrategies := strategies'; k8sManifests := manifests';
          resiliencePatterns := patterns'; observabilityConfigs := observability';
          createdAt := Storage.row_createdAt row; updatedAt := now |}.

(** An identifier that stands for itself in the path of a URL: not empty, and
    of ASCII letters, digits and hyphens only, as the identifiers of
    [randomUUID] and [generateId] are. *)
Definition idChar (c : ascii) : bool :=
  let n := nat_of_ascii c in
  ((48 <=? n)%nat && (n <=? 57)%nat) || ((65 <=? n)%nat && (n <=? 90)%nat)
  || ((97 <=? n)%nat && (n <=? 122)%nat) || (n =? 45)%nat.

Fixpoint idChars (s : string) : bool :=
  match s with
  | EmptyString => true
  | String c s' => idChar c && idChars s'
  end.

Definition plainId (s : string) : bool := JS.truthyString s && idChars s.

(** The description [createProject] inserts: [insertProject.description || ""]. *)
Definition insertedDescription (insertProject : Storage.InsertProject) : string :=
  match Storage.ip_description insertProject with
  | Some d => JS.orString d EmptyString
  | None => EmptyString
  end.

(** A create request with a name and no description. *)
Definition namedBody (n : string) : Storage.InsertBody :=
  {| Storage.ib_name := Some n; Storage.ib_description := None |}.

(** The message of a rejected body, for the examples. *)
Definition demoZodMessage (body : Storage.InsertBody) : string := "Project name is required".

(** ** Vocabulary for label records *)

(** [record[key]]: the value of the property, [undefined] when there is none. *)
Fixpoint recordGet (key : string) (record : StringRecord) : option string :=
  match record with
  | [] => None
  | (k, v) :: rest => if String.eqb k key then Some v else recordGet key rest
  end.

(** The stored demo project as the client holds it after adding a service. *)
Definition localDemo : ArchitectureProject :=
  Store.spread (Storage.dbRowToProject "p1" demoRow)
    {| p_id := None; p_name := None; p_description := None; p_currentPhase := None;
       p_boundedContexts := None; p_services := Some [demoService];
       p_containerConfigs := None;
       p_sloDefinitions := None; p_autoscalingStrategies := None; p_k8sManifests := None;
       p_resiliencePatterns := None; p_observabilityConfigs := None;
       p_createdAt := None; p_updatedAt := Some "2024-02-02T00:00:00.000Z" |}.

(** ** Vocabulary for the list texts of the service and context dialogs *)








(** * Proofs *)

(** ** Strings *)

Section StringFacts.

Lemma append_nil_l (s : string) : EmptyString +:+ s = s.
Proof. reflexivity. Qed.

Lemma append_cons (c : ascii) (s t : string) : String c s +:+ t = String c (s +:+ t).
Proof. reflexivity. Qed.

Lemma append_nil_r (s : string) : s +:+ EmptyString = s.
Proof.
  induction s as [|c s IH]; [reflexivity|].
  rewrite append_cons, IH. reflexivity.
Qed.

Lemma append_assoc (a b c : string) : (a +:+ b) +:+ c = a +:+ (b +:+ c).
Proof.
  induction a as [|x a IH]; [reflexivity|].
  rewrite !append_cons, IH. reflexivity.
Qed.

Lemma startsWith_nil (s : string) : JS.startsWith EmptyString s = true.
Proof. destruct s; reflexivity. Qed.

Lemma startsWith_cons (c d : ascii) (pat s : string) :
  JS.startsWith (String c pat) (String d s) = (if ascii_dec c d then JS.startsWith pat s else false).
Proof. reflexivity. Qed.

Lemma startsWith_append (pat rest : string) : JS.startsWith pat (pat +:+ rest) = true.
Proof.
  induction pat as [|c pat IH]; [apply startsWith_nil|].
  rewrite append_cons, startsWith_cons.
  destruct (ascii_dec c c) as [_|Hne]; [exact IH | congruence].
Qed.

Lemma includes_unfold (pat s : string) :
  JS.includes pat s =
  if JS.startsWith pat s then true
  else match s with
       | EmptyString => false
       | String _ s' => JS.includes pat s'
       end.
Proof. destruct s; reflexivity. Qed.

Lemma includes_here (pat s : string) : JS.startsWith pat s = true -> JS.includes pat s = true.
Proof. intros H. rewrite includes_unfold, H. reflexivity. Qed.

Lemma includes_skip (c : ascii) (pat s : string) :
  JS.includes pat s = true -> JS.includes pat (String c s) = true.
Proof.
  intros H. rewrite includes_unfold.
  destruct (JS.startsWith pat (String c s)); [reflexivity | exact H].
Qed.

(** A pattern is included in any text built around it. *)
Lemma includes_append (before pat after : string) :
  JS.includes pat (before +:+ pat +:+ after) = true.
Proof.
  induction before as [|c before IH].
  - rewrite append_nil_l. apply includes_here, startsWith_append.
  - rewrite append_cons. apply includes_skip, IH.
Qed.

Lemma join_cons (sep x : string) (xs : list string) :
  xs <> [] -> JS.join sep (x :: xs) = x +:+ sep +:+ JS.join sep xs.
Proof. destruct xs; [congruence | reflexivity]. Qed.

(** Every entry of a joined list stands in the result between two texts. *)
Lemma join_split (sep : string) (parts : list string) (i : nat) (part : string) :
  nth_error parts i = Some part ->
  exists before after, JS.join sep parts = before +:+ part +:+ after.
Proof.
  revert i. induction parts as [|x xs IH]; intros i Hi.
  - destruct i; discriminate.
  - destruct i as [|i]; simpl in Hi.
    + injection Hi as ->. destruct xs as [|y ys].
      * exists EmptyString, EmptyString. simpl. rewrite append_nil_r. reflexivity.
      * exists EmptyString, (sep +:+ JS.join sep (y :: ys)). reflexivity.
    + destruct xs as [|y ys]; [destruct i; discriminate|].
      destruct (IH i Hi) as (before & after & Heq).
      exists (x +:+ sep +:+ before), after.
      rewrite join_cons by discriminate. rewrite Heq, !append_assoc. reflexivity.
Qed.

Lemma includes_template_line (lines : list string) (i : nat) (line : string) :
  nth_error lines i = Some line -> JS.includes line (JS.template lines) = true.
Proof.
  intros Hi. destruct (join_split JS.nl lines i line Hi) as (before & after & Heq).
  unfold JS.template. rewrite Heq. apply includes_append.
Qed.

End StringFacts.

(** ** The phase gate and the store's collection operations *)

Section StoreFacts.

Import Store.

Lemma positive_length_nonempty {A : Type} (l : list A) :
  (0 <? length l)%nat = true <-> l <> [].
Proof.
  destruct l as [|x l]; simpl.
  - split; [discriminate | congruence].
  - split; [discriminate | reflexivity].
Qed.

Lemma canAdvanceToPhase_unknown (p : ArchitectureProject) (t : string) :
  t <> "A" -> t <> "B" -> t <> "C" -> t <> "D" -> canAdvanceToPhase (Some p) t = false.
Proof.
  intros HA HB HC HD. unfold canAdvanceToPhase.
  apply String.eqb_neq in HA, HB, HC, HD.
  rewrite HA, HB, HC, HD. reflexivity.
Qed.

(** Filtering on an identifier that no element carries keeps the list. *)
Lemma without_absent {A : Type} (idOf : A -> string) (i : string) (xs : list A) :
  ~ In i (map idOf xs) -> without idOf i xs = xs.
Proof.
  unfold without. induction xs as [|x xs IH]; intros Hnot; [reflexivity|].
  simpl in *. destruct (String.eqb_spec (idOf x) i) as [Heq|Hne].
  - exfalso. apply Hnot. left. exact Heq.
  - simpl. f_equal. apply IH. intros Hin. apply Hnot. right. exact Hin.
Qed.

(** Writing a collection back unchanged only moves [updatedAt]. *)
Lemma spread_same_project (p : ArchitectureProject) (now : string) (u : PartialProject) :
  spread p u = p -> updateProjectLocal u now (Some p) = Some (withUpdatedAt now p).
Proof. intros H. unfold updateProjectLocal. rewrite H. reflexivity. Qed.

Lemma remove_absent_spread (c : Collection) (p : ArchitectureProject) (i : string) :
  ~ In i (idsOf c p) -> spread p (removeFrom c i (Some p)) = p.
Proof.
  intros Hnot. destruct p, c; unfold spread, removeFrom; simpl in *;
    unfold removeBoundedContext, removeService, removeContainerConfig, removeSLO,
      removeAutoscaling, removeK8sManifest, removeResiliencePattern,
      removeObservabilityConfig; simpl;
    rewrite without_absent by exact Hnot; reflexivity.
Qed.

End StoreFacts.

(** C3.  [canAdvanceToPhase] answers true for phase A, true for B, C and D
    exactly when the project's services, container configurations and
    Kubernetes manifests respectively are not empty, and false for every other
    token.  For a project without services the gate to B is closed, opens once
    a service is added, and closes again once that service is removed. *)
Theorem canAdvanceToPhase_gate (p : ArchitectureProject) :
  Store.canAdvanceToPhase (Some p) "A" = true
  /\ (Store.canAdvanceToPhase (Some p) "B" = true <-> services p <> [])
  /\ (Store.canAdvanceToPhase (Some p) "C" = true <-> containerConfigs p <> [])
  /\ (Store.canAdvanceToPhase (Some p) "D" = true <-> k8sManifests p <> [])
  /\ (forall t : string, t <> "A" -> t <> "B" -> t <> "C" -> t <> "D" ->
        Store.canAdvanceToPhase (Some p) t = false)
  /\ (services p = [] ->
      forall (s : Service) (now1 now2 : string),
        Store.canAdvanceToPhase (Some p) "B" = false
        /\ Store.canAdvanceToPhase
             (Store.mutate (fun pr => Store.addService pr s) now1 (Some p)) "B" = true
        /\ Store.canAdvanceToPhase
             (Store.mutate (fun pr => Store.removeService pr (svc_id s)) now2
                (Store.mutate (fun pr => Store.addService pr s) now1 (Some p))) "B" = false).
Proof.
  split; [reflexivity|].
  split; [apply positive_length_nonempty|].
  split; [apply positive_length_nonempty|].
  split; [apply positive_length_nonempty|].
  split; [apply canAdvanceToPhase_unknown|].
  intros Hempty s now1 now2.
  unfold Store.mutate, Store.updateProjectLocal, Store.addService, Store.removeService,
    Store.canAdvanceToPhase, Store.without.
  simpl. rewrite Hempty. simpl. rewrite String.eqb_refl. simpl.
  repeat split; reflexivity.
Qed.

(** The gate of C3 on a freshly created project, before and after [demoService]. *)
Lemma canAdvanceToPhase_gate_witness :
  Store.canAdvanceToPhase (Some emptyProject) "B" = false
  /\ Store.canAdvanceToPhase
       (Store.mutate (fun pr => Store.addService pr demoService) "2024-01-02T00:00:00.000Z"
          (Some emptyProject)) "B" = true
  /\ Store.canAdvanceToPhase
       (Store.mutate (fun pr => Store.removeService pr (svc_id demoService))
          "2024-01-03T00:00:00.000Z"
          (Store.mutate (fun pr => Store.addService pr demoService) "2024-01-02T00:00:00.000Z"
             (Some emptyProject))) "B" = false.
Proof.
  destruct (canAdvanceToPhase_gate emptyProject) as (_ & _ & _ & _ & _ & H).
  exact (H eq_refl demoService "2024-01-02T00:00:00.000Z" "2024-01-03T00:00:00.000Z").
Defined.

(** C7.  Removing an identifier that a collection does not hold leaves the
    project as it was in every field except [updatedAt], for each of the
    eight collections. *)
Theorem remove_absent_id_is_noop (c : Collection) (p : ArchitectureProject)
    (i now : string) :
  ~ In i (idsOf c p) ->
  exists q, Store.mutate (removeFrom c i) now (Some p) = Some q
            /\ sameExceptUpdatedAt p q
            /\ q = Store.withUpdatedAt now p.
Proof.
  intros Hnot. exists (Store.withUpdatedAt now p). split; [|split].
  - unfold Store.mutate. apply spread_same_project, remove_absent_spread, Hnot.
  - unfold sameExceptUpdatedAt. repeat split; reflexivity.
  - reflexivity.
Qed.

Lemma remove_absent_id_is_noop_witness :
  ~ In "s2" (idsOf Services demoProject)
  /\ exists q, Store.mutate (removeFrom Services "s2") "2024-02-02T00:00:00.000Z"
                 (Some demoProject) = Some q
               /\ sameExceptUpdatedAt demoProject q
               /\ q = Store.withUpdatedAt "2024-02-02T00:00:00.000Z" demoProject.
Proof.
  assert (Hnot : ~ In "s2" (idsOf Services demoProject)).
  { simpl. intros [H | []]. discriminate H. }
  split; [exact Hnot|].
  exact (remove_absent_id_is_noop Services demoProject "s2"
           "2024-02-02T00:00:00.000Z" Hnot).
Defined.

(** ** The validation engine *)

Section ValidationFacts.

Import Validation.

Variable clock : nat -> Z.
Variable random : nat -> string.

(** Membership in the set of configured service identifiers, as a scan of the
    configurations. *)
Lemma configured_set_scan (configs : list ContainerConfig) (i : string) :
  bool_decide (i ∈ (list_to_set (map cc_serviceId configs) : gset string))
  = existsb (fun c => String.eqb (cc_serviceId c) i) configs.
Proof.
  destruct (existsb (fun c => String.eqb (cc_serviceId c) i) configs) eqn:Hscan.
  - apply bool_decide_eq_true_2. apply elem_of_list_to_set, list_elem_of_In, in_map_iff.
    apply existsb_exists in Hscan as (c & Hin & Heq).
    exists c. split; [apply String.eqb_eq, Heq | exact Hin].
  - apply bool_decide_eq_false_2. intros Hmem.
    apply elem_of_list_to_set, list_elem_of_In, in_map_iff in Hmem as (c & Heq & Hin).
    assert (Htrue : existsb (fun c => String.eqb (cc_serviceId c) i) configs = true).
    { apply existsb_exists. exists c. split; [exact Hin | apply String.eqb_eq, Heq]. }
    congruence.
Qed.

Lemma unconfigured_filter (p : ArchitectureProject) :
  List.filter
    (fun s => negb (bool_decide (svc_id s ∈ (list_to_set (map cc_serviceId (containerConfigs p)) : gset string))))
    (services p)
  = unconfiguredServices p.
Proof.
  unfold unconfiguredServices, hasConfig. apply List.filter_ext.
  intros s. rewrite configured_set_scan. reflexivity.
Qed.

Lemma validate_phase_B (p : ArchitectureProject) :
  validate clock random (Some p) (Some "B")
  = Http.Json 200 (validations (snd (validateB clock random p {| validations := []; idCalls := 0 |}))).
Proof.
  unfold validate, validatePhase. simpl.
  destruct (validateB clock random p _) as [u st]. reflexivity.
Qed.

End ValidationFacts.

(** C9.  For any project, a validation request whose phase is missing or is a
    token other than A, B, C and D succeeds with status 200 and an empty list
    of validation results. *)
Theorem validate_unknown_phase_is_empty (clock : nat -> Z) (random : nat -> string)
    (p : ArchitectureProject) (phase : option string) :
  phase <> Some "A" -> phase <> Some "B" -> phase <> Some "C" -> phase <> Some "D" ->
  Validation.validate clock random (Some p) phase = Http.Json 200 [].
Proof.
  intros HA HB HC HD. unfold Validation.validate, Validation.validatePhase.
  destruct phase as [token|]; [|reflexivity].
  assert (Hne : forall l : string, Some token <> Some l -> String.eqb token l = false).
  { intros l Hl. apply String.eqb_neq. congruence. }
  rewrite (Hne _ HA), (Hne _ HB), (Hne _ HC), (Hne _ HD). reflexivity.
Qed.

Lemma validate_unknown_phase_is_empty_witness :
  Validation.validate demoClock demoRandom (Some demoProject) (Some "E") = Http.Json 200 []
  /\ Validation.validate demoClock demoRandom (Some demoProject) None = Http.Json 200 [].
Proof.
  split.
  - apply (validate_unknown_phase_is_empty demoClock demoRandom demoProject (Some "E"));
      discriminate.
  - apply (validate_unknown_phase_is_empty demoClock demoRandom demoProject None);
      discriminate.
Defined.

(** C6.  Phase-B validation of any project, with U the services that have no
    container configuration of their [id]: when U is not empty and as long as
    the service list, the one result of category Configuration is [failed] and
    its details name the services of U; when U is not empty but shorter, it is
    a [warning] naming them; when U is empty and a configuration exists, it is
    [passed].  A project with one service and no configuration gets exactly
    one result from the whole call, with status [failed]. *)
Theorem phaseB_configuration_rule (clock : nat -> Z) (random : nat -> string)
    (p : ArchitectureProject) :
  exists rs,
    Validation.validate clock random (Some p) (Some "B") = Http.Json 200 rs
    /\ (unconfiguredServices p <> [] ->
        length (unconfiguredServices p) = length (services p) ->
        exists r, configurationResults rs = [r] /\ vr_status r = "failed"
                  /\ vr_details r = Some ("Configure containers for: "
                       +:+ JS.join ", " (map svc_name (unconfiguredServices p))))
    /\ (unconfiguredServices p <> [] ->
        length (unconfiguredServices p) <> length (services p) ->
        exists r, configurationResults rs = [r] /\ vr_status r = "warning"
                  /\ vr_details r = Some ("Configure containers for: "
                       +:+ JS.join ", " (map svc_name (unconfiguredServices p))))
    /\ (unconfiguredServices p = [] -> containerConfigs p <> [] ->
        exists r, configurationResults rs = [r] /\ vr_status r = "passed")
    /\ (forall s, services p = [s] -> containerConfigs p = [] ->
        exists r, rs = [r] /\ vr_status r = "failed").
Proof.
  eexists. split; [apply validate_phase_B|].
  unfold Validation.validateB. rewrite unconfigured_filter.
  remember (List.filter (fun c => String.eqb (cc_buildType c) "single-stage")
              (containerConfigs p)) as single eqn:Hsingle.
  remember (List.filter (fun c => negb (JS.truthyOption (cc_healthCheck c)))
              (containerConfigs p)) as noCheck eqn:HnoCheck.
  remember (unconfiguredServices p) as U eqn:HU.
  repeat split.
  - intros Hne Hlen. apply positive_length_nonempty in Hne.
    rewrite Hne, Hlen, Nat.eqb_refl.
    destruct (0 <? length single)%nat, (0 <? length noCheck)%nat; cbn;
      eexists; repeat split; reflexivity.
  - intros Hne Hlen. apply positive_length_nonempty in Hne.
    apply Nat.eqb_neq in Hlen. rewrite Hne, Hlen.
    destruct (0 <? length single)%nat, (0 <? length noCheck)%nat; cbn;
      eexists; repeat split; reflexivity.
  - intros Hnil Hcfg. apply positive_length_nonempty in Hcfg.
    rewrite Hnil, Hcfg.
    destruct (0 <? length single)%nat, (0 <? length noCheck)%nat; cbn;
      eexists; repeat split; reflexivity.
  - intros s Hsvc Hcfg.
    unfold unconfiguredServices in HU. rewrite Hsvc, Hcfg in HU.
    rewrite Hcfg in Hsingle, HnoCheck. simpl in HU, Hsingle, HnoCheck.
    subst U single noCheck. rewrite Hsvc. cbn.
    eexists; repeat split; reflexivity.
Qed.

Lemma phaseB_configuration_rule_witness :
  exists r, Validation.validate demoClock demoRandom (Some demoProject) (Some "B")
            = Http.Json 200 [r]
            /\ vr_status r = "failed".
Proof.
  destruct (phaseB_configuration_rule demoClock demoRandom demoProject)
    as (rs & Hrun & _ & _ & _ & Hone).
  destruct (Hone demoService eq_refl eq_refl) as (r & Hrs & Hstatus).
  exists r. rewrite Hrun, Hrs. split; [reflexivity | exact Hstatus].
Defined.

(** ** The persistence boundary *)

Section StorageFacts.

Import Storage.

Variable engine : Engine.

Lemma getProject_lookup (i : string) (db : gmap string DbRow) (row : DbRow) :
  db !! i = Some row -> getProject i db = Some (dbRowToProject i row).
Proof. intros H. unfold getProject. rewrite H. reflexivity. Qed.

Lemma updateProject_unbound (i : string) (updates : PartialProject) (now : string)
    (db : gmap string DbRow) :
  bindsId engine i = false -> updateProject engine i updates now db = (Thrown, db).
Proof. intros Hid. unfold updateProject. rewrite Hid. reflexivity. Qed.

Lemma updateProject_missing (i : string) (updates : PartialProject) (now : string)
    (db : gmap string DbRow) :
  bindsId engine i = true -> db !! i = None ->
  updateProject engine i updates now db = (Returned None, db).
Proof. intros Hid H. unfold updateProject, getProject. rewrite Hid, H. reflexivity. Qed.

Lemma updateProject_existing (i : string) (updates : PartialProject) (now : string)
    (db : gmap string DbRow) (row row' : DbRow) :
  bindsId engine i = true -> db !! i = Some row ->
  setColumns engine (updateData updates now) row = Some row' ->
  updateProject engine i updates now db
  = (Returned (Some (dbRowToProject i row')), <[i := row']> db).
Proof.
  intros Hid H Hset. unfold updateProject.
  rewrite Hid, (getProject_lookup i db row H), H, Hset. reflexivity.
Qed.

Lemma updateProject_refused (i : string) (updates : PartialProject) (now : string)
    (db : gmap string DbRow) (row : DbRow) :
  bindsId engine i = true -> db !! i = Some row ->
  setColumns engine (updateData updates now) row = None ->
  updateProject engine i updates now db = (Thrown, db).
Proof.
  intros Hid H Hset. unfold updateProject.
  rewrite Hid, (getProject_lookup i db row H), H, Hset. reflexivity.
Qed.

End StorageFacts.

Section PatchFacts.

Import Storage.

Variable engine : Engine.






End PatchFacts.



(** ** The template generators *)

Section GeneratorFacts.

Import Generators.

Lemma generateDockerfile_accepts (cfg : ContainerConfig) (serviceName : string) :
  serviceName <> EmptyString ->
  generateDockerfile (Some cfg) (Some serviceName) = Http.Json 200 (dockerfileText cfg serviceName).
Proof.
  intros Hname. unfold generateDockerfile, JS.truthyString.
  apply String.eqb_neq in Hname. rewrite Hname. reflexivity.
Qed.

Lemma generateK8sManifest_accepts (m : K8sManifest) (serviceName : string)
    (cc : option ContainerConfig) :
  serviceName <> EmptyString ->
  generateK8sManifest (Some m) (Some serviceName) cc
  = Http.Json 200 (manifestYaml m serviceName cc).
Proof.
  intros Hname. unfold generateK8sManifest, JS.truthyString.
  apply String.eqb_neq in Hname. rewrite Hname. reflexivity.
Qed.

Lemma dockerfileText_lines (cfg : ContainerConfig) (serviceName : string) :
  dockerfileText cfg serviceName = JS.template (dockerfileLines cfg serviceName).
Proof.
  unfold dockerfileText, dockerfileLines.
  destruct (String.eqb (cc_buildType cfg) "multi-stage"); reflexivity.
Qed.

(** The two FROM lines of a multi-stage Dockerfile. *)
Lemma multiStage_from_lines (cfg : ContainerConfig) (serviceName base : string) :
  nth_error (multiStageLines cfg serviceName base) 2 = Some ("FROM " +:+ base +:+ " AS builder")
  /\ nth_error (multiStageLines cfg serviceName base) 10 = Some ("FROM " +:+ stage2Image base).
Proof. split; reflexivity. Qed.

(** The environment section is one line entry of either template. *)
Lemma env_section_line (cfg : ContainerConfig) (serviceName : string) :
  nth_error (dockerfileLines cfg serviceName) (envLineIndex cfg)
  = Some (envSection (cc_environmentVariables cfg)).
Proof.
  unfold dockerfileLines, envLineIndex.
  destruct (String.eqb (cc_buildType cfg) "multi-stage"); reflexivity.
Qed.

Lemma renderEnv_eraseSecret (env : EnvironmentVariable) :
  renderEnv (eraseSecret env) = renderEnv env.
Proof. unfold renderEnv, eraseSecret. destruct (env_isSecret env) eqn:H; simpl; rewrite ?H; reflexivity. Qed.

Lemma envSection_eraseSecrets (envs : list EnvironmentVariable) :
  envSection (map eraseSecret envs) = envSection envs.
Proof.
  unfold envSection. f_equal. rewrite map_map.
  apply map_ext. intros env. apply renderEnv_eraseSecret.
Qed.

Lemma dockerfileText_eraseSecrets (cfg : ContainerConfig) (serviceName : string) :
  dockerfileText (eraseSecrets cfg) serviceName = dockerfileText cfg serviceName.
Proof.
  unfold dockerfileText, multiStageLines, singleStageLines, eraseSecrets. simpl.
  rewrite envSection_eraseSecrets. reflexivity.
Qed.

End GeneratorFacts.

(** C4, as stated, fails: a secret whose value is [node] is rendered as a
    comment, and yet the Dockerfile holds its value, in the line [USER node]. *)
Lemma secret_value_occurs_in_dockerfile :
  In secretEnv (cc_environmentVariables secretConfig)
  /\ env_isSecret secretEnv = true
  /\ env_value secretEnv <> EmptyString
  /\ exists text,
       Generators.generateDockerfile (Some secretConfig) (Some "api") = Http.Json 200 text
       /\ nth_error (dockerfileLines secretConfig "api") 15 = Some "USER node"
       /\ JS.includes (env_value secretEnv) text = true.
Proof.
  split; [right; left; reflexivity|].
  split; [reflexivity|].
  split; [discriminate|].
  eexists. split; [reflexivity|]. split; [reflexivity|]. vm_compute. reflexivity.
Qed.

(** C4, amended.  The Dockerfile of any configuration does not depend on the
    values of its secret entries: it is the text of the configuration with
    those values blanked, so a secret's value occurs in it only if it already
    occurs in that text.  The environment section is one line entry of the
    document, made of one rendering per entry in input order, joined by line
    feeds: a secret entry is the comment naming its key, any other entry the
    literal [ENV] assignment of its value. *)
Theorem dockerfile_ignores_secret_values (cfg : ContainerConfig) (serviceName : string) :
  Generators.dockerfileText cfg serviceName
  = Generators.dockerfileText (eraseSecrets cfg) serviceName
  /\ (forall env, In env (cc_environmentVariables cfg) -> env_isSecret env = true ->
        Generators.renderEnv env = "# " +:+ env_key env +:+ " - Set via secrets management"
        /\ (JS.includes (env_value env)
              (Generators.dockerfileText (eraseSecrets cfg) serviceName) = false ->
            JS.includes (env_value env) (Generators.dockerfileText cfg serviceName) = false))
  /\ (forall env, In env (cc_environmentVariables cfg) -> env_isSecret env = false ->
        Generators.renderEnv env
        = "ENV " +:+ env_key env +:+ "=" +:+ JS.dq +:+ env_value env +:+ JS.dq)
  /\ Generators.dockerfileText cfg serviceName = JS.template (dockerfileLines cfg serviceName)
  /\ nth_error (dockerfileLines cfg serviceName) (envLineIndex cfg)
     = Some (JS.join JS.nl (map Generators.renderEnv (cc_environmentVariables cfg))).
Proof.
  split; [symmetry; apply dockerfileText_eraseSecrets|].
  split.
  { intros env _ Hsecret. split.
    - unfold Generators.renderEnv. rewrite Hsecret. reflexivity.
    - rewrite dockerfileText_eraseSecrets. trivial. }
  split.
  { intros env _ Hpublic. unfold Generators.renderEnv. rewrite Hpublic. reflexivity. }
  split; [apply dockerfileText_lines | apply env_section_line].
Qed.

(** The amended C4 on [secretConfig]: the text is that of the blanked
    configuration, and the secret entry is a comment. *)
Lemma dockerfile_ignores_secret_values_witness :
  Generators.dockerfileText secretConfig "api"
  = Generators.dockerfileText (eraseSecrets secretConfig) "api"
  /\ Generators.renderEnv secretEnv = "# API_TOKEN - Set via secrets management"
  /\ Generators.renderEnv publicEnv
     = "ENV NODE_ENV=" +:+ JS.dq +:+ "production" +:+ JS.dq.
Proof.
  destruct (dockerfile_ignores_secret_values secretConfig "api") as (Hsame & Hsec & Hpub & _).
  split; [exact Hsame|]. split.
  - apply (Hsec secretEnv); [right; left; reflexivity | reflexivity].
  - apply (Hpub publicEnv); [left; reflexivity | reflexivity].
Defined.

(** C10.  In the manifest generator a replica count of zero is rendered as
    [replicas: 3], an empty namespace as [default] (in both documents), and an
    empty deployment strategy as the type [RollingUpdate] (without the
    rolling-update sub-block, which only the literal strategy yields). *)
Theorem manifest_falsy_fallbacks (m : K8sManifest) (serviceName : string)
    (cc : option ContainerConfig) :
  (k8s_replicas m = 0%Z ->
     nth_error (Generators.manifestLines m serviceName cc) 8 = Some "  replicas: 3"
     /\ JS.includes "  replicas: 3" (Generators.manifestYaml m serviceName cc) = true)
  /\ (k8s_namespace m = EmptyString ->
     nth_error (Generators.manifestLines m serviceName cc) 4 = Some "  namespace: default"
     /\ nth_error (Generators.manifestLines m serviceName cc) 38 = Some "  namespace: default"
     /\ JS.includes "  namespace: default" (Generators.manifestYaml m serviceName cc) = true)
  /\ (k8s_deploymentStrategy m = EmptyString ->
     nth_error (Generators.manifestLines m serviceName cc) 13 = Some "    type: RollingUpdate"
     /\ nth_error (Generators.manifestLines m serviceName cc) 14 = Some EmptyString
     /\ JS.includes "    type: RollingUpdate" (Generators.manifestYaml m serviceName cc) = true).
Proof.
  split; [|split].
  - intros Hzero.
    assert (Hline : nth_error (Generators.manifestLines m serviceName cc) 8
                    = Some "  replicas: 3").
    { unfold Generators.manifestLines. simpl. rewrite Hzero. reflexivity. }
    split; [exact Hline|]. apply (includes_template_line _ 8), Hline.
  - intros Hempty.
    assert (Hline : nth_error (Generators.manifestLines m serviceName cc) 4
                    = Some "  namespace: default").
    { unfold Generators.manifestLines. simpl. rewrite Hempty. reflexivity. }
    split; [exact Hline|]. split.
    + unfold Generators.manifestLines. simpl. rewrite Hempty. reflexivity.
    + apply (includes_template_line _ 4), Hline.
  - intros Hempty.
    assert (Hline : nth_error (Generators.manifestLines m serviceName cc) 13
                    = Some "    type: RollingUpdate").
    { unfold Generators.manifestLines. simpl. rewrite Hempty. reflexivity. }
    split; [exact Hline|]. split.
    + unfold Generators.manifestLines, Generators.rollingUpdateSection. simpl.
      rewrite Hempty. reflexivity.
    + apply (includes_template_line _ 13), Hline.
Qed.

Lemma manifest_falsy_fallbacks_witness :
  nth_error (Generators.manifestLines falsyManifest "Orders" None) 8 = Some "  replicas: 3"
  /\ nth_error (Generators.manifestLines falsyManifest "Orders" None) 4
     = Some "  namespace: default"
  /\ nth_error (Generators.manifestLines falsyManifest "Orders" None) 13
     = Some "    type: RollingUpdate".
Proof.
  destruct (manifest_falsy_fallbacks falsyManifest "Orders" None) as (Hr & Hn & Hs).
  split; [apply (Hr eq_refl)|]. split; [apply (Hn eq_refl) | apply (Hs eq_refl)].
Defined.

(** ** The image of the second stage *)

Section ReplaceFacts.

Lemma replace_unfold (pat rep s : string) :
  JS.replace pat rep s =
  if JS.startsWith pat s then rep +:+ JS.slice (String.length pat) s
  else match s with
       | EmptyString => EmptyString
       | String c s' => String c (JS.replace pat rep s')
       end.
Proof. destruct s; reflexivity. Qed.

Lemma slice_append (pat rest : string) : JS.slice (String.length pat) (pat +:+ rest) = rest.
Proof.
  induction pat as [|c pat IH]; [destruct rest; reflexivity|].
  rewrite append_cons. simpl. exact IH.
Qed.

(** A pattern that opens with a hyphen does not start a text that opens with
    another character. *)
Lemma startsWith_hyphen_mismatch (c : ascii) (pat s : string) :
  Ascii.eqb c "-" = false -> JS.startsWith (String "-" pat) (String c s) = false.
Proof.
  intros Hc. rewrite startsWith_cons.
  destruct (ascii_dec "-" c) as [Heq|_]; [|reflexivity].
  subst c. discriminate Hc.
Qed.

(** After a stem without hyphen, the first occurrence of a hyphenated pattern
    is the one that follows the stem. *)
Lemma replace_after_stem (stem pat rep rest : string) :
  hyphenFree stem = true ->
  JS.replace (String "-" pat) rep (stem +:+ String "-" pat +:+ rest) = stem +:+ rep +:+ rest.
Proof.
  induction stem as [|c stem IH]; intros Hfree.
  - rewrite !append_nil_l, replace_unfold, startsWith_append, slice_append. reflexivity.
  - simpl in Hfree. apply andb_prop in Hfree as [Hc Hfree].
    apply negb_true_iff in Hc.
    rewrite !(append_cons c stem), replace_unfold, startsWith_hyphen_mismatch by exact Hc.
    rewrite IH by exact Hfree. reflexivity.
Qed.

(** On an image name whose only hyphen opens the suffix, the two chained
    replacements give the [-alpine] image for both suffixes. *)
Lemma stage2Image_alpine (stem : string) :
  hyphenFree stem = true ->
  Generators.stage2Image (stem +:+ "-alpine") = stem +:+ "-alpine".
Proof.
  intros Hfree. unfold Generators.stage2Image.
  change (stem +:+ "-alpine") with (stem +:+ String "-" "alpine" +:+ EmptyString) at 1.
  rewrite replace_after_stem by exact Hfree.
  change (stem +:+ "-slim" +:+ EmptyString) with (stem +:+ String "-" "slim" +:+ EmptyString).
  rewrite replace_after_stem by exact Hfree. reflexivity.
Qed.

Lemma replace_absent (stem pat rep rest : string) :
  hyphenFree stem = true -> JS.startsWith (String "-" pat) rest = false ->
  hyphenFree (JS.slice 1 rest) = true ->
  JS.replace (String "-" pat) rep (stem +:+ rest) = stem +:+ rest.
Proof.
  induction stem as [|c stem IH]; intros Hfree Hstart Hrest.
  - rewrite append_nil_l, replace_unfold, Hstart.
    destruct rest as [|d rest]; [reflexivity|]. f_equal. simpl in Hrest.
    clear Hstart. induction rest as [|e rest IHr]; [reflexivity|].
    simpl in Hrest. apply andb_prop in Hrest as [He Hrest]. apply negb_true_iff in He.
    rewrite replace_unfold, startsWith_hyphen_mismatch by exact He.
    f_equal. apply IHr, Hrest.
  - simpl in Hfree. apply andb_prop in Hfree as [Hc Hfree]. apply negb_true_iff in Hc.
    rewrite (append_cons c stem), replace_unfold, startsWith_hyphen_mismatch by exact Hc.
    rewrite IH; auto.
Qed.

Lemma stage2Image_slim (stem : string) :
  hyphenFree stem = true ->
  Generators.stage2Image (stem +:+ "-slim") = stem +:+ "-alpine".
Proof.
  intros Hfree. unfold Generators.stage2Image.
  rewrite (replace_absent stem "alpine" "-slim" "-slim" Hfree) by reflexivity.
  change (stem +:+ "-slim") with (stem +:+ String "-" "slim" +:+ EmptyString).
  rewrite replace_after_stem by exact Hfree. reflexivity.
Qed.

End ReplaceFacts.

(** ** The circular-dependency scan *)

Section ScanFacts.

Import Validation.

Variable clock : nat -> Z.
Variable random : nat -> string.

Lemma set_scan {A : Type} (f : A -> string) (l : list A) (x : string) :
  bool_decide (x ∈ (list_to_set (map f l) : gset string))
  = existsb (fun a => String.eqb (f a) x) l.
Proof.
  destruct (existsb (fun a => String.eqb (f a) x) l) eqn:Hscan.
  - apply bool_decide_eq_true_2. apply elem_of_list_to_set, list_elem_of_In, in_map_iff.
    apply existsb_exists in Hscan as (a & Hin & Heq).
    exists a. split; [apply String.eqb_eq, Heq | exact Hin].
  - apply bool_decide_eq_false_2. intros Hmem.
    apply elem_of_list_to_set, list_elem_of_In, in_map_iff in Hmem as (a & Heq & Hin).
    assert (Htrue : existsb (fun a => String.eqb (f a) x) l = true).
    { apply existsb_exists. exists a. split; [exact Hin | apply String.eqb_eq, Heq]. }
    congruence.
Qed.

Lemma keys_record (recorded : list (string * string)) (e : string * string) :
  {[ edgeKey e ]} ∪ recordedKeys recorded = recordedKeys (recorded ++ [e]).
Proof.
  unfold recordedKeys. rewrite map_app, list_to_set_app_L. simpl.
  rewrite (right_id_L ∅ (∪)). apply (comm_L (∪)).
Qed.

Lemma keys_scan (recorded : list (string * string)) (x : string) :
  bool_decide (x ∈ recordedKeys recorded) = existsb (fun r => String.eqb (edgeKey r) x) recorded.
Proof. apply set_scan. Qed.

Lemma bind_run {A B : Type} (m : V A) (k : A -> V B) (st : VState) :
  (m ≫= k) st = k (m st).1 (m st).2.
Proof. unfold mbind, V_bind, bind. destruct (m st); reflexivity. Qed.

Lemma emit_run (phase category status message : string) (details : option string)
    (st : VState) :
  emit clock random phase category status message details st
  = (tt, {| validations := validations st ++
              [ {| vr_id := "val-" +:+ JS.numberToString (clock (idCalls st)) +:+ "-"
                              +:+ random (idCalls st);
                   vr_phase := phase; vr_category := category; vr_status := status;
                   vr_message := message; vr_details := details |} ];
            idCalls := S (idCalls st) |}).
Proof. reflexivity. Qed.

(** The inner loop: what it records and what it pushes. *)
Lemma scanDependencies_run (serviceName : string) (deps : list string) :
  forall (recorded : list (string * string)) (st : VState),
    scanDependencies clock random serviceName deps (recordedKeys recorded) st
    = (recordedKeys (recorded ++ map (fun dep => (serviceName, dep)) deps),
       {| validations := validations st ++
            circularResults clock random (idCalls st)
              (reportedEdges recorded (map (fun dep => (serviceName, dep)) deps));
          idCalls := idCalls st
            + length (reportedEdges recorded (map (fun dep => (serviceName, dep)) deps)) |}).
Proof.
  induction deps as [|dep deps IH]; intros recorded st.
  - cbn [scanDependencies map reportedEdges circularResults length].
    rewrite !app_nil_r, Nat.add_0_r. destruct st; reflexivity.
  - cbn [scanDependencies map reportedEdges]. rewrite bind_run.
    change (dep +:+ "->" +:+ serviceName) with (edgeKey (reverseEdge (serviceName, dep))).
    change (serviceName +:+ "->" +:+ dep) with (edgeKey (serviceName, dep)).
    rewrite keys_record, keys_scan.
    destruct (existsb _ recorded).
    + unfold when. rewrite emit_run. cbn [fst snd]. rewrite IH. cbn [validations idCalls].
      rewrite <- !app_assoc. cbn [app length circularResults].
      rewrite Nat.add_succ_r. reflexivity.
    + unfold when, ret. cbn [fst snd]. rewrite IH.
      rewrite <- !app_assoc. reflexivity.
Qed.

Lemma reportedEdges_app (es1 : list (string * string)) :
  forall recorded es2,
    reportedEdges recorded (es1 ++ es2)
    = reportedEdges recorded es1 ++ reportedEdges (recorded ++ es1) es2.
Proof.
  induction es1 as [|e es1 IH]; intros recorded es2.
  - simpl. rewrite app_nil_r. reflexivity.
  - cbn [app reportedEdges]. rewrite IH, <- !app_assoc. reflexivity.
Qed.

Lemma circularResults_app (es1 es2 : list (string * string)) :
  forall k, circularResults clock random k (es1 ++ es2)
            = circularResults clock random k es1
              ++ circularResults clock random (k + length es1) es2.
Proof.
  induction es1 as [|e es1 IH]; intros k.
  - simpl. rewrite Nat.add_0_r. reflexivity.
  - cbn [app circularResults length]. rewrite IH, Nat.add_succ_r. reflexivity.
Qed.

(** The outer loop. *)
Lemma scanServices_run (svcs : list Service) :
  forall (recorded : list (string * string)) (st : VState),
    scanServices clock random svcs (recordedKeys recorded) st
    = (recordedKeys (recorded ++ edgesOf svcs),
       {| validations := validations st ++
            circularResults clock random (idCalls st) (reportedEdges recorded (edgesOf svcs));
          idCalls := idCalls st + length (reportedEdges recorded (edgesOf svcs)) |}).
Proof.
  induction svcs as [|service svcs IH]; intros recorded st.
  - cbn [scanServices edgesOf flat_map reportedEdges circularResults length].
    rewrite !app_nil_r, Nat.add_0_r. destruct st; reflexivity.
  - cbn [scanServices]. rewrite bind_run, scanDependencies_run. cbn [fst snd].
    rewrite IH. cbn [validations idCalls edgesOf flat_map].
    fold (edgesOf svcs).
    rewrite reportedEdges_app, circularResults_app, length_app.
    rewrite <- !app_assoc, Nat.add_assoc. reflexivity.
Qed.

(** Every result the scan pushes has status [error]; the three rules before
    it push none. *)
Lemma errorResults_circular (k : nat) (es : list (string * string)) :
  errorResults (circularResults clock random k es) = circularResults clock random k es.
Proof.
  revert k. induction es as [|e es IH]; intros k; [reflexivity|].
  unfold errorResults in *. cbn [circularResults List.filter circularResult vr_status].
  rewrite String.eqb_refl, IH. reflexivity.
Qed.

Lemma errorResults_app (rs1 rs2 : list ValidationResult) :
  errorResults (rs1 ++ rs2) = errorResults rs1 ++ errorResults rs2.
Proof. apply List.filter_app. Qed.

(** Phase-A validation: the error results are the scan's, one per reported
    edge, in order. *)
Lemma validate_phase_A (p : ArchitectureProject) :
  validate clock random (Some p) (Some "A")
  = Http.Json 200 (validations (validateA clock random p {| validations := []; idCalls := 0 |}).2).
Proof.
  unfold validate, validatePhase. change (String.eqb "A" "A") with true. cbv iota.
  destruct (validateA clock random p _) as [u st]. reflexivity.
Qed.

(** Phase A: the results of the three counting rules, none of status
    [error], and then the scan's results. *)
Lemma validateA_run (p : ArchitectureProject) :
  exists (head : list ValidationResult) (k : nat),
    validations (validateA clock random p {| validations := []; idCalls := 0 |}).2
    = head ++ circularResults clock random k (reportedEdges [] (edgesOf (services p)))
    /\ errorResults head = [].
Proof.
  unfold validateA.
  destruct (length (services p) =? 0)%nat;
    destruct (length (boundedContexts p) =? 0)%nat;
    destruct (0 <? length (List.filter _ (services p)))%nat;
    rewrite !bind_run; unfold when; rewrite ?emit_run; cbn [fst snd];
    change (∅ : gset string) with (recordedKeys []);
    rewrite scanServices_run; cbn [fst snd ret validations idCalls];
    eexists; eexists; (split; [reflexivity | reflexivity]).
Qed.

Lemma validateA_errors (p : ArchitectureProject) :
  exists (rs : list ValidationResult) (k : nat),
    validate clock random (Some p) (Some "A") = Http.Json 200 rs
    /\ errorResults rs
       = circularResults clock random k (reportedEdges [] (edgesOf (services p))).
Proof.
  destruct (validateA_run p) as (head & k & Hrun & Hhead).
  eexists. exists k. split; [apply validate_phase_A|].
  rewrite Hrun, errorResults_app, Hhead, errorResults_circular. reflexivity.
Qed.

End ScanFacts.

(** ** Keys and edges *)

Section KeyFacts.

Lemma includes_tail (pat s : string) (c : ascii) :
  JS.includes pat (String c s) = false -> JS.includes pat s = false.
Proof.
  rewrite includes_unfold. destruct (JS.startsWith pat (String c s)); [discriminate | trivial].
Qed.

Lemma arrowFree_tail (c : ascii) (s : string) :
  arrowFree (String c s) = true -> arrowFree s = true.
Proof.
  unfold arrowFree. intros H. apply negb_true_iff in H. apply negb_true_iff.
  exact (includes_tail _ _ _ H).
Qed.

Lemma arrow_prefix_not_free (s : string) : arrowFree (String "-" (String ">" s)) = false.
Proof.
  unfold arrowFree. rewrite includes_here; [reflexivity|].
  apply (startsWith_append "->" s).
Qed.

Lemma arrow_append (s : string) : "->" +:+ s = String "-" (String ">" s).
Proof. reflexivity. Qed.

Lemma arrow_split_unique (a : string) :
  forall a' b b',
    arrowFree a = true -> arrowFree a' = true ->
    a +:+ String "-" (String ">" b) = a' +:+ String "-" (String ">" b') -> a = a' /\ b = b'.
Proof.
  induction a as [|c a IH]; intros a' b b' Ha Ha' Heq.
  - rewrite append_nil_l in Heq. destruct a' as [|c' a'].
    + rewrite append_nil_l in Heq. injection Heq as ->. split; reflexivity.
    + rewrite append_cons in Heq. injection Heq as <- Heq.
      destruct a' as [|d a'].
      * rewrite append_nil_l in Heq. discriminate Heq.
      * rewrite append_cons in Heq. injection Heq as <- _.
        rewrite (arrow_prefix_not_free a') in Ha'. discriminate Ha'.
  - rewrite append_cons in Heq. destruct a' as [|c' a'].
    + rewrite append_nil_l in Heq. injection Heq as -> Heq.
      destruct a as [|d a].
      * rewrite append_nil_l in Heq. discriminate Heq.
      * rewrite append_cons in Heq. injection Heq as -> _.
        rewrite (arrow_prefix_not_free a) in Ha. discriminate Ha.
    + rewrite append_cons in Heq. injection Heq as -> Heq.
      destruct (IH a' b b' (arrowFree_tail _ _ Ha) (arrowFree_tail _ _ Ha') Heq) as [-> ->].
      split; reflexivity.
Qed.

(** With names free of the arrow, a key determines its edge. *)
Lemma edgeKey_inj (a a' b b' : string) :
  arrowFree a = true -> arrowFree a' = true ->
  a +:+ "->" +:+ b = a' +:+ "->" +:+ b' -> a = a' /\ b = b'.
Proof.
  intros Ha Ha' Heq. rewrite !arrow_append in Heq.
  exact (arrow_split_unique a a' b b' Ha Ha' Heq).
Qed.

Lemma edgeKey_eqb (r e : string * string) :
  arrowFree r.1 = true -> arrowFree e.1 = true ->
  String.eqb (edgeKey r) (edgeKey e) = edgeEqb r e.
Proof.
  intros Hr He. destruct r as [a b], e as [a' b']. unfold edgeKey, edgeEqb. simpl in *.
  destruct (String.eqb_spec (a +:+ "->" +:+ b) (a' +:+ "->" +:+ b')) as [Heq|Hne].
  - destruct (edgeKey_inj a a' b b' Hr He Heq) as [-> ->].
    rewrite !String.eqb_refl. reflexivity.
  - symmetry. apply andb_false_iff.
    destruct (String.eqb_spec a a') as [->|]; [|left; reflexivity].
    destruct (String.eqb_spec b b') as [->|]; [|right; reflexivity].
    congruence.
Qed.

Lemma arrowFreeEdges_app (es1 es2 : list (string * string)) :
  arrowFreeEdges (es1 ++ es2) = arrowFreeEdges es1 && arrowFreeEdges es2.
Proof. apply forallb_app. Qed.

Lemma recorded_scan_by_pair (recorded : list (string * string)) (e : string * string) :
  arrowFreeEdges recorded = true -> arrowFree e.2 = true ->
  existsb (fun r => String.eqb (edgeKey r) (edgeKey (reverseEdge e))) recorded
  = existsb (fun r => edgeEqb r (reverseEdge e)) recorded.
Proof.
  intros Hrec He. induction recorded as [|r recorded IH]; [reflexivity|].
  simpl in Hrec. apply andb_prop in Hrec as [Hr Hrec]. apply andb_prop in Hr as [Hr1 _].
  cbn [existsb]. rewrite IH by exact Hrec.
  rewrite (edgeKey_eqb r (reverseEdge e)) by (exact Hr1 || exact He). reflexivity.
Qed.

(** With names free of the arrow the scan reports an edge exactly when its
    reverse edge was recorded earlier. *)
Lemma reportedEdges_by_pair (es : list (string * string)) :
  forall recorded,
    arrowFreeEdges recorded = true -> arrowFreeEdges es = true ->
    reportedEdges recorded es = reverseRecordedEdges recorded es.
Proof.
  induction es as [|e es IH]; intros recorded Hrec Hes; [reflexivity|].
  simpl in Hes. apply andb_prop in Hes as [He Hes].
  cbn [reportedEdges reverseRecordedEdges].
  rewrite recorded_scan_by_pair; [|exact Hrec|apply andb_prop in He as [_ He]; exact He].
  rewrite IH; [reflexivity| |exact Hes].
  rewrite arrowFreeEdges_app, Hrec. simpl. rewrite He. reflexivity.
Qed.

End KeyFacts.

(** ** The claims on the generators' second stage and probes, and on the scan *)

Section ClaimFacts.

(** The probe section is empty without a health check; with one it is the
    liveness block, delayed 15 seconds and paced by the health check's
    interval, followed by the readiness block, delayed 5 seconds and paced by
    the constant 10. *)
Lemma probeSection_blocks (hc : HealthCheck) :
  Generators.probeSection None = EmptyString
  /\ Generators.probeSection (Some hc)
     = JS.template (probeBlock "liveness" hc 15 (hc_intervalSeconds hc)
                    ++ probeBlock "readiness" hc 5 10).
Proof. split; reflexivity. Qed.

(** The probe section is line 32 of the manifest, whatever the manifest. *)
Lemma manifest_probe_line (m : K8sManifest) (serviceName : string)
    (cc : option ContainerConfig) :
  nth_error (Generators.manifestLines m serviceName cc) 32
  = Some (Generators.probeSection (Generators.healthCheckOf cc)).
Proof. reflexivity. Qed.

(** Two services that name each other as their only dependency: the scan
    pushes an [error] whose message holds both names. *)
Lemma mutual_dependency_is_reported (clock : nat -> Z) (random : nat -> string)
    (p : ArchitectureProject) (sx sy : Service) :
  services p = [sx; sy] ->
  svc_dependencies sx = [svc_name sy] -> svc_dependencies sy = [svc_name sx] ->
  exists rs r,
    Validation.validate clock random (Some p) (Some "A") = Http.Json 200 rs
    /\ In r rs /\ vr_status r = "error"
    /\ JS.includes (svc_name sx) (vr_message r) = true
    /\ JS.includes (svc_name sy) (vr_message r) = true.
Proof.
  intros Hsvcs Hx Hy.
  destruct (validateA_errors clock random p) as (rs & k & Hrun & Herr).
  exists rs, (circularResult clock random k (svc_name sy, svc_name sx)).
  split; [exact Hrun|].
  assert (Hin : In (circularResult clock random k (svc_name sy, svc_name sx)) (errorResults rs)).
  { rewrite Herr, Hsvcs. unfold edgesOf. cbn [flat_map]. rewrite Hx, Hy.
    cbn [map app reportedEdges existsb reverseEdge fst snd].
    rewrite String.eqb_refl. left. reflexivity. }
  split; [apply List.filter_In in Hin as [Hin _]; exact Hin|].
  split; [reflexivity|].
  cbn [circularResult vr_message fst snd]. split.
  - rewrite <- (append_nil_r (svc_name sx)) at 2.
    rewrite <- (append_assoc _ (svc_name sy)), <- (append_assoc _ " <-> ").
    apply includes_append.
  - apply includes_append.
Qed.

End ClaimFacts.

(** C1 fails on the code.  For the multi-stage configuration on
    [node:20-alpine] the request is answered with the two-stage document, the
    first stage builds from the given image, and the second stage runs from
    the same [node:20-alpine]: the replacement of [-alpine] by [-slim] is undone
    by the replacement of [-slim] by [-alpine] chained after it, so the image
    that ends in [-alpine] does not yield one that ends in [-slim]. *)
Theorem multistage_alpine_second_stage :
  Generators.generateDockerfile (Some alpineConfig) (Some "api")
  = Http.Json 200 (JS.template (Generators.multiStageLines alpineConfig "api" "node:20-alpine"))
  /\ nth_error (Generators.multiStageLines alpineConfig "api" "node:20-alpine") 2
     = Some "FROM node:20-alpine AS builder"
  /\ nth_error (Generators.multiStageLines alpineConfig "api" "node:20-alpine") 10
     = Some "FROM node:20-alpine"
  /\ JS.endsWith "-alpine" (cc_baseImage alpineConfig) = true
  /\ Generators.stage2Image (cc_baseImage alpineConfig) = "node:20-alpine"
  /\ JS.endsWith "-slim" (Generators.stage2Image (cc_baseImage alpineConfig)) = false.
Proof.
  split; [reflexivity|].
  destruct (multiStage_from_lines alpineConfig "api" "node:20-alpine") as [H1 H2].
  split; [exact H1|]. split; [rewrite H2; reflexivity|].
  split; [reflexivity|].
  split; [apply (stage2Image_alpine "node:20"); reflexivity|].
  vm_compute. reflexivity.
Qed.

(** C2 fails on the code.  With a health check every 30 seconds the manifest
    holds the two probe blocks, both on the health check's port, delayed 15 and
    5 seconds; the liveness probe is paced by the interval, 30, but the
    readiness probe by the constant 10, so the section is not the one in which
    both periods are the interval. *)
Theorem readiness_probe_period_is_constant :
  hc_intervalSeconds demoHealthCheck = 30%Z
  /\ nth_error (Generators.manifestLines falsyManifest "Orders" (Some probedConfig)) 32
     = Some (Generators.probeSection (Some demoHealthCheck))
  /\ Generators.probeSection (Some demoHealthCheck)
     = JS.template (probeBlock "liveness" demoHealthCheck 15 30
                    ++ probeBlock "readiness" demoHealthCheck 5 10)
  /\ nth_error (probeBlock "readiness" demoHealthCheck 5 10) 5
     = Some "          periodSeconds: 10"
  /\ String.eqb (Generators.probeSection (Some demoHealthCheck))
       (JS.template (probeBlock "liveness" demoHealthCheck 15 30
                     ++ probeBlock "readiness" demoHealthCheck 5 30)) = false.
Proof.
  split; [reflexivity|].
  split; [apply (manifest_probe_line falsyManifest "Orders" (Some probedConfig))|].
  split; [apply probeSection_blocks|].
  split; [reflexivity|].
  vm_compute. reflexivity.
Qed.

(** C5 fails on the code.  In [arrowProject] the only edges are from [a] to
    [b->c] and from [c] to [a->b]; for neither was the reverse edge recorded
    earlier.  The scan still pushes an [error] at the second edge, because the
    key recorded for the first edge and the reversed key of the second are the
    same text. *)
Theorem circular_scan_key_collision (clock : nat -> Z) (random : nat -> string) :
  edgesOf (services arrowProject) = [("a", "b->c"); ("c", "a->b")]
  /\ reverseRecordedEdges [] (edgesOf (services arrowProject)) = []
  /\ edgeKey ("a", "b->c") = edgeKey (reverseEdge ("c", "a->b"))
  /\ exists rs,
       Validation.validate clock random (Some arrowProject) (Some "A") = Http.Json 200 rs
       /\ map vr_message (errorResults rs) = ["Circular dependency detected: c <-> a->b"].
Proof.
  split; [reflexivity|]. split; [reflexivity|]. split; [reflexivity|].
  destruct (validateA_errors clock random arrowProject) as (rs & k & Hrun & Herr).
  exists rs. split; [exact Hrun|]. rewrite Herr. reflexivity.
Qed.

(** * Further properties of the code *)

(** ** The store's collections *)

Section CollectionFacts.

Lemma idsOf_items (c : Collection) (p : ArchitectureProject) :
  idsOf c p = map (itemId c) (itemsOf c p).
Proof. destruct c; reflexivity. Qed.

(** What a remove callback writes: the collection without the identifier. *)
Lemma mutate_removeFrom (c : Collection) (p : ArchitectureProject) (i now : string) :
  exists q,
    Store.mutate (removeFrom c i) now (Some p) = Some q
    /\ itemsOf c q = Store.without (itemId c) i (itemsOf c p)
    /\ (forall c', collectionEqb c' c = false -> agreeOn c' p q)
    /\ sameHeader p q /\ updatedAt q = now.
Proof.
  eexists. split; [reflexivity|].
  split; [destruct c; reflexivity|].
  split; [intros c' Hc'; destruct c, c'; try discriminate Hc'; reflexivity|].
  split; [destruct c; repeat split; reflexivity | destruct c; reflexivity].
Qed.

Lemma mutate_addTo (c : Collection) (item : Item c) (p : ArchitectureProject) (now : string) :
  exists q,
    Store.mutate (addTo c item) now (Some p) = Some q
    /\ itemsOf c q = itemsOf c p ++ [item]
    /\ (forall c', collectionEqb c' c = false -> agreeOn c' p q)
    /\ sameHeader p q /\ updatedAt q = now.
Proof.
  eexists. split; [reflexivity|].
  split; [destruct c; reflexivity|].
  split; [intros c' Hc'; destruct c, c'; try discriminate Hc'; reflexivity|].
  split; [destruct c; repeat split; reflexivity | destruct c; reflexivity].
Qed.

Lemma without_ids {A : Type} (idOf : A -> string) (i : string) (xs : list A) :
  map idOf (Store.without idOf i xs)
  = List.filter (fun j => negb (String.eqb j i)) (map idOf xs).
Proof.
  unfold Store.without. induction xs as [|x xs IH]; [reflexivity|].
  simpl. destruct (String.eqb (idOf x) i); simpl; rewrite IH; reflexivity.
Qed.

Lemma without_gone {A : Type} (idOf : A -> string) (i : string) (xs : list A) :
  ~ In i (map idOf (Store.without idOf i xs)).
Proof.
  rewrite without_ids. intros Hin. apply List.filter_In in Hin as [_ Hne].
  rewrite String.eqb_refl in Hne. discriminate Hne.
Qed.

Lemma without_appended {A : Type} (idOf : A -> string) (x : A) (xs : list A) :
  ~ In (idOf x) (map idOf xs) -> Store.without idOf (idOf x) (xs ++ [x]) = xs.
Proof.
  intros Hfresh. unfold Store.without. rewrite List.filter_app. simpl.
  rewrite String.eqb_refl. simpl. rewrite app_nil_r.
  apply (without_absent idOf (idOf x) xs Hfresh).
Qed.

End CollectionFacts.

(** X1.  Removing an identifier from a collection deletes every item that
    carries it, duplicates included, and keeps the other items in their order;
    the identifier is no longer in the collection, the other seven collections
    and the project's scalar fields are untouched, and [updatedAt] is the time
    of the call. *)
Theorem remove_deletes_every_match (c : Collection) (p : ArchitectureProject) (i now : string) :
  exists q,
    Store.mutate (removeFrom c i) now (Some p) = Some q
    /\ itemsOf c q
       = List.filter (fun item => negb (String.eqb (itemId c item) i)) (itemsOf c p)
    /\ ~ In i (idsOf c q)
    /\ (forall c', collectionEqb c' c = false -> agreeOn c' p q)
    /\ sameHeader p q /\ updatedAt q = now.
Proof.
  destruct (mutate_removeFrom c p i now) as (q & Hq & Hitems & Hothers & Hhead & Hnow).
  exists q. split; [exact Hq|]. split; [exact Hitems|].
  split; [rewrite idsOf_items, Hitems; apply without_gone|].
  split; [exact Hothers|]. split; [exact Hhead | exact Hnow].
Qed.

(** X2.  Adding an item and then removing its identifier gives back the
    project as it was, apart from [updatedAt], provided no item of the
    collection already carried that identifier. *)
Theorem add_then_remove_restores (c : Collection) (item : Item c) (p : ArchitectureProject)
    (now1 now2 : string) :
  ~ In (itemId c item) (idsOf c p) ->
  Store.mutate (removeFrom c (itemId c item)) now2
    (Store.mutate (addTo c item) now1 (Some p))
  = Some (Store.withUpdatedAt now2 p).
Proof.
  intros Hfresh. rewrite idsOf_items in Hfresh.
  destruct p, c; unfold Store.mutate, Store.updateProjectLocal, Store.withUpdatedAt,
    Store.spread, addTo, removeFrom, itemsOf, itemId in *; simpl in *;
    unfold Store.removeBoundedContext, Store.removeService, Store.removeContainerConfig,
      Store.removeSLO, Store.removeAutoscaling, Store.removeK8sManifest,
      Store.removeResiliencePattern, Store.removeObservabilityConfig; simpl;
    rewrite without_appended by exact Hfresh; reflexivity.
Qed.

Lemma add_then_remove_restores_witness :
  ~ In (itemId Services billingService) (idsOf Services demoProject)
  /\ Store.mutate (removeFrom Services "s2") "2024-02-03T00:00:00.000Z"
       (Store.mutate (addTo Services billingService) "2024-02-02T00:00:00.000Z"
          (Some demoProject))
     = Some (Store.withUpdatedAt "2024-02-03T00:00:00.000Z" demoProject).
Proof.
  assert (Hfresh : ~ In (itemId Services billingService) (idsOf Services demoProject)).
  { simpl. intros [H | []]. discriminate H. }
  split; [exact Hfresh|].
  exact (add_then_remove_restores Services billingService demoProject
           "2024-02-02T00:00:00.000Z" "2024-02-03T00:00:00.000Z" Hfresh).
Defined.

(** X3.  Adding appends the item at the end of its collection and checks
    nothing: the identifier occurs once more than before, so an identifier
    that was already there is there twice; the other collections and the
    scalar fields are untouched. *)
Theorem add_appends_without_check (c : Collection) (item : Item c) (p : ArchitectureProject)
    (now : string) :
  exists q,
    Store.mutate (addTo c item) now (Some p) = Some q
    /\ itemsOf c q = itemsOf c p ++ [item]
    /\ count_occ string_dec (idsOf c q) (itemId c item)
       = S (count_occ string_dec (idsOf c p) (itemId c item))
    /\ (In (itemId c item) (idsOf c p) -> ~ List.NoDup (idsOf c q))
    /\ (forall c', collectionEqb c' c = false -> agreeOn c' p q)
    /\ sameHeader p q /\ updatedAt q = now.
Proof.
  destruct (mutate_addTo c item p now) as (q & Hq & Hitems & Hothers & Hhead & Hnow).
  assert (Hcount : count_occ string_dec (idsOf c q) (itemId c item)
                   = S (count_occ string_dec (idsOf c p) (itemId c item))).
  { rewrite !idsOf_items, Hitems, map_app, count_occ_app. simpl.
    destruct (string_dec (itemId c item) (itemId c item)) as [_|Hne]; [lia | congruence]. }
  exists q. split; [exact Hq|]. split; [exact Hitems|]. split; [exact Hcount|].
  split.
  { intros Hin Hnodup.
    apply (count_occ_In string_dec) in Hin.
    pose proof (proj1 (NoDup_count_occ string_dec (idsOf c q)) Hnodup (itemId c item)).
    lia. }
  split; [exact Hothers|]. split; [exact Hhead | exact Hnow].
Qed.

(** X4.  Callbacks compute their updates from the project of the render that
    created them.  Two [addService] callbacks of the same render, applied one
    after the other, leave only the second service: the first is overwritten.
    Applied from successive renders they leave both, and callbacks of the same
    render that write different collections do not disturb each other. *)
Theorem stale_callbacks_overwrite (p : ArchitectureProject) (s1 s2 : Service)
    (cfg : ContainerConfig) (now1 now2 : string) :
  (exists q,
     Store.updateProjectLocal (Store.addService (Some p) s2) now2
       (Store.updateProjectLocal (Store.addService (Some p) s1) now1 (Some p)) = Some q
     /\ services q = services p ++ [s2])
  /\ (exists q,
        Store.mutate (fun pr => Store.addService pr s2) now2
          (Store.mutate (fun pr => Store.addService pr s1) now1 (Some p)) = Some q
        /\ services q = services p ++ [s1; s2])
  /\ (exists q,
        Store.updateProjectLocal (Store.addContainerConfig (Some p) cfg) now2
          (Store.updateProjectLocal (Store.addService (Some p) s1) now1 (Some p)) = Some q
        /\ services q = services p ++ [s1]
        /\ containerConfigs q = containerConfigs p ++ [cfg]).
Proof.
  split; [|split].
  - eexists. split; reflexivity.
  - eexists. split; [reflexivity|]. simpl. rewrite <- app_assoc. reflexivity.
  - eexists. split; [reflexivity|]. split; reflexivity.
Qed.

(** ** Saving edits, and the phase the store is in *)

Section EditFacts.

Lemma spread_wholeService (svc s : Service) :
  StoreEdits.spreadService svc (StoreEdits.wholeService s) = s.
Proof. destruct s; reflexivity. Qed.

Lemma spread_wholeContainerConfig (cfg c : ContainerConfig) :
  StoreEdits.spreadContainerConfig cfg (StoreEdits.wholeContainerConfig c) = c.
Proof. destruct c; reflexivity. Qed.

(** Replacing by identifier keeps the identifiers, and changes nothing when
    the identifier is absent. *)
Lemma replace_by_id_ids {A : Type} (idOf : A -> string) (saved : A) (xs : list A) :
  map idOf (map (fun x => if String.eqb (idOf x) (idOf saved) then saved else x) xs)
  = map idOf xs.
Proof.
  induction xs as [|x xs IH]; [reflexivity|]. simpl. rewrite IH.
  destruct (String.eqb_spec (idOf x) (idOf saved)) as [Heq|_]; [rewrite Heq|]; reflexivity.
Qed.

Lemma map_by_id_absent {A : Type} (idOf : A -> string) (i : string) (f : A -> A)
    (xs : list A) :
  ~ In i (map idOf xs) ->
  map (fun x => if String.eqb (idOf x) i then f x else x) xs = xs.
Proof.
  induction xs as [|x xs IH]; intros Hnot; [reflexivity|]. simpl in *.
  destruct (String.eqb_spec (idOf x) i) as [Heq|_].
  - exfalso. apply Hnot. left. exact Heq.
  - f_equal. apply IH. intros Hin. apply Hnot. right. exact Hin.
Qed.

Lemma setPhase_in_sync (phase now : string) (st : StoreEdits.StoreState) :
  phaseInSync (StoreEdits.setPhase phase now st).
Proof.
  unfold phaseInSync, StoreEdits.setPhase. simpl.
  destruct (StoreEdits.st_project st); reflexivity.
Qed.

(** A callback that writes no phase keeps the store's two phases together. *)
Lemma mutate_in_sync (callback : option ArchitectureProject -> PartialProject)
    (now : string) (st : StoreEdits.StoreState) :
  (forall project, p_currentPhase (callback project) = None) ->
  phaseInSync st -> phaseInSync (StoreEdits.mutate callback now st).
Proof.
  intros Hcallback Hsync. unfold phaseInSync, StoreEdits.mutate, Store.mutate in *. simpl.
  destruct (StoreEdits.st_project st) as [p|]; [|exact I]. simpl.
  rewrite Hcallback. exact Hsync.
Qed.

End EditFacts.

(** X5.  Saving an edited service replaces, in place, every stored service
    that has the saved identifier by the saved service as a whole: order,
    number and identifiers of the services stay, and when no stored service has
    that identifier the save changes nothing.  Saving an edited container
    configuration does the same, which also clears a health check or resource
    limits that the saved configuration leaves out. *)
Theorem save_edit_replaces_in_place (p : ArchitectureProject) (editing saved : Service)
    (editingConfig savedConfig : ContainerConfig) (now : string) :
  (exists q,
     Store.mutate (StoreEdits.handleSaveService (Some editing) saved) now (Some p) = Some q
     /\ services q = replaceService saved (services p)
     /\ map svc_id (services q) = map svc_id (services p)
     /\ (~ In (svc_id saved) (map svc_id (services p)) -> services q = services p)
     /\ containerConfigs q = containerConfigs p /\ sameHeader p q)
  /\ (exists q,
        Store.mutate (StoreEdits.handleSaveConfig (Some editingConfig) savedConfig) now (Some p)
        = Some q
        /\ containerConfigs q = replaceConfig savedConfig (containerConfigs p)
        /\ map cc_id (containerConfigs q) = map cc_id (containerConfigs p)
        /\ (~ In (cc_id savedConfig) (map cc_id (containerConfigs p)) ->
            containerConfigs q = containerConfigs p)
        /\ services q = services p /\ sameHeader p q).
Proof.
  split.
  - assert (Hmap : map (fun svc => if String.eqb (svc_id svc) (svc_id saved)
                                   then StoreEdits.spreadService svc (StoreEdits.wholeService saved)
                                   else svc) (services p)
                   = replaceService saved (services p)).
    { unfold replaceService. apply map_ext. intros svc.
      rewrite spread_wholeService. reflexivity. }
    eexists. split; [reflexivity|]. simpl. rewrite Hmap.
    split; [reflexivity|]. split; [apply replace_by_id_ids|].
    split; [intros Hnot; apply (map_by_id_absent svc_id _ (fun _ => saved)), Hnot|].
    split; [reflexivity | repeat split; reflexivity].
  - assert (Hmap : map (fun cfg => if String.eqb (cc_id cfg) (cc_id savedConfig)
                                   then StoreEdits.spreadContainerConfig cfg
                                          (StoreEdits.wholeContainerConfig savedConfig)
                                   else cfg) (containerConfigs p)
                   = replaceConfig savedConfig (containerConfigs p)).
    { unfold replaceConfig. apply map_ext. intros cfg.
      rewrite spread_wholeContainerConfig. reflexivity. }
    eexists. split; [reflexivity|]. simpl. rewrite Hmap.
    split; [reflexivity|]. split; [apply replace_by_id_ids|].
    split; [intros Hnot; apply (map_by_id_absent cc_id _ (fun _ => savedConfig)), Hnot|].
    split; [reflexivity | repeat split; reflexivity].
Qed.

(** X6.  [updateService] and [updateContainerConfig] with an identifier that
    their collection does not hold leave the project as it was in every field
    except [updatedAt], whatever the patch. *)
Theorem update_absent_id_is_noop (p : ArchitectureProject) (i j now : string)
    (updates : StoreEdits.PartialService) (configUpdates : StoreEdits.PartialContainerConfig) :
  ~ In i (map svc_id (services p)) ->
  ~ In j (map cc_id (containerConfigs p)) ->
  Store.mutate (fun pr => StoreEdits.updateService pr i updates) now (Some p)
  = Some (Store.withUpdatedAt now p)
  /\ Store.mutate (fun pr => StoreEdits.updateContainerConfig pr j configUpdates) now (Some p)
     = Some (Store.withUpdatedAt now p).
Proof.
  intros Hi Hj. split.
  - unfold Store.mutate, Store.updateProjectLocal, StoreEdits.updateService. simpl.
    rewrite (map_by_id_absent svc_id i _ _ Hi). destruct p; reflexivity.
  - unfold Store.mutate, Store.updateProjectLocal, StoreEdits.updateContainerConfig. simpl.
    rewrite (map_by_id_absent cc_id j _ _ Hj). destruct p; reflexivity.
Qed.

Lemma update_absent_id_is_noop_witness :
  Store.mutate (fun pr => StoreEdits.updateService pr "s9" (renameService "payments"))
    "2024-02-02T00:00:00.000Z" (Some demoProject)
  = Some (Store.withUpdatedAt "2024-02-02T00:00:00.000Z" demoProject).
Proof.
  refine (proj1 (update_absent_id_is_noop demoProject "s9" "c9" "2024-02-02T00:00:00.000Z"
                   (renameService "payments") (StoreEdits.wholeContainerConfig demoConfig)
                   _ _)).
  - simpl. intros [H | []]. discriminate H.
  - simpl. intros [].
Defined.

(** X7.  In every state the provider reaches, the phase recorded in the
    project is the provider's current phase: loading, creating, resetting,
    setting or clicking a phase, and adding, removing or saving items never
    separate the two. *)
Theorem reachable_phase_in_sync (st : StoreEdits.StoreState) :
  reachable st -> phaseInSync st.
Proof.
  induction 1 as [ | p st _ _ | st _ _ | p st _ _ Hphase | phase now st _ _
                 | phase now st _ IH | c item now st _ IH | c i now st _ IH
                 | editing s now st _ IH | editing cfg now st _ IH ].
  - exact I.
  - reflexivity.
  - exact I.
  - exact Hphase.
  - apply setPhase_in_sync.
  - unfold Navigation.handlePhaseClick.
    destruct (_ || _); [apply setPhase_in_sync | exact IH].
  - apply mutate_in_sync; [|exact IH]. intros project. destruct c; reflexivity.
  - apply mutate_in_sync; [|exact IH]. intros project. destruct c; reflexivity.
  - apply mutate_in_sync; [|exact IH]. intros project. destruct editing; reflexivity.
  - apply mutate_in_sync; [|exact IH]. intros project. destruct editing; reflexivity.
Qed.

Lemma reachable_phase_in_sync_witness :
  reachable (Navigation.handlePhaseClick "B" "2024-02-02T00:00:00.000Z"
               (StoreEdits.loadProject demoProject StoreEdits.initialState))
  /\ phaseInSync (Navigation.handlePhaseClick "B" "2024-02-02T00:00:00.000Z"
                    (StoreEdits.loadProject demoProject StoreEdits.initialState)).
Proof.
  assert (Hreach : reachable (Navigation.handlePhaseClick "B" "2024-02-02T00:00:00.000Z"
                                (StoreEdits.loadProject demoProject StoreEdits.initialState))).
  { apply reach_click, reach_load, reach_initial. }
  split; [exact Hreach | exact (reachable_phase_in_sync _ Hreach)].
Defined.

(** ** Phase navigation *)

Section NavigationFacts.

Lemma indexOf_phaseOrder (t : string) :
  In t Navigation.phaseOrder ->
  (t = "A" /\ Navigation.indexOf t Navigation.phaseOrder = 0%Z)
  \/ (t = "B" /\ Navigation.indexOf t Navigation.phaseOrder = 1%Z)
  \/ (t = "C" /\ Navigation.indexOf t Navigation.phaseOrder = 2%Z)
  \/ (t = "D" /\ Navigation.indexOf t Navigation.phaseOrder = 3%Z).
Proof.
  intros [<- | [<- | [<- | [<- | []]]]]; [left | right; left | right; right; left | right; right; right];
    split; reflexivity.
Qed.

Lemma indexOf_absent (t : string) :
  ~ In t Navigation.phaseOrder -> Navigation.indexOf t Navigation.phaseOrder = (-1)%Z.
Proof.
  intros Hnot. unfold Navigation.indexOf, Navigation.phaseOrder, Navigation.indexOfFrom.
  assert (Hne : forall x, In x Navigation.phaseOrder -> String.eqb x t = false).
  { intros x Hx. apply String.eqb_neq. intros ->. exact (Hnot Hx). }
  rewrite (Hne "A"), (Hne "B"), (Hne "C"), (Hne "D"); simpl; auto 6.
Qed.

End NavigationFacts.

(** X8.  A click on a phase sets the phase exactly when the phase's button is
    enabled; otherwise it changes nothing.  A phase that is not after the
    current one in the order A, B, C, D is always enabled, whatever the project
    holds; a later phase is enabled exactly when the gate lets it through.
    After a click that is let through, the provider is in the clicked phase. *)
Theorem click_moves_exactly_when_enabled (st : StoreEdits.StoreState) (phase now : string) :
  (Navigation.isClickable st phase = true ->
     Navigation.handlePhaseClick phase now st = StoreEdits.setPhase phase now st
     /\ StoreEdits.st_currentPhase (Navigation.handlePhaseClick phase now st) = phase)
  /\ (Navigation.isClickable st phase = false ->
        Navigation.handlePhaseClick phase now st = st)
  /\ ((Navigation.indexOf phase Navigation.phaseOrder
       <= Navigation.indexOf (StoreEdits.st_currentPhase st) Navigation.phaseOrder)%Z ->
        Navigation.isClickable st phase = true)
  /\ ((Navigation.indexOf (StoreEdits.st_currentPhase st) Navigation.phaseOrder
       < Navigation.indexOf phase Navigation.phaseOrder)%Z ->
        Navigation.isClickable st phase
        = Store.canAdvanceToPhase (StoreEdits.st_project st) phase).
Proof.
  unfold Navigation.isClickable, Navigation.handlePhaseClick.
  split; [|split; [|split]].
  - intros H. rewrite H. split; reflexivity.
  - intros H. rewrite H. reflexivity.
  - intros H. apply Z.leb_le in H. rewrite H. reflexivity.
  - intros H. apply Z.leb_gt in H. rewrite H. reflexivity.
Qed.

Lemma click_moves_exactly_when_enabled_witness :
  Navigation.handlePhaseClick "A" "2024-02-02T00:00:00.000Z"
    (StoreEdits.loadProject (Store.withUpdatedAt "t" (Store.spread emptyProject (Store.setPhase "C")))
       StoreEdits.initialState)
  = StoreEdits.setPhase "A" "2024-02-02T00:00:00.000Z"
      (StoreEdits.loadProject (Store.withUpdatedAt "t" (Store.spread emptyProject (Store.setPhase "C")))
         StoreEdits.initialState)
  /\ Navigation.handlePhaseClick "D" "2024-02-02T00:00:00.000Z"
       (StoreEdits.loadProject demoProject StoreEdits.initialState)
     = StoreEdits.loadProject demoProject StoreEdits.initialState.
Proof.
  split.
  - apply (click_moves_exactly_when_enabled
             (StoreEdits.loadProject
                (Store.withUpdatedAt "t" (Store.spread emptyProject (Store.setPhase "C")))
                StoreEdits.initialState) "A" "2024-02-02T00:00:00.000Z").
    reflexivity.
  - apply (click_moves_exactly_when_enabled
             (StoreEdits.loadProject demoProject StoreEdits.initialState) "D"
             "2024-02-02T00:00:00.000Z").
    reflexivity.
Defined.

(** X9.  With the current phase among A, B, C and D, a phase is shown as
    [current] exactly when it is the current one, as [completed] exactly when
    it comes before it, and as [upcoming] exactly when it comes after it.  With
    any other current phase every one of the four phases is shown as [upcoming]. *)
Theorem phase_status_partition (current phase : string) :
  In phase Navigation.phaseOrder ->
  (In current Navigation.phaseOrder ->
     (Navigation.getPhaseStatus current phase = "current" <-> phase = current)
     /\ (Navigation.getPhaseStatus current phase = "completed" <->
         (Navigation.indexOf phase Navigation.phaseOrder
          < Navigation.indexOf current Navigation.phaseOrder)%Z)
     /\ (Navigation.getPhaseStatus current phase = "upcoming" <->
         (Navigation.indexOf current Navigation.phaseOrder
          < Navigation.indexOf phase Navigation.phaseOrder)%Z))
  /\ (~ In current Navigation.phaseOrder ->
      Navigation.getPhaseStatus current phase = "upcoming").
Proof.
  intros Hphase. split.
  - intros Hcurrent. unfold Navigation.getPhaseStatus.
    destruct (indexOf_phaseOrder phase Hphase) as [[-> ->] | [[-> ->] | [[-> ->] | [-> ->]]]];
      destruct (indexOf_phaseOrder current Hcurrent)
        as [[-> ->] | [[-> ->] | [[-> ->] | [-> ->]]]];
      simpl; repeat split; intros H; try reflexivity; try discriminate H; try lia.
  - intros Hcurrent. unfold Navigation.getPhaseStatus.
    rewrite (indexOf_absent current Hcurrent).
    destruct (indexOf_phaseOrder phase Hphase) as [[-> ->] | [[-> ->] | [[-> ->] | [-> ->]]]];
      reflexivity.
Qed.

Lemma phase_status_partition_witness :
  map (Navigation.getPhaseStatus "C") Navigation.phaseOrder
  = ["completed"; "completed"; "current"; "upcoming"]
  /\ (Navigation.getPhaseStatus "C" "B" = "completed" <->
      (Navigation.indexOf "B" Navigation.phaseOrder
       < Navigation.indexOf "C" Navigation.phaseOrder)%Z).
Proof.
  split; [reflexivity|].
  assert (HB : In "B" Navigation.phaseOrder) by (right; left; reflexivity).
  assert (HC : In "C" Navigation.phaseOrder) by (right; right; left; reflexivity).
  destruct (phase_status_partition "C" "B" HB) as [Hin _].
  destruct (Hin HC) as (_ & Hcompleted & _). exact Hcompleted.
Defined.

(** X10.  The sidebar's item counts and the gate agree: the gate to B, C and D
    is open exactly when the count shown for A, B and C respectively is
    positive.  The count shown for D adds two collections that no gate reads. *)
Theorem gate_follows_item_count (p : ArchitectureProject) :
  (Store.canAdvanceToPhase (Some p) "B" = true <-> 0 < Navigation.getPhaseItemCount p "A")
  /\ (Store.canAdvanceToPhase (Some p) "C" = true <-> 0 < Navigation.getPhaseItemCount p "B")
  /\ (Store.canAdvanceToPhase (Some p) "D" = true <-> 0 < Navigation.getPhaseItemCount p "C")
  /\ Navigation.getPhaseItemCount p "D"
     = length (resiliencePatterns p) + length (observabilityConfigs p).
Proof.
  unfold Store.canAdvanceToPhase, Navigation.getPhaseItemCount. simpl.
  repeat split; intros H; try (apply Nat.ltb_lt; exact H); apply Nat.ltb_lt in H; exact H.
Qed.

(** ** Invariants of a validation run *)

Section EngineInvariant.

Import Validation.

Variable clock : nat -> Z.
Variable random : nat -> string.

(** A property of the handler's state, indexed by the phase being validated,
    that pushing a result of that phase keeps. *)
Variable Inv : string -> VState -> Prop.
Hypothesis Inv_emit :
  forall phase category status message details st,
    Inv phase st -> Inv phase (emit clock random phase category status message details st).2.

Lemma when_keeps (phase category status message : string) (details : option string)
    (b : bool) (st : VState) :
  Inv phase st ->
  Inv phase (when b (emit clock random phase category status message details) st).2.
Proof. intros H. destruct b; [apply Inv_emit, H | exact H]. Qed.

Lemma scanDependencies_keeps (serviceName : string) (deps : list string) :
  forall (dependencies : gset string) (st : VState),
    Inv "A" st -> Inv "A" (scanDependencies clock random serviceName deps dependencies st).2.
Proof.
  induction deps as [|dep deps IH]; intros dependencies st H; [exact H|].
  cbn [scanDependencies]. rewrite bind_run. apply IH, when_keeps, H.
Qed.

Lemma scanServices_keeps (svcs : list Service) :
  forall (dependencies : gset string) (st : VState),
    Inv "A" st -> Inv "A" (scanServices clock random svcs dependencies st).2.
Proof.
  induction svcs as [|service svcs IH]; intros dependencies st H; [exact H|].
  cbn [scanServices]. rewrite bind_run. apply IH, scanDependencies_keeps, H.
Qed.

Lemma validateA_keeps (p : ArchitectureProject) (st : VState) :
  Inv "A" st -> Inv "A" (validateA clock random p st).2.
Proof.
  intros H. unfold validateA. rewrite !bind_run. cbn [ret snd].
  apply scanServices_keeps, when_keeps.
  destruct (length (boundedContexts p) =? 0)%nat; apply Inv_emit;
    destruct (length (services p) =? 0)%nat; apply Inv_emit, H.
Qed.

Lemma validateB_keeps (p : ArchitectureProject) (st : VState) :
  Inv "B" st -> Inv "B" (validateB clock random p st).2.
Proof.
  intros H. unfold validateB. rewrite !bind_run.
  apply when_keeps, when_keeps.
  destruct (0 <? length _)%nat; [apply Inv_emit, H | apply when_keeps, H].
Qed.

Lemma validateC_keeps (p : ArchitectureProject) (st : VState) :
  Inv "C" st -> Inv "C" (validateC clock random p st).2.
Proof.
  intros H. unfold validateC. rewrite !bind_run.
  apply when_keeps, when_keeps.
  destruct (length (k8sManifests p) =? 0)%nat; apply Inv_emit, H.
Qed.

Lemma validateD_keeps (p : ArchitectureProject) (st : VState) :
  Inv "D" st -> Inv "D" (validateD clock random p st).2.
Proof.
  intros H. unfold validateD. rewrite !bind_run.
  destruct (length (observabilityConfigs p) =? 0)%nat; apply Inv_emit;
    destruct (length (resiliencePatterns p) =? 0)%nat; apply Inv_emit, H.
Qed.

(** Whatever the phase token, the rules run for it keep the property of that token. *)
Lemma validatePhase_keeps (p : ArchitectureProject) (token : string) (st : VState) :
  Inv token st -> Inv token (validatePhase clock random p (Some token) st).2.
Proof.
  intros H. unfold validatePhase.
  destruct (String.eqb_spec token "A") as [->|_]; [apply validateA_keeps, H|].
  destruct (String.eqb_spec token "B") as [->|_]; [apply validateB_keeps, H|].
  destruct (String.eqb_spec token "C") as [->|_]; [apply validateC_keeps, H|].
  destruct (String.eqb_spec token "D") as [->|_]; [apply validateD_keeps, H|].
  exact H.
Qed.

End EngineInvariant.

Section NumberingFacts.

Import Validation.

Variable clock : nat -> Z.
Variable random : nat -> string.

Lemma emit_wellNumbered (phase category status message : string) (details : option string)
    (st : VState) :
  wellNumbered clock random phase st ->
  wellNumbered clock random phase
    (emit clock random phase category status message details st).2.
Proof.
  intros (Hids & Hlen & Htag). rewrite emit_run. unfold wellNumbered. cbn [snd validations idCalls].
  split; [|split].
  - rewrite map_app, Hids, seq_S, map_app. reflexivity.
  - rewrite length_app, Hlen. simpl. lia.
  - apply Forall_app. split; [exact Htag|]. constructor; [reflexivity | constructor].
Qed.

Lemma validate_run (p : ArchitectureProject) (phase : option string) :
  validate clock random (Some p) phase
  = Http.Json 200 (validations (validatePhase clock random p phase noResults).2).
Proof.
  unfold validate. fold noResults.
  destruct (validatePhase clock random p phase noResults). reflexivity.
Qed.

Lemma distinct_calls_NoDup (n : nat) :
  (forall i j, i < j < n -> idAtCall clock random i <> idAtCall clock random j) ->
  List.NoDup (map (idAtCall clock random) (seq 0 n)).
Proof.
  intros Hdistinct. apply NoDup_map_NoDup_ForallPairs; [|apply seq_NoDup].
  intros i j Hi Hj Heq. apply in_seq in Hi, Hj.
  destruct (Nat.lt_trichotomy i j) as [Hlt | [Heqij | Hgt]]; [|exact Heqij|].
  - exfalso. apply (Hdistinct i j); [lia | exact Heq].
  - exfalso. apply (Hdistinct j i); [lia | symmetry; exact Heq].
Qed.

End NumberingFacts.

(** X11.  Every result of a validation run carries the requested phase, and
    the k-th result carries the identifier that the k-th call of [generateId]
    returned: no identifier is used twice or skipped.  The identifiers of one
    answer are therefore pairwise different whenever the clock and the random
    source gave different identifiers at different calls. *)
Theorem results_numbered_in_call_order (clock : nat -> Z) (random : nat -> string)
    (p : ArchitectureProject) (token : string) :
  exists rs,
    Validation.validate clock random (Some p) (Some token) = Http.Json 200 rs
    /\ map vr_id rs = map (idAtCall clock random) (seq 0 (length rs))
    /\ List.Forall (fun r => vr_phase r = token) rs
    /\ ((forall i j, i < j < length rs -> idAtCall clock random i <> idAtCall clock random j) ->
        List.NoDup (map vr_id rs)).
Proof.
  eexists. split; [apply validate_run|].
  assert (Hstart : wellNumbered clock random token noResults).
  { split; [reflexivity|]. split; [reflexivity | constructor]. }
  destruct (validatePhase_keeps clock random (wellNumbered clock random)
              (emit_wellNumbered clock random) p token noResults Hstart)
    as (Hids & Hlen & Htag).
  rewrite Hlen. split; [exact Hids|]. split; [exact Htag|].
  intros Hdistinct. rewrite Hids. apply distinct_calls_NoDup, Hdistinct.
Qed.

(** ** The panel on the server's results *)

Section PanelFacts.

Import Validation.

Variable clock : nat -> Z.
Variable random : nat -> string.

Lemma phaseResults_same_phase (rs : list ValidationResult) (phase : string) :
  List.Forall (fun r => vr_phase r = phase) rs -> Panel.phaseResults rs phase = rs.
Proof.
  intros Hall. unfold Panel.phaseResults.
  induction Hall as [|r rs Hr _ IH]; [reflexivity|].
  cbn [List.filter]. rewrite Hr, String.eqb_refl, IH. reflexivity.
Qed.

(** The panel filters nothing away from the answer for the phase it shows. *)
Lemma phaseResults_validate (p : ArchitectureProject) (phase : string) :
  Panel.phaseResults (resultsOf (validate clock random (Some p) (Some phase))) phase
  = validations (validatePhase clock random p (Some phase) noResults).2.
Proof.
  rewrite validate_run. cbn [resultsOf]. apply phaseResults_same_phase.
  assert (Hstart : wellNumbered clock random phase noResults).
  { split; [reflexivity|]. split; [reflexivity | constructor]. }
  apply (validatePhase_keeps clock random (wellNumbered clock random)
           (emit_wellNumbered clock random) p phase noResults Hstart).
Qed.

Lemma renderChecks_app (rs1 rs2 : list ValidationResult) :
  Panel.renderChecks (rs1 ++ rs2)
  = match Panel.renderChecks rs1, Panel.renderChecks rs2 with
    | Some styles1, Some styles2 => Some (styles1 ++ styles2)
    | _, _ => None
    end.
Proof.
  induction rs1 as [|r rs1 IH]; cbn [app Panel.renderChecks].
  - destruct (Panel.renderChecks rs2); reflexivity.
  - rewrite IH. destruct (Panel.validationItem r); [|reflexivity].
    destruct (Panel.renderChecks rs1); [|reflexivity].
    destruct (Panel.renderChecks rs2); reflexivity.
Qed.

Lemma statusCount_cons (status : string) (r : ValidationResult) (rs : list ValidationResult) :
  Panel.statusCount status (r :: rs)
  = (if String.eqb (vr_status r) status then 1 else 0) + Panel.statusCount status rs.
Proof.
  unfold Panel.statusCount. cbn [List.filter].
  destruct (String.eqb (vr_status r) status); reflexivity.
Qed.

Lemma item_counted (r : ValidationResult) :
  (if String.eqb (vr_status r) "passed" then 1 else 0)
  + (if String.eqb (vr_status r) "warning" then 1 else 0)
  + (if String.eqb (vr_status r) "failed" then 1 else 0)
  = match Panel.validationItem r with Panel.Drawn _ => 1 | Panel.TypeError => 0 end.
Proof.
  unfold Panel.validationItem, Panel.statusConfig.
  destruct (String.eqb_spec (vr_status r) "passed") as [->|_]; [reflexivity|].
  destruct (String.eqb_spec (vr_status r) "warning") as [->|_]; [reflexivity|].
  destruct (String.eqb (vr_status r) "failed"); reflexivity.
Qed.

Lemma counters_cons (r : ValidationResult) (rs : list ValidationResult) :
  Panel.passedCount (r :: rs) + Panel.warningCount (r :: rs) + Panel.failedCount (r :: rs)
  = match Panel.validationItem r with Panel.Drawn _ => 1 | Panel.TypeError => 0 end
    + (Panel.passedCount rs + Panel.warningCount rs + Panel.failedCount rs).
Proof.
  unfold Panel.passedCount, Panel.warningCount, Panel.failedCount.
  rewrite !statusCount_cons, <- item_counted. lia.
Qed.

Lemma counters_bounded (rs : list ValidationResult) :
  Panel.passedCount rs + Panel.warningCount rs + Panel.failedCount rs <= length rs.
Proof.
  induction rs as [|r rs IH]; [reflexivity|].
  rewrite counters_cons. cbn [length]. destruct (Panel.validationItem r); lia.
Qed.

Lemma renderChecks_throws (rs : list ValidationResult) :
  Panel.renderChecks rs = None
  <-> exists r, In r rs /\ Panel.validationItem r = Panel.TypeError.
Proof.
  induction rs as [|r rs IH]; cbn [Panel.renderChecks].
  - split; [discriminate | intros (r & [] & _)].
  - destruct (Panel.validationItem r) as [style|] eqn:Hitem.
    + destruct (Panel.renderChecks rs) as [styles|].
      * split; [discriminate|]. intros (r' & [<-|Hin] & Hthrow); [congruence|].
        assert (Hnone : Some styles = None) by (apply IH; exists r'; split; assumption).
        discriminate.
      * split; [|reflexivity]. intros _.
        destruct (proj1 IH eq_refl) as (r' & Hin & Hthrow).
        exists r'. split; [right; exact Hin | exact Hthrow].
    + split; [|reflexivity]. intros _. exists r. split; [left; reflexivity | exact Hitem].
Qed.

Lemma renderChecks_length (rs : list ValidationResult) :
  forall styles, Panel.renderChecks rs = Some styles -> length styles = length rs.
Proof.
  induction rs as [|r rs IH]; cbn [Panel.renderChecks]; intros styles H.
  - injection H as <-. reflexivity.
  - destruct (Panel.validationItem r); [|discriminate].
    destruct (Panel.renderChecks rs) as [styles'|]; [|discriminate].
    injection H as <-. cbn [length]. rewrite (IH styles' eq_refl). reflexivity.
Qed.

Lemma renderChecks_counters (rs : list ValidationResult) :
  Panel.renderChecks rs <> None
  <-> Panel.passedCount rs + Panel.warningCount rs + Panel.failedCount rs = length rs.
Proof.
  induction rs as [|r rs IH].
  - split; [reflexivity | discriminate].
  - rewrite counters_cons. pose proof (counters_bounded rs) as Hbound.
    cbn [Panel.renderChecks length].
    destruct (Panel.validationItem r).
    + destruct (Panel.renderChecks rs) as [styles|].
      * split; [|discriminate]. intros _.
        assert (Hrest : Panel.passedCount rs + Panel.warningCount rs + Panel.failedCount rs
                        = length rs) by (apply IH; discriminate).
        lia.
      * split; [intros H; exfalso; apply H; reflexivity|].
        intros H. exfalso. apply (proj2 IH); [lia | reflexivity].
    + split; [intros H; exfalso; apply H; reflexivity | lia].
Qed.

End PanelFacts.

(** X12.  The panel can draw its list of checks exactly when its three
    counters account for every result: a result whose status is none of
    [passed], [warning] and [failed] is counted nowhere and makes
    [ValidationItem] read a property of [undefined].  When the list is drawn
    it has one entry per result. *)
Theorem panel_draws_iff_counters_cover (rs : list ValidationResult) :
  (Panel.renderChecks rs <> None
   <-> Panel.passedCount rs + Panel.warningCount rs + Panel.failedCount rs = length rs)
  /\ (Panel.renderChecks rs = None
      <-> exists r, In r rs /\ Panel.statusConfig (vr_status r) = None)
  /\ (forall styles, Panel.renderChecks rs = Some styles -> length styles = length rs).
Proof.
  split; [apply renderChecks_counters|]. split; [|apply renderChecks_length].
  rewrite renderChecks_throws. split; intros (r & Hin & Hthrow); exists r; (split; [exact Hin|]).
  - unfold Panel.validationItem in Hthrow.
    destruct (Panel.statusConfig (vr_status r)); [discriminate | reflexivity].
  - unfold Panel.validationItem. rewrite Hthrow. reflexivity.
Qed.

Section DrawingFacts.

Import Validation.

Variable clock : nat -> Z.
Variable random : nat -> string.

Lemma renderChecks_snoc (rs : list ValidationResult) (r : ValidationResult) :
  Panel.renderChecks (rs ++ [r])
  = match Panel.renderChecks rs, Panel.statusConfig (vr_status r) with
    | Some styles, Some style => Some (styles ++ [style])
    | _, _ => None
    end.
Proof.
  rewrite renderChecks_app. cbn [Panel.renderChecks]. unfold Panel.validationItem.
  destruct (Panel.renderChecks rs); [|reflexivity].
  destruct (Panel.statusConfig (vr_status r)); reflexivity.
Qed.

Lemma panel_run (p : ArchitectureProject) (phase : string) :
  panelAfterValidation clock random p phase
  = Panel.renderChecks (validations (validatePhase clock random p (Some phase) noResults).2).
Proof. unfold panelAfterValidation. rewrite phaseResults_validate. reflexivity. Qed.

Lemma some_single_stage (configs : list ContainerConfig) :
  (0 <? length (List.filter (fun c => String.eqb (cc_buildType c) "single-stage") configs))%nat
  = true
  <-> exists c, In c configs /\ cc_buildType c = "single-stage".
Proof.
  rewrite Nat.ltb_lt. split.
  - destruct (List.filter _ configs) as [|c l] eqn:Hfilter; [simpl; lia|]. intros _.
    assert (Hin : In c (List.filter (fun c => String.eqb (cc_buildType c) "single-stage") configs))
      by (rewrite Hfilter; left; reflexivity).
    apply List.filter_In in Hin as [Hin Heq]. exists c. split; [exact Hin | apply String.eqb_eq, Heq].
  - intros (c & Hin & Heq).
    assert (Hin' : In c (List.filter (fun c => String.eqb (cc_buildType c) "single-stage") configs)).
    { apply List.filter_In. split; [exact Hin | apply String.eqb_eq, Heq]. }
    destruct (List.filter _ configs); [destruct Hin' | simpl; lia].
Qed.

Lemma validateB_drawing (p : ArchitectureProject) :
  Panel.renderChecks (validations (validateB clock random p noResults).2) = None
  <-> (0 <? length (List.filter (fun c => String.eqb (cc_buildType c) "single-stage")
                      (containerConfigs p)))%nat = true.
Proof.
  unfold validateB. rewrite !bind_run. unfold when.
  destruct (0 <? length (List.filter (fun s => negb _) (services p)))%nat;
    [destruct (length (List.filter (fun s => negb _) (services p)) =? length (services p))%nat|
     destruct (0 <? length (containerConfigs p))%nat];
    destruct (0 <? length (List.filter (fun c => String.eqb _ _) (containerConfigs p)))%nat;
    destruct (0 <? length (List.filter (fun c => negb (JS.truthyOption _)) (containerConfigs p)))%nat;
    rewrite ?emit_run; cbn [fst snd ret validations noResults app];
    rewrite ?renderChecks_snoc; cbn [Panel.renderChecks Panel.validationItem vr_status];
    split; intros H; try reflexivity; try discriminate H.
Qed.

Lemma validateC_drawing (p : ArchitectureProject) :
  Panel.renderChecks (validations (validateC clock random p noResults).2) = None
  <-> autoscalingStrategies p = [].
Proof.
  unfold validateC. rewrite !bind_run. unfold when.
  rewrite <- (length_zero_iff_nil (autoscalingStrategies p)), <- Nat.eqb_eq.
  destruct (length (k8sManifests p) =? 0)%nat;
    destruct (length (sloDefinitions p) =? 0)%nat;
    destruct (length (autoscalingStrategies p) =? 0)%nat;
    rewrite ?emit_run; cbn [fst snd ret validations noResults app];
    rewrite ?renderChecks_snoc; cbn [Panel.renderChecks Panel.validationItem vr_status];
    split; intros H; try reflexivity; try discriminate H.
Qed.

Lemma validateD_drawing (p : ArchitectureProject) :
  exists resilience observability,
    Panel.renderChecks (validations (validateD clock random p noResults).2)
    = Some [resilience; observability].
Proof.
  unfold validateD. rewrite !bind_run.
  destruct (length (resiliencePatterns p) =? 0)%nat;
    destruct (length (observabilityConfigs p) =? 0)%nat;
    rewrite ?emit_run; cbn [fst snd ret validations noResults app];
    eexists; eexists; reflexivity.
Qed.

End DrawingFacts.

(** X13.  What the panel makes of the server's answer for the phase it shows.
    For phase B the list of checks cannot be drawn exactly when some container
    configuration is a single-stage build, and for phase C exactly when the
    project has no autoscaling strategy: in both cases the server pushes a
    result of status [info], for which [ValidationItem] has no style.  The
    answer for phase D is always drawn, as two checks. *)
Theorem panel_after_validation (clock : nat -> Z) (random : nat -> string)
    (p : ArchitectureProject) :
  (panelAfterValidation clock random p "B" = None
   <-> exists c, In c (containerConfigs p) /\ cc_buildType c = "single-stage")
  /\ (panelAfterValidation clock random p "C" = None <-> autoscalingStrategies p = [])
  /\ (exists resilience observability,
        panelAfterValidation clock random p "D" = Some [resilience; observability]).
Proof.
  rewrite !panel_run. split; [|split].
  - rewrite <- some_single_stage. apply validateB_drawing.
  - apply validateC_drawing.
  - apply validateD_drawing.
Qed.

(** ** What the dependency scan finds and what it misses *)

Section CycleFacts.

Lemma reverseEdge_involutive (e : string * string) : reverseEdge (reverseEdge e) = e.
Proof. destruct e; reflexivity. Qed.

Lemma recorded_reverse_found (recorded : list (string * string)) (e : string * string) :
  In (reverseEdge e) recorded ->
  existsb (fun r => String.eqb (edgeKey r) (edgeKey (reverseEdge e))) recorded = true.
Proof.
  intros Hin. apply existsb_exists. exists (reverseEdge e).
  split; [exact Hin | apply String.eqb_refl].
Qed.

(** The scan reports as soon as an edge meets its reverse, whichever of the
    two comes first. *)
Lemma reportedEdges_complete (es : list (string * string)) :
  forall recorded,
    (exists e, In e es
               /\ (In (reverseEdge e) recorded
                   \/ (In (reverseEdge e) es /\ e <> reverseEdge e))) ->
    reportedEdges recorded es <> [].
Proof.
  induction es as [|x es IH]; intros recorded (e & Hin & Hrev); [destruct Hin|].
  cbn [reportedEdges].
  destruct (existsb _ recorded) eqn:Hscan; [discriminate|].
  cbn [app]. apply IH.
  destruct Hin as [<-|Hin].
  - destruct Hrev as [Hrec | [[Hself | Hlater] Hne]].
    + rewrite (recorded_reverse_found recorded x Hrec) in Hscan. discriminate.
    + congruence.
    + exists (reverseEdge x). split; [exact Hlater|]. left.
      rewrite reverseEdge_involutive. apply in_or_app. right. left. reflexivity.
  - exists e. split; [exact Hin|].
    destruct Hrev as [Hrec | [[Hfirst | Hlater] Hne]].
    + left. apply in_or_app. left. exact Hrec.
    + left. apply in_or_app. right. left. exact Hfirst.
    + right. split; assumption.
Qed.

(** With distinct edges, none the reverse of another, nothing was recorded
    that the scan could match. *)
Lemma reverseRecordedEdges_none (es : list (string * string)) :
  forall recorded,
    List.NoDup (recorded ++ es) ->
    (forall a b, In (a, b) (recorded ++ es) -> In (b, a) (recorded ++ es) -> a = b) ->
    reverseRecordedEdges recorded es = [].
Proof.
  induction es as [|[a b] es IH]; intros recorded Hdistinct Hself; [reflexivity|].
  cbn [reverseRecordedEdges].
  destruct (existsb _ recorded) eqn:Hscan.
  - exfalso. apply existsb_exists in Hscan as ([a' b'] & Hin & Heq).
    unfold edgeEqb in Heq. cbn [reverseEdge fst snd] in Heq.
    apply andb_prop in Heq as [Ha Hb]. apply String.eqb_eq in Ha, Hb. subst a' b'.
    assert (Hab : a = b).
    { apply Hself; apply in_or_app; [right; left; reflexivity | left; exact Hin]. }
    subst b. apply NoDup_remove_2 in Hdistinct. apply Hdistinct.
    apply in_or_app. left. exact Hin.
  - cbn [app]. apply IH; rewrite <- app_assoc; assumption.
Qed.

Lemma edge_of_dependency (svcs : list Service) (s : Service) (dep : string) :
  In s svcs -> In dep (svc_dependencies s) -> In (svc_name s, dep) (edgesOf svcs).
Proof.
  intros Hs Hdep. unfold edgesOf. apply in_flat_map. exists s. split; [exact Hs|].
  apply in_map_iff. exists dep. split; [reflexivity | exact Hdep].
Qed.

End CycleFacts.

(** X14.  Two services with different names, anywhere in the project, each
    listing the other's name among its dependencies: validation for phase A
    pushes a result of status [error] and category [Dependencies], whatever
    else the project holds, and the panel then cannot draw its list of
    checks. *)
Theorem mutual_dependency_always_reported (clock : nat -> Z) (random : nat -> string)
    (p : ArchitectureProject) (sx sy : Service) :
  In sx (services p) -> In sy (services p) ->
  In (svc_name sy) (svc_dependencies sx) -> In (svc_name sx) (svc_dependencies sy) ->
  svc_name sx <> svc_name sy ->
  (exists r,
     In r (resultsOf (Validation.validate clock random (Some p) (Some "A")))
     /\ vr_status r = "error" /\ vr_category r = "Dependencies")
  /\ panelAfterValidation clock random p "A" = None.
Proof.
  intros Hx Hy Hxy Hyx Hne.
  destruct (validateA_errors clock random p) as (rs & k & Hrun & Herr).
  assert (Hreported : reportedEdges [] (edgesOf (services p)) <> []).
  { apply reportedEdges_complete. exists (svc_name sx, svc_name sy).
    split; [apply edge_of_dependency; assumption|]. right.
    split; [apply (edge_of_dependency (services p) sy); assumption|].
    unfold reverseEdge. cbn [fst snd]. intros [= Heq _]. exact (Hne Heq). }
  assert (Hfound : exists r, In r rs /\ vr_status r = "error" /\ vr_category r = "Dependencies").
  { destruct (reportedEdges [] (edgesOf (services p))) as [|e es]; [contradiction|].
    exists (circularResult clock random k e).
    split; [|split; reflexivity].
    assert (Hin : In (circularResult clock random k e) (errorResults rs))
      by (rewrite Herr; left; reflexivity).
    apply List.filter_In in Hin as [Hin _]. exact Hin. }
  rewrite Hrun. cbn [resultsOf]. split; [exact Hfound|].
  unfold panelAfterValidation. rewrite Hrun. cbn [resultsOf].
  destruct Hfound as (r & Hin & Hstatus & _).
  apply renderChecks_throws. exists r. split.
  - apply List.filter_In. split; [exact Hin|].
    assert (Hstart : wellNumbered clock random "A" noResults).
    { split; [reflexivity|]. split; [reflexivity | constructor]. }
    pose proof (validatePhase_keeps clock random (wellNumbered clock random)
                  (emit_wellNumbered clock random) p "A" noResults Hstart) as (_ & _ & Htag).
    rewrite validate_run in Hrun. injection Hrun as <-.
    rewrite List.Forall_forall in Htag. rewrite (Htag r Hin). reflexivity.
  - unfold Panel.validationItem. rewrite Hstatus. reflexivity.
Qed.

Lemma mutual_dependency_always_reported_witness :
  (exists r,
     In r (resultsOf (Validation.validate demoClock demoRandom (Some mutualProject) (Some "A")))
     /\ vr_status r = "error" /\ vr_category r = "Dependencies")
  /\ panelAfterValidation demoClock demoRandom mutualProject "A" = None.
Proof.
  apply (mutual_dependency_always_reported demoClock demoRandom mutualProject
           (serviceNamed "s1" "cart" ["pricing"; "stock"])
           (serviceNamed "s3" "pricing" ["stock"; "cart"])).
  - left. reflexivity.
  - right. right. left. reflexivity.
  - left. reflexivity.
  - right. left. reflexivity.
  - discriminate.
Defined.

(** X15.  The scan looks for reverse edges only.  When no name contains the
    arrow, no service lists a dependency twice or shares its name with
    another service that lists the same dependency, and no two different
    services depend on each other, validation for phase A pushes no [error]:
    a service that depends on itself, and a ring of three or more services,
    go unreported. *)
Theorem longer_cycles_go_unreported (clock : nat -> Z) (random : nat -> string)
    (p : ArchitectureProject) :
  arrowFreeEdges (edgesOf (services p)) = true ->
  List.NoDup (edgesOf (services p)) ->
  (forall a b, In (a, b) (edgesOf (services p)) -> In (b, a) (edgesOf (services p)) -> a = b) ->
  errorResults (resultsOf (Validation.validate clock random (Some p) (Some "A"))) = [].
Proof.
  intros Harrow Hdistinct Hself.
  destruct (validateA_errors clock random p) as (rs & k & Hrun & Herr).
  rewrite Hrun. cbn [resultsOf]. rewrite Herr.
  rewrite reportedEdges_by_pair; [|reflexivity|exact Harrow].
  rewrite reverseRecordedEdges_none; [reflexivity|exact Hdistinct|exact Hself].
Qed.

Lemma longer_cycles_go_unreported_witness :
  edgesOf (services ringProject) = [("a", "b"); ("b", "c"); ("c", "a"); ("d", "d")]
  /\ errorResults (resultsOf (Validation.validate demoClock demoRandom (Some ringProject)
                                (Some "A"))) = [].
Proof.
  split; [reflexivity|].
  apply (longer_cycles_go_unreported demoClock demoRandom ringProject).
  - reflexivity.
  - repeat constructor; simpl; intuition discriminate.
  - intros a b Hab Hba. simpl in Hab, Hba.
    repeat (destruct Hab as [Hab|Hab]; [injection Hab as <- <-|]);
      try (destruct Hab);
      repeat (destruct Hba as [Hba|Hba]; [try discriminate Hba|]);
      try (destruct Hba); reflexivity.
Defined.

Section GateFacts.

Variable clock : nat -> Z.
Variable random : nat -> string.

Lemma positive_not_zero (n : nat) : (0 <? n)%nat = negb (n =? 0)%nat.
Proof. destruct n; reflexivity. Qed.

Lemma circularResults_not_failed (k : nat) (es : list (string * string)) :
  List.filter (fun r => String.eqb (vr_status r) "failed") (circularResults clock random k es)
  = [].
Proof.
  revert k. induction es as [|e es IH]; intros k; [reflexivity|].
  cbn [circularResults List.filter circularResult vr_status].
  change (String.eqb "error" "failed") with false. apply IH.
Qed.

End GateFacts.

(** X16.  The phase gate and the server's first rule agree for phases A and
    C: the project may advance to B exactly when validation for phase A
    pushes no [failed] result, and to D exactly when validation for phase C
    pushes none.  For phase B they disagree both ways: validation can fail
    while the gate to C is open, and push nothing at all while it is shut. *)
Theorem gate_and_validation (clock : nat -> Z) (random : nat -> string) :
  (forall p,
     Store.canAdvanceToPhase (Some p) "B" = true
     <-> Panel.failedCount (resultsOf (Validation.validate clock random (Some p) (Some "A"))) = 0)
  /\ (forall p,
        Store.canAdvanceToPhase (Some p) "D" = true
        <-> Panel.failedCount (resultsOf (Validation.validate clock random (Some p) (Some "C"))) = 0)
  /\ (exists p,
        Store.canAdvanceToPhase (Some p) "C" = true
        /\ Panel.failedCount (resultsOf (Validation.validate clock random (Some p) (Some "B"))) = 1)
  /\ (exists p,
        Store.canAdvanceToPhase (Some p) "C" = false
        /\ resultsOf (Validation.validate clock random (Some p) (Some "B")) = []).
Proof.
  split; [|split; [|split]].
  - intros p. rewrite validate_phase_A. cbn [resultsOf].
    change (Store.canAdvanceToPhase (Some p) "B") with (0 <? length (services p))%nat.
    rewrite positive_not_zero.
    unfold Validation.validateA. rewrite !bind_run. unfold Validation.when.
    change (∅ : gset string) with (recordedKeys []).
    rewrite scanServices_run. cbn [fst snd Validation.ret Validation.validations].
    unfold Panel.failedCount, Panel.statusCount.
    rewrite List.filter_app, length_app, circularResults_not_failed.
    cbn [length]. rewrite Nat.add_0_r.
    destruct (length (services p) =? 0)%nat;
      destruct (length (boundedContexts p) =? 0)%nat;
      destruct (0 <? length (List.filter _ (services p)))%nat;
      rewrite ?emit_run; cbn [fst snd Validation.validations app List.filter vr_status negb];
      split; intros H; try reflexivity; try discriminate H.
  - intros p. rewrite validate_run. cbn [resultsOf].
    change (Store.canAdvanceToPhase (Some p) "D") with (0 <? length (k8sManifests p))%nat.
    rewrite positive_not_zero.
    change (Validation.validatePhase clock random p (Some "C"))
      with (Validation.validateC clock random p).
    unfold Validation.validateC. rewrite !bind_run. unfold Validation.when.
    unfold Panel.failedCount, Panel.statusCount.
    destruct (length (k8sManifests p) =? 0)%nat;
      destruct (length (sloDefinitions p) =? 0)%nat;
      destruct (length (autoscalingStrategies p) =? 0)%nat;
      rewrite ?emit_run;
      cbn [fst snd Validation.ret Validation.validations noResults app List.filter vr_status negb];
      split; intros H; try reflexivity; try discriminate H.
  - exists (projectWith [demoService] [strayConfig]). split; reflexivity.
  - exists emptyProject. split; reflexivity.
Qed.

(** ** The client's previews against the server's generators *)

Section PreviewFacts.

Lemma orString_idempotent (s d : string) : JS.orString (JS.orString s d) d = JS.orString s d.
Proof.
  unfold JS.orString. destruct (JS.truthyString s) eqn:Hs; [rewrite Hs; reflexivity|].
  destruct (JS.truthyString d); reflexivity.
Qed.

Lemma orNumber_idempotent (n d : Z) : JS.orNumber (JS.orNumber n d) d = JS.orNumber n d.
Proof.
  unfold JS.orNumber. destruct (JS.truthyNumber n) eqn:Hn; [rewrite Hn; reflexivity|].
  destruct (JS.truthyNumber d); reflexivity.
Qed.

(** The three fields the server guards are never falsy in a manifest the
    dialog saves. *)
Lemma manifestToSave_guards (manifest : option K8sManifest) (generated serviceId : string)
    (formData : Preview.ManifestForm) (text : string) :
  let m := Preview.manifestToSave manifest generated serviceId formData text in
  JS.orString (k8s_namespace m) "default" = k8s_namespace m
  /\ JS.orNumber (k8s_replicas m) 3 = k8s_replicas m
  /\ JS.orString (k8s_deploymentStrategy m) "RollingUpdate" = k8s_deploymentStrategy m.
Proof.
  cbn [Preview.manifestToSave k8s_namespace k8s_replicas k8s_deploymentStrategy].
  split; [|split].
  - destruct (Preview.fd_namespace formData); [apply orString_idempotent | reflexivity].
  - destruct (Preview.fd_replicas formData); [apply orNumber_idempotent | reflexivity].
  - destruct (Preview.fd_deploymentStrategy formData); [apply orString_idempotent | reflexivity].
Qed.

End PreviewFacts.

(** X17.  The Dockerfile preview built in the browser and the document the
    server generates are the same text, for every container configuration
    and every service name the server accepts. *)
Theorem preview_dockerfile_is_server_dockerfile (config : ContainerConfig)
    (serviceName : string) :
  JS.truthyString serviceName = true ->
  Generators.generateDockerfile (Some config) (Some serviceName)
  = Http.Json 200 (Preview.generateDockerfile config serviceName).
Proof.
  intros Hname. unfold Generators.generateDockerfile. rewrite Hname.
  unfold Generators.dockerfileText, Preview.generateDockerfile.
  destruct (String.eqb (cc_buildType config) "multi-stage"); reflexivity.
Qed.

Lemma preview_dockerfile_is_server_dockerfile_witness :
  Generators.generateDockerfile (Some secretConfig) (Some "orders")
  = Http.Json 200 (Preview.generateDockerfile secretConfig "orders").
Proof. apply (preview_dockerfile_is_server_dockerfile secretConfig "orders"). reflexivity. Defined.

(** X18.  For a manifest saved by the manifest dialog, the YAML preview built
    in the browser is the server's document with one more line: the
    annotation section, empty when the manifest has no annotations, which the
    client puts after the labels and the server leaves out.  The server's
    fallbacks for namespace, replicas and strategy change nothing, because the
    dialog has already applied them. *)
Theorem saved_manifest_preview_and_server (manifest : option K8sManifest)
    (generated serviceId : string) (formData : Preview.ManifestForm) (text : string)
    (serviceName : string) (containerConfig : option ContainerConfig) :
  let m := Preview.manifestToSave manifest generated serviceId formData text in
  Preview.manifestLines m serviceName containerConfig
  = firstn 7 (Generators.manifestLines m serviceName containerConfig)
    ++ Preview.annotationSection m
    :: skipn 7 (Generators.manifestLines m serviceName containerConfig).
Proof.
  intros m.
  destruct (manifestToSave_guards manifest generated serviceId formData text)
    as (Hnamespace & Hreplicas & Hstrategy).
  fold m in Hnamespace, Hreplicas, Hstrategy.
  unfold Generators.manifestLines. rewrite Hnamespace, Hreplicas, Hstrategy.
  destruct containerConfig as [cfg|]; reflexivity.
Qed.

(** X19.  The parameters a new resilience pattern starts with are the
    generator's own fallbacks: for each of the five pattern types the code
    generated from the template's configuration is the code generated from
    an empty configuration. *)
Theorem template_parameters_are_the_fallbacks (i serviceId : string) (type : ResilienceType)
    (enabled : bool) :
  ResilienceCode.generateResilienceCode
    {| rp_id := i; rp_serviceId := serviceId; rp_type := type;
       rp_config := ResilienceCode.resiliencePatternTemplates type; rp_enabled := enabled |}
  = ResilienceCode.generateResilienceCode
      {| rp_id := i; rp_serviceId := serviceId; rp_type := type;
         rp_config := []; rp_enabled := enabled |}.
Proof. destruct type; reflexivity. Qed.

(** ** The label text of the manifest dialog *)

Section LabelFacts.

Lemma split_free (c : ascii) (s : string) : freeOf c s = true -> JSText.split c s = [s].
Proof.
  induction s as [|d s IH]; [reflexivity|]. cbn [freeOf JSText.split].
  intros [Hd Hs]%andb_prop. apply negb_true_iff in Hd. rewrite Hd, (IH Hs). reflexivity.
Qed.

Lemma split_at_separator (c : ascii) (piece rest : string) :
  freeOf c piece = true ->
  JSText.split c (piece +:+ String c rest) = piece :: JSText.split c rest.
Proof.
  induction piece as [|d piece IH].
  - intros _. rewrite append_nil_l. cbn [JSText.split]. rewrite Ascii.eqb_refl. reflexivity.
  - cbn [freeOf]. intros [Hd Hpiece]%andb_prop. apply negb_true_iff in Hd.
    rewrite append_cons. cbn [JSText.split]. rewrite Hd, (IH Hpiece). reflexivity.
Qed.

Lemma freeOf_append (c : ascii) (s t : string) :
  freeOf c (s +:+ t) = freeOf c s && freeOf c t.
Proof.
  induction s as [|d s IH]; [rewrite append_nil_l; reflexivity|].
  rewrite append_cons. cbn [freeOf]. rewrite IH, andb_assoc. reflexivity.
Qed.

Lemma labelWord_parts (s : string) :
  labelWord s = true ->
  JS.truthyString s = true /\ freeOf "," s = true /\ freeOf "=" s = true /\ JSText.trim s = s.
Proof.
  unfold labelWord. intros [[[Hfull Hcomma]%andb_prop Hequals]%andb_prop Htrim]%andb_prop.
  apply String.eqb_eq in Htrim. auto.
Qed.

Lemma equals_append (s : string) : "=" +:+ s = String "=" s.
Proof. reflexivity. Qed.

(** The text of one label holds no comma and splits into its key and value. *)
Lemma pair_text (k v : string) :
  labelWord k = true -> labelWord v = true ->
  freeOf "," (k +:+ "=" +:+ v) = true
  /\ JSText.split "=" (k +:+ "=" +:+ v) = [k; v]
  /\ JSText.split "=" (String " " (k +:+ "=" +:+ v)) = [String " " k; v].
Proof.
  intros (_ & Hkc & Hke & _)%labelWord_parts (_ & Hvc & Hve & _)%labelWord_parts.
  split; [|split].
  - rewrite !freeOf_append, Hkc, Hvc. reflexivity.
  - rewrite equals_append, (split_at_separator "=" k v Hke), (split_free "=" v Hve). reflexivity.
  - rewrite equals_append, <- append_cons.
    rewrite (split_at_separator "=" (String " " k) v); [|exact Hke].
    rewrite (split_free "=" v Hve). reflexivity.
Qed.

Lemma trim_leading_space (s : string) : JSText.trim (String " " s) = JSText.trim s.
Proof. reflexivity. Qed.

Lemma labelKey_parts (k : string) :
  labelKey k = true -> labelWord k = true /\ String.eqb k "__proto__" = false.
Proof.
  unfold labelKey. intros [[Hword Hproto]%andb_prop _]%andb_prop.
  apply negb_true_iff in Hproto. split; assumption.
Qed.

(** A label's text, with or without the space that follows a comma, sets the
    label. *)
Lemma addLabel_pair (acc : StringRecord) (k v : string) :
  labelKey k = true -> labelWord v = true ->
  Preview.addLabel acc (k +:+ "=" +:+ v) = Generators.setProperty k v acc
  /\ Preview.addLabel acc (String " " (k +:+ "=" +:+ v)) = Generators.setProperty k v acc.
Proof.
  intros [Hk Hproto]%labelKey_parts Hv.
  destruct (pair_text k v Hk Hv) as (_ & Hplain & Hspaced).
  apply labelWord_parts in Hk as (Hkfull & _ & _ & Hktrim).
  apply labelWord_parts in Hv as (Hvfull & _ & _ & Hvtrim).
  unfold Preview.addLabel, Preview.assign. rewrite Hplain, Hspaced. cbn [map].
  rewrite trim_leading_space, Hktrim, Hvtrim, Hkfull, Hvfull, Hproto. split; reflexivity.
Qed.

Lemma setProperty_fresh (key value : string) (record : StringRecord) :
  ~ In key (map fst record) -> Generators.setProperty key value record = record ++ [(key, value)].
Proof.
  induction record as [|[k v] record IH]; intros Hfresh; [reflexivity|].
  cbn [Generators.setProperty app]. cbn [map fst In] in Hfresh.
  destruct (String.eqb_spec k key) as [->|_]; [exfalso; apply Hfresh; left; reflexivity|].
  rewrite IH; [reflexivity|]. intros Hin. apply Hfresh. right. exact Hin.
Qed.

(** The pieces between the commas of a joined text: the first as it is, the
    others behind a space. *)
Lemma split_joined (piece : string) (pieces : list string) :
  List.Forall (fun t => freeOf "," t = true) (piece :: pieces) ->
  JSText.split "," (JS.join ", " (piece :: pieces)) = piece :: map (String " ") pieces.
Proof.
  revert piece. induction pieces as [|next pieces IH]; intros piece Hfree.
  - apply Forall_inv in Hfree. apply (split_free "," piece Hfree).
  - rewrite join_cons by discriminate.
    change (", " +:+ JS.join ", " (next :: pieces))
      with (String "," (String " " (JS.join ", " (next :: pieces)))).
    rewrite (split_at_separator "," piece); [|apply (Forall_inv Hfree)].
    cbn [JSText.split]. change (Ascii.eqb " " ",") with false. cbv iota.
    rewrite (IH next (Forall_inv_tail Hfree)). reflexivity.
Qed.

(** Reading the spaced texts of labels whose keys are new appends them. *)
Lemma read_spaced_labels (labels : StringRecord) :
  forall acc,
    plainLabels labels = true -> List.NoDup (map fst acc ++ map fst labels) ->
    fold_left Preview.addLabel
      (map (String " ") (map (fun '(k, v) => k +:+ "=" +:+ v) labels)) acc
    = acc ++ labels.
Proof.
  induction labels as [|[k v] labels IH]; intros acc Hplain Hkeys.
  - rewrite app_nil_r. reflexivity.
  - cbn [plainLabels forallb] in Hplain.
    apply andb_prop in Hplain as [[Hk Hv]%andb_prop Hplain].
    cbn [map fold_left]. destruct (addLabel_pair acc k v Hk Hv) as [_ ->].
    cbn [map fst] in Hkeys.
    rewrite setProperty_fresh.
    + rewrite IH; [rewrite <- app_assoc; reflexivity | exact Hplain|].
      rewrite map_app. cbn [map fst]. rewrite <- app_assoc. exact Hkeys.
    + intros Hin. apply NoDup_remove_2 in Hkeys. apply Hkeys.
      apply in_or_app. left. exact Hin.
Qed.

End LabelFacts.

(** X20.  Opening the manifest dialog on a label record and saving without
    editing gives the record back, in the same order, provided every key and
    value is non-empty, holds no comma or equals sign and no white space at
    its ends, no key occurs twice, and no key is [__proto__] or an array
    index: reading the text undoes writing it.  A label whose key is
    [__proto__] is lost on the way: with such a label in front of the record,
    the save gives the record without it. *)
Theorem labels_text_round_trip (labels : StringRecord) :
  plainLabels labels = true -> List.NoDup (map fst labels) ->
  Preview.parseLabels (Preview.labelsText labels) = labels
  /\ forall value, labelWord value = true ->
       Preview.parseLabels (Preview.labelsText (("__proto__", value) :: labels)) = labels.
Proof.
  intros Hplain Hkeys.
  assert (Hfree : List.Forall (fun t => freeOf "," t = true)
                    (map (fun '(k, v) => k +:+ "=" +:+ v) labels)).
  { apply List.Forall_forall. intros t Hin. apply in_map_iff in Hin as ([k' v'] & <- & Hin).
    unfold plainLabels in Hplain. rewrite forallb_forall in Hplain.
    specialize (Hplain (k', v') Hin). cbn in Hplain.
    apply andb_prop in Hplain as [[Hk' _]%labelKey_parts Hv']. apply (pair_text k' v' Hk' Hv'). }
  split.
  - destruct labels as [|[k v] labels]; [reflexivity|].
    unfold Preview.parseLabels, Preview.labelsText.
    cbn [plainLabels forallb] in Hplain.
    apply andb_prop in Hplain as [[Hk Hv]%andb_prop Hplain].
    cbn [map] in *. rewrite (split_joined _ _ Hfree).
    cbn [fold_left]. destruct (addLabel_pair [] k v Hk Hv) as [-> _].
    cbn [Generators.setProperty]. apply (read_spaced_labels labels [(k, v)] Hplain Hkeys).
  - intros value Hvalue.
    destruct (pair_text "__proto__" value eq_refl Hvalue) as (Hcomma & Hsplit & _).
    apply labelWord_parts in Hvalue as (Hfull & _ & _ & Htrim).
    unfold Preview.parseLabels, Preview.labelsText. cbn [map].
    rewrite split_joined by (constructor; [exact Hcomma | exact Hfree]).
    cbn [fold_left]. unfold Preview.addLabel at 2. rewrite Hsplit. cbn [map].
    rewrite Htrim, Hfull.
    change (JSText.trim "__proto__") with "__proto__".
    change (JS.truthyString "__proto__" && true) with true. cbv iota.
    change (Preview.assign "__proto__" value []) with (@nil (string * string)).
    apply (read_spaced_labels labels [] Hplain Hkeys).
Qed.

Lemma labels_text_round_trip_witness :
  Preview.parseLabels (Preview.labelsText defaultLabels) = defaultLabels
  /\ Preview.parseLabels (Preview.labelsText (("__proto__", "x") :: defaultLabels))
     = defaultLabels.
Proof.
  destruct (labels_text_round_trip defaultLabels) as [Hround Hlost].
  - reflexivity.
  - repeat constructor; simpl; intuition discriminate.
  - split; [exact Hround | apply Hlost; reflexivity].
Defined.

(** ** The project routes: create, list, delete and the client's save *)

Section RouteFacts.

Import Storage.

Variable engine : Engine.

Lemma orString_empty (s : string) : JS.orString s EmptyString = s.
Proof. destruct s; reflexivity. Qed.

Lemma getProjectRoute_found (i : string) (db : gmap string DbRow) (row : DbRow) :
  db !! i = Some row -> getProjectRoute i db = Http.Json 200 (dbRowToProject i row).
Proof. intros H. unfold getProjectRoute. rewrite (getProject_lookup i db row H). reflexivity. Qed.

Lemma getProjectRoute_missing (i : string) (db : gmap string DbRow) :
  db !! i = None -> getProjectRoute i db = Http.Failure 404 "Project not found".
Proof. intros H. unfold getProjectRoute, getProject. rewrite H. reflexivity. Qed.

(** A read depends on the row under its identifier only. *)
Lemma getProjectRequest_same_row (i : string) (db db' : gmap string DbRow) :
  db' !! i = db !! i -> getProjectRequest engine i db' = getProjectRequest engine i db.
Proof.
  intros H. unfold getProjectRequest, getProjectRoute, getProject. rewrite H. reflexivity.
Qed.

(** The three ways [createProject] ends. *)
Lemma createProject_cases (parsed : InsertProject) (uuid now : string)
    (db : gmap string DbRow) :
  (exists storedName storedDescription,
     bindsId engine uuid = true /\ db !! uuid = None
     /\ storedText engine (ip_name parsed) = Some storedName
     /\ storedText engine (insertedDescription parsed) = Some storedDescription
     /\ createProject engine parsed uuid now db
        = (Returned (dbRowToProject uuid (newRow storedName storedDescription now)),
           <[uuid := newRow storedName storedDescription now]> db))
  \/ (createProject engine parsed uuid now db = (Thrown, db)
      /\ (bindsId engine uuid = false \/ db !! uuid <> None
          \/ storedText engine (ip_name parsed) = None
          \/ storedText engine (insertedDescription parsed) = None)).
Proof.
  unfold createProject. fold (insertedDescription parsed).
  destruct (bindsId engine uuid); [|right; split; [reflexivity | left; reflexivity]].
  destruct (db !! uuid) as [taken|];
    [right; split; [reflexivity | right; left; discriminate]|].
  destruct (storedText engine (ip_name parsed)) as [storedName|];
    [|right; split; [reflexivity | right; right; left; reflexivity]].
  destruct (storedText engine (insertedDescription parsed)) as [storedDescription|];
    [|right; split; [reflexivity | right; right; right; reflexivity]].
  left. exists storedName, storedDescription. repeat split; reflexivity.
Qed.

(** The row a save writes reads back as the saved project. *)
Lemma saved_row_reads_back (local : ArchitectureProject) (row : DbRow) (now : string) :
  dbRowToProject (id local)
  <$> setColumns engine (updateData (ProjectRoutes.wholeProject local) now) row
  = savedProject engine local row now.
Proof.
  unfold setColumns, savedProject, updateData, ProjectRoutes.wholeProject, column.
  cbn [p_name p_description p_currentPhase p_boundedContexts p_services p_containerConfigs
       p_sloDefinitions p_autoscalingStrategies p_k8sManifests p_resiliencePatterns
       p_observabilityConfigs p_createdAt p_updatedAt].
  destruct (storedText engine (name local)) as [name'|]; [|reflexivity].
  destruct (storedText engine (description local)) as [description'|]; [|reflexivity].
  destruct (storedPhase engine (currentPhase local)) as [phase'|]; [|reflexivity].
  destruct (storedJson engine (boundedContexts local)) as [contexts'|]; [|reflexivity].
  destruct (storedJson engine (services local)) as [services'|]; [|reflexivity].
  destruct (storedJson engine (containerConfigs local)) as [configs'|]; [|reflexivity].
  destruct (storedJson engine (sloDefinitions local)) as [slos'|]; [|reflexivity].
  destruct (storedJson engine (autoscalingStrategies local)) as [strategies'|]; [|reflexivity].
  destruct (storedJson engine (k8sManifests local)) as [manifests'|]; [|reflexivity].
  destruct (storedJson engine (resiliencePatterns local)) as [patterns'|]; [|reflexivity].
  destruct (storedJson engine (observabilityConfigs local)) as [observability'|]; [|reflexivity].
  cbn. unfold dbRowToProject. cbn. rewrite orString_empty. reflexivity.
Qed.

End RouteFacts.

(** X21.  Whenever a create request is answered 201, the project answered is
    in phase A and holds nothing, so that no later phase is open yet; it
    carries the identifier drawn, the time of the insert as both timestamps
    and the request's name in the form the database stores it; the identifier
    was not a primary key before; reading the project back by its identifier
    answers the same project, and every other identifier reads as before. *)
Theorem create_then_get (engine : Storage.Engine) (zodMessage : Storage.InsertBody -> string)
    (body : Storage.InsertBody) (uuid now : string) (db : gmap string Storage.DbRow)
    (p : ArchitectureProject) :
  (Storage.postProject engine zodMessage body uuid now db).1 = Http.Json 201 p ->
  Storage.getProjectRequest engine uuid (Storage.postProject engine zodMessage body uuid now db).2
  = Http.Json 200 p
  /\ id p = uuid /\ currentPhase p = "A" /\ createdAt p = now /\ updatedAt p = now
  /\ (exists n, Storage.ib_name body = Some n /\ n <> EmptyString
                /\ Storage.storedText engine n = Some (name p))
  /\ (forall c, itemsOf c p = [])
  /\ (forall phase, Store.canAdvanceToPhase (Some p) phase = String.eqb phase "A")
  /\ db !! uuid = None
  /\ (forall j, j <> uuid ->
        Storage.getProjectRequest engine j
          (Storage.postProject engine zodMessage body uuid now db).2
        = Storage.getProjectRequest engine j db).
Proof.
  unfold Storage.postProject, Storage.safeParse.
  destruct (Storage.ib_name body) as [n|] eqn:Hname; [|discriminate].
  destruct (1 <=? String.length n)%nat eqn:Hfull; [|discriminate].
  set (parsed := {| Storage.ip_name := n; Storage.ip_description := Storage.ib_description body |}).
  destruct (createProject_cases engine parsed uuid now db)
    as [(storedName & storedDescription & Hid & Hfresh & Hstored & _ & ->) | [-> _]];
    [|discriminate].
  cbn [fst snd]. intros [= <-].
  split.
  { unfold Storage.getProjectRequest. rewrite Hid.
    apply getProjectRoute_found, lookup_insert_eq. }
  do 4 (split; [reflexivity|]).
  split.
  { exists n. split; [reflexivity|]. split; [|exact Hstored].
    intros ->. discriminate Hfull. }
  split; [intros c; destruct c; reflexivity|].
  split.
  { intros phase. unfold Store.canAdvanceToPhase.
    destruct (String.eqb phase "A"); [reflexivity|].
    destruct (String.eqb phase "B"); [reflexivity|].
    destruct (String.eqb phase "C"); [reflexivity|].
    destruct (String.eqb phase "D"); reflexivity. }
  split; [exact Hfresh|].
  intros j Hne. apply getProjectRequest_same_row, lookup_insert_ne. congruence.
Qed.

Lemma create_then_get_witness :
  exists p,
    (Storage.postProject plainEngine demoZodMessage (namedBody "shop") "p2"
       "2024-02-02T00:00:00.000Z" demoDb).1 = Http.Json 201 p
    /\ Storage.getProjectRequest plainEngine "p2"
         (Storage.postProject plainEngine demoZodMessage (namedBody "shop") "p2"
            "2024-02-02T00:00:00.000Z" demoDb).2 = Http.Json 200 p
    /\ currentPhase p = "A".
Proof.
  eexists. split; [reflexivity|].
  destruct (create_then_get plainEngine demoZodMessage (namedBody "shop") "p2"
              "2024-02-02T00:00:00.000Z" demoDb _ eq_refl) as (Hread & _ & Hphase & _).
  split; [exact Hread | exact Hphase].
Defined.

(** X22.  A create request never touches a stored project: whatever the body,
    the identifier drawn and the database's behaviour, every row of the table
    is afterwards as it was.  The answer is 400 exactly when the body is
    rejected; 201 exactly when the body is accepted, the identifier is bound
    and not yet a primary key, and the database stores the name and the
    description; 500 in every other case; and only a 201 adds a row. *)
Theorem create_never_overwrites (engine : Storage.Engine)
    (zodMessage : Storage.InsertBody -> string)
    (body : Storage.InsertBody) (uuid now : string) (db : gmap string Storage.DbRow) :
  (forall j row, db !! j = Some row ->
     (Storage.postProject engine zodMessage body uuid now db).2 !! j = Some row)
  /\ (Http.statusOf (Storage.postProject engine zodMessage body uuid now db).1 = 400
      <-> Storage.safeParse body = None)
  /\ (Http.statusOf (Storage.postProject engine zodMessage body uuid now db).1 = 201
      <-> exists parsed storedName storedDescription,
            Storage.safeParse body = Some parsed
            /\ Storage.bindsId engine uuid = true /\ db !! uuid = None
            /\ Storage.storedText engine (Storage.ip_name parsed) = Some storedName
            /\ Storage.storedText engine (insertedDescription parsed) = Some storedDescription)
  /\ (Http.statusOf (Storage.postProject engine zodMessage body uuid now db).1 = 400
      \/ Http.statusOf (Storage.postProject engine zodMessage body uuid now db).1 = 201
      \/ Http.statusOf (Storage.postProject engine zodMessage body uuid now db).1 = 500)
  /\ (Http.statusOf (Storage.postProject engine zodMessage body uuid now db).1 <> 201 ->
      (Storage.postProject engine zodMessage body uuid now db).2 = db).
Proof.
  unfold Storage.postProject.
  destruct (Storage.safeParse body) as [parsed|]; cbn [fst snd Http.statusOf].
  - destruct (createProject_cases engine parsed uuid now db)
      as [(storedName & storedDescription & Hid & Hfresh & Hn & Hd & ->)
         | [-> Hwhy]]; cbn [fst snd Http.statusOf].
    + split.
      { intros j row Hrow. rewrite lookup_insert_ne; [exact Hrow | congruence]. }
      split; [split; discriminate|].
      split.
      { split; [intros _|reflexivity].
        exists parsed, storedName, storedDescription. repeat split; assumption. }
      split; [right; left; reflexivity|].
      intros H. exfalso. apply H. reflexivity.
    + split; [auto|]. split; [split; discriminate|].
      split.
      { split; [discriminate|].
        intros (parsed' & storedName & storedDescription & [= <-] & Hid & Hfresh & Hn & Hd).
        destruct Hwhy as [Hwhy | [Hwhy | [Hwhy | Hwhy]]]; congruence. }
      split; [right; right; reflexivity | reflexivity].
  - split; [auto|]. split; [split; reflexivity|].
    split.
    { split; [discriminate|]. intros (parsed & _ & _ & Hparsed & _). discriminate Hparsed. }
    split; [left; reflexivity | reflexivity].
Qed.

(** X23.  Deleting a project under an identifier the database binds answers
    204 exactly when the table held it and 404 otherwise; afterwards reading
    the identifier answers 404 and a second delete answers 404 and changes
    nothing.  Under an identifier the database does not bind the delete
    answers 500 and changes nothing.  In every case every other identifier
    reads as before. *)
Theorem delete_then_get (engine : Storage.Engine) (i : string)
    (db : gmap string Storage.DbRow) :
  (Storage.bindsId engine i = true ->
     (Http.statusOf (ProjectRoutes.deleteProjectRoute engine i db).1 = 204 <-> db !! i <> None)
     /\ (Http.statusOf (ProjectRoutes.deleteProjectRoute engine i db).1 = 404
         <-> db !! i = None)
     /\ Storage.getProjectRequest engine i (ProjectRoutes.deleteProjectRoute engine i db).2
        = Http.Failure 404 "Project not found"
     /\ ProjectRoutes.deleteProjectRoute engine i (ProjectRoutes.deleteProjectRoute engine i db).2
        = (Http.Failure 404 "Project not found",
           (ProjectRoutes.deleteProjectRoute engine i db).2))
  /\ (Storage.bindsId engine i = false ->
        ProjectRoutes.deleteProjectRoute engine i db
        = (Http.Failure 500 "Failed to delete project", db))
  /\ (forall j, j <> i ->
        Storage.getProjectRequest engine j (ProjectRoutes.deleteProjectRoute engine i db).2
        = Storage.getProjectRequest engine j db).
Proof.
  unfold ProjectRoutes.deleteProjectRoute, Storage.deleteProject.
  destruct (Storage.bindsId engine i) eqn:Hid.
  - assert (Hafter : (let (o, db') := (Storage.Returned (bool_decide (is_Some (db !! i))),
                                        delete i db) in
                      match o with
                      | Storage.Returned true => (Http.Json 204 tt, db')
                      | Storage.Returned false => (Http.Failure 404 "Project not found", db')
                      | Storage.Thrown => (Http.Failure 500 "Failed to delete project", db')
                      end).2 = delete i db).
    { destruct (bool_decide _); reflexivity. }
    split; [intros _|split; [discriminate|]].
    + cbn beta iota in *. rewrite !Hafter.
      split; [|split; [|split]].
      * destruct (db !! i) as [row|]; cbn; split; congruence.
      * destruct (db !! i) as [row|]; cbn; split; congruence.
      * unfold Storage.getProjectRequest. rewrite Hid.
        apply getProjectRoute_missing, lookup_delete_eq.
      * rewrite lookup_delete_eq. cbn. rewrite delete_delete_eq. reflexivity.
    + intros j Hne. cbn beta iota in *. rewrite Hafter.
      apply getProjectRequest_same_row, lookup_delete_ne. congruence.
  - split; [discriminate|]. split; [reflexivity|]. intros j _. reflexivity.
Qed.

Lemma delete_then_get_witness :
  ProjectRoutes.deleteProjectRoute plainEngine "p1" demoDb = (Http.Json 204 tt, ∅)
  /\ Storage.getProjectRequest plainEngine "p1"
       (ProjectRoutes.deleteProjectRoute plainEngine "p1" demoDb).2
     = Http.Failure 404 "Project not found"
  /\ ProjectRoutes.deleteProjectRoute plainEngine (String "000" "p1") demoDb
     = (Http.Failure 500 "Failed to delete project", demoDb).
Proof.
  destruct (delete_then_get plainEngine "p1" demoDb) as (Hbound & _ & _).
  destruct (Hbound eq_refl) as (_ & _ & Hread & _).
  destruct (delete_then_get plainEngine (String "000" "p1") demoDb) as (_ & Hunbound & _).
  split; [vm_compute; reflexivity|]. split; [exact Hread | apply Hunbound; reflexivity].
Defined.

(** X24.  The list route answers exactly the projects that the read route
    finds: a project is in the list if and only if reading its identifier
    answers it, the list has one entry per stored row, and no identifier
    occurs twice in it. *)
Theorem list_agrees_with_get (db : gmap string Storage.DbRow) :
  exists ps,
    ProjectRoutes.listProjectsRoute db = Http.Json 200 ps
    /\ (forall p, In p ps <-> Storage.getProjectRoute (id p) db = Http.Json 200 p)
    /\ length ps = size db
    /\ List.NoDup (map id ps).
Proof.
  eexists. split; [reflexivity|]. unfold Storage.getAllProjects. split; [|split].
  - intros p. rewrite in_map_iff. split.
    + intros ([i row] & <- & Hin). apply list_elem_of_In, elem_of_map_to_list in Hin.
      apply (getProjectRoute_found i db row Hin).
    + unfold Storage.getProjectRoute, Storage.getProject.
      destruct (db !! id p) as [row|] eqn:Hrow; cbn; [|discriminate].
      intros [= Hp]. exists (id p, row). split; [exact Hp|].
      apply list_elem_of_In, elem_of_map_to_list, Hrow.
  - rewrite length_map. apply length_map_to_list.
  - rewrite map_map.
    rewrite (map_ext _ fst) by (intros [i row]; reflexivity).
    apply NoDup_ListNoDup, NoDup_fst_map_to_list.
Qed.

(** X25.  The client's save sends the whole project as the body of a patch,
    under the project's own identifier, taken to be one that stands for itself
    in the path of the request.  When the database binds that identifier: for a project the table does not hold, as the one the create
    fallback builds locally, the save answers 404 and stores nothing; for a
    stored project it answers the local project, every field in the form the
    database stores it, with the row's creation time and the time of the save
    as update time (the body's own identifier and timestamps are ignored), and
    reading the project back answers the same; when the database refuses a
    field the save answers 500 and stores nothing.  When the database does not
    bind the identifier the save answers 500 and stores nothing. *)
Theorem save_then_get (engine : Storage.Engine) (local : ArchitectureProject) (now : string)
    (db : gmap string Storage.DbRow) :
  plainId (id local) = true ->
  (Storage.bindsId engine (id local) = true ->
     (db !! id local = None ->
        ProjectRoutes.saveProject engine local now db
        = (Http.Failure 404 "Project not found", db))
     /\ (forall row, db !! id local = Some row ->
           match savedProject engine local row now with
           | Some stored =>
               (ProjectRoutes.saveProject engine local now db).1 = Http.Json 200 stored
               /\ Storage.getProjectRequest engine (id local)
                    (ProjectRoutes.saveProject engine local now db).2 = Http.Json 200 stored
           | None =>
               ProjectRoutes.saveProject engine local now db
               = (Http.Failure 500 "Failed to update project", db)
           end))
  /\ (Storage.bindsId engine (id local) = false ->
        ProjectRoutes.saveProject engine local now db
        = (Http.Failure 500 "Failed to update project", db)).
Proof.
  intros _. split.
  - intros Hid. split.
    + intros Hmissing. unfold ProjectRoutes.saveProject, Storage.patchProject.
      rewrite (updateProject_missing engine _ _ now db Hid Hmissing). reflexivity.
    + intros row Hrow. rewrite <- saved_row_reads_back.
      unfold ProjectRoutes.saveProject, Storage.patchProject.
      destruct (Storage.setColumns engine
                  (Storage.updateData (ProjectRoutes.wholeProject local) now) row)
        as [row'|] eqn:Hset; cbn [fmap option_fmap option_map].
      * rewrite (updateProject_existing engine _ _ now db row row' Hid Hrow Hset).
        cbn [fst snd]. split; [reflexivity|].
        unfold Storage.getProjectRequest. rewrite Hid.
        apply getProjectRoute_found, lookup_insert_eq.
      * rewrite (updateProject_refused engine _ _ now db row Hid Hrow Hset). reflexivity.
  - intros Hid. unfold ProjectRoutes.saveProject, Storage.patchProject.
    rewrite (updateProject_unbound engine _ _ now db Hid). reflexivity.
Qed.

Lemma save_then_get_witness :
  (exists stored,
     savedProject plainEngine localDemo demoRow "2024-03-03T00:00:00.000Z" = Some stored
     /\ (ProjectRoutes.saveProject plainEngine localDemo "2024-03-03T00:00:00.000Z" demoDb).1
        = Http.Json 200 stored
     /\ services stored = [demoService])
  /\ ProjectRoutes.saveProject plainEngine emptyProject "2024-03-03T00:00:00.000Z" demoDb
     = (Http.Failure 404 "Project not found", demoDb).
Proof.
  destruct (save_then_get plainEngine localDemo "2024-03-03T00:00:00.000Z" demoDb eq_refl)
    as (Hbound & _).
  destruct (Hbound eq_refl) as (_ & Hstored).
  destruct (save_then_get plainEngine emptyProject "2024-03-03T00:00:00.000Z" demoDb eq_refl)
    as (Hlocal & _).
  destruct (Hlocal eq_refl) as (Hmissing & _).
  split.
  - specialize (Hstored demoRow eq_refl).
    destruct (savedProject plainEngine localDemo demoRow "2024-03-03T00:00:00.000Z")
      as [stored|] eqn:Hsaved; [|discriminate Hsaved].
    exists stored. split; [reflexivity|]. split; [apply Hstored|].
    vm_compute in Hsaved. injection Hsaved as <-. reflexivity.
  - apply Hmissing. reflexivity.
Defined.

(** ** Validation does not depend on the clock or the random source *)

Section RepeatFacts.

Import Validation.

Variables (clock clock' : nat -> Z) (random random' : nat -> string).

Lemma stripId_circular (es : list (string * string)) :
  forall k k',
    map stripId (circularResults clock random k es)
    = map stripId (circularResults clock' random' k' es).
Proof.
  induction es as [|e es IH]; intros k k'; [reflexivity|].
  cbn [circularResults map]. rewrite (IH (S k) (S k')). reflexivity.
Qed.

Lemma validateA_repeat (p : ArchitectureProject) :
  map stripId (validations (validateA clock random p noResults).2)
  = map stripId (validations (validateA clock' random' p noResults).2).
Proof.
  unfold validateA. rewrite !bind_run. unfold when.
  change (∅ : gset string) with (recordedKeys []).
  rewrite !scanServices_run. cbn [fst snd ret validations].
  rewrite !map_app. f_equal; [|apply stripId_circular].
  destruct (length (services p) =? 0)%nat;
    destruct (length (boundedContexts p) =? 0)%nat;
    destruct (0 <? length (List.filter _ (services p)))%nat;
    reflexivity.
Qed.

Lemma validateB_repeat (p : ArchitectureProject) :
  map stripId (validations (validateB clock random p noResults).2)
  = map stripId (validations (validateB clock' random' p noResults).2).
Proof.
  unfold validateB. rewrite !bind_run. unfold when.
  destruct (0 <? length (List.filter (fun s => negb _) (services p)))%nat;
    [|destruct (0 <? length (containerConfigs p))%nat];
    destruct (0 <? length (List.filter (fun c => String.eqb _ _) (containerConfigs p)))%nat;
    destruct (0 <? length (List.filter (fun c => negb (JS.truthyOption _)) (containerConfigs p)))%nat;
    reflexivity.
Qed.

Lemma validateC_repeat (p : ArchitectureProject) :
  map stripId (validations (validateC clock random p noResults).2)
  = map stripId (validations (validateC clock' random' p noResults).2).
Proof.
  unfold validateC. rewrite !bind_run. unfold when.
  destruct (length (k8sManifests p) =? 0)%nat;
    destruct (length (sloDefinitions p) =? 0)%nat;
    destruct (length (autoscalingStrategies p) =? 0)%nat;
    reflexivity.
Qed.

Lemma validateD_repeat (p : ArchitectureProject) :
  map stripId (validations (validateD clock random p noResults).2)
  = map stripId (validations (validateD clock' random' p noResults).2).
Proof.
  unfold validateD. rewrite !bind_run.
  destruct (length (resiliencePatterns p) =? 0)%nat;
    destruct (length (observabilityConfigs p) =? 0)%nat;
    reflexivity.
Qed.

End RepeatFacts.

(** X26.  The clock and the random source decide the identifiers of the
    results and nothing else: two validations of the same project for the
    same phase answer with the same status code and the same results in the
    same order, identifiers apart, whatever the time and the random draws. *)
Theorem validation_repeatable_up_to_ids (clock clock' : nat -> Z) (random random' : nat -> string)
    (project : option ArchitectureProject) (phase : option string) :
  Http.statusOf (Validation.validate clock random project phase)
  = Http.statusOf (Validation.validate clock' random' project phase)
  /\ map stripId (resultsOf (Validation.validate clock random project phase))
     = map stripId (resultsOf (Validation.validate clock' random' project phase)).
Proof.
  destruct project as [p|]; [|split; reflexivity].
  rewrite !validate_run. cbn [Http.statusOf resultsOf]. split; [reflexivity|].
  destruct phase as [token|]; [|reflexivity]. unfold Validation.validatePhase.
  destruct (String.eqb token "A"); [apply validateA_repeat|].
  destruct (String.eqb token "B"); [apply validateB_repeat|].
  destruct (String.eqb token "C"); [apply validateC_repeat|].
  destruct (String.eqb token "D"); [apply validateD_repeat | reflexivity].
Qed.

(** ** The image of the second stage, in general *)

Section ImageFacts.

Lemma replace_not_included (pat rep s : string) :
  JS.includes pat s = false -> JS.replace pat rep s = s.
Proof.
  induction s as [|c s IH]; rewrite includes_unfold, replace_unfold;
    destruct (JS.startsWith pat _); try discriminate; [reflexivity|].
  intros Hrest. rewrite (IH Hrest). reflexivity.
Qed.

End ImageFacts.

(** X27.  The image the second stage runs from.  The two chained
    replacements never produce a [-slim] image from an [-alpine] one: on an
    image name whose only hyphen opens the suffix they leave [-alpine] as it
    is and turn [-slim] into [-alpine].  An image name without [-alpine] has
    its first [-slim] replaced by [-alpine], and one with neither is used
    unchanged. *)
Theorem second_stage_image (stem image : string) :
  (hyphenFree stem = true ->
     Generators.stage2Image (stem +:+ "-alpine") = stem +:+ "-alpine"
     /\ Generators.stage2Image (stem +:+ "-slim") = stem +:+ "-alpine")
  /\ (JS.includes "-alpine" image = false ->
        Generators.stage2Image image = JS.replace "-slim" "-alpine" image)
  /\ (JS.includes "-alpine" image = false -> JS.includes "-slim" image = false ->
        Generators.stage2Image image = image).
Proof.
  split; [|split].
  - intros Hfree. split; [apply stage2Image_alpine | apply stage2Image_slim]; exact Hfree.
  - intros Halpine. unfold Generators.stage2Image.
    rewrite (replace_not_included _ _ _ Halpine). reflexivity.
  - intros Halpine Hslim. unfold Generators.stage2Image.
    rewrite (replace_not_included _ _ _ Halpine). apply replace_not_included, Hslim.
Qed.

Lemma second_stage_image_witness :
  Generators.stage2Image "python:3.11-slim" = "python:3.11-alpine"
  /\ Generators.stage2Image "golang:1.22-alpine" = "golang:1.22-alpine"
  /\ Generators.stage2Image "ubuntu:22.04" = "ubuntu:22.04".
Proof.
  destruct (second_stage_image "python:3.11" "ubuntu:22.04") as (Hpython & _ & Hplain).
  destruct (second_stage_image "golang:1.22" "ubuntu:22.04") as (Hgolang & _ & _).
  split; [apply Hpython; reflexivity|].
  split; [apply Hgolang; reflexivity|].
  apply Hplain; reflexivity.
Defined.

(** ** The [app] label *)

Section LabelRecordFacts.

Lemma recordGet_set_same (key value : string) (record : StringRecord) :
  recordGet key (Generators.setProperty key value record) = Some value.
Proof.
  induction record as [|[k v] record IH]; cbn [Generators.setProperty recordGet].
  - rewrite String.eqb_refl. reflexivity.
  - destruct (String.eqb k key) eqn:Hk; cbn [recordGet]; rewrite Hk; [reflexivity | exact IH].
Qed.

Lemma recordGet_set_other (key value other : string) (record : StringRecord) :
  other <> key ->
  recordGet other (Generators.setProperty key value record) = recordGet other record.
Proof.
  intros Hne. induction record as [|[k v] record IH]; cbn [Generators.setProperty recordGet].
  - destruct (String.eqb_spec key other); [congruence | reflexivity].
  - destruct (String.eqb_spec k key) as [->|_]; cbn [recordGet].
    + destruct (String.eqb_spec key other); [congruence | reflexivity].
    + rewrite IH. reflexivity.
Qed.

End LabelRecordFacts.

(** X28.  The generated workload always selects its own pods.  Server and
    client set the [app] label to the lower-cased service name, over any
    [app] label the manifest carries and leaving every other label as it is;
    the label section, the selector and the pod template's label all carry
    that same value, and the client's preview uses the same labels. *)
Theorem app_label_is_service_name (m : K8sManifest) (serviceName : string)
    (containerConfig : option ContainerConfig) :
  recordGet "app" (Generators.manifestLabels m serviceName) = Some (JS.toLowerCase serviceName)
  /\ (forall key, key <> "app" ->
        recordGet key (Generators.manifestLabels m serviceName) = recordGet key (k8s_labels m))
  /\ nth_error (Generators.manifestLines m serviceName containerConfig) 6
     = Some (Generators.labelSection (Generators.manifestLabels m serviceName))
  /\ nth_error (Generators.manifestLines m serviceName containerConfig) 11
     = Some ("      app: " +:+ JS.toLowerCase serviceName)
  /\ nth_error (Generators.manifestLines m serviceName containerConfig) 18
     = Some ("        app: " +:+ JS.toLowerCase serviceName)
  /\ nth_error (Generators.manifestLines m serviceName containerConfig) 41
     = Some ("    app: " +:+ JS.toLowerCase serviceName)
  /\ nth_error (Preview.manifestLines m serviceName containerConfig) 6
     = Some (Generators.labelSection (Generators.manifestLabels m serviceName)).
Proof.
  split; [apply recordGet_set_same|].
  split; [intros key Hne; apply recordGet_set_other, Hne|].
  repeat split; reflexivity.
Qed.

(** ** The list texts of the service and context dialogs *)

Section ListTextFacts.











End ListTextFacts.


